(** * Subconscious daemon: playbook, session scanner and task scheduler

    A shallow embedding of [src/subconscious-daemon/playbook.py],
    [session_scanner.py] and, of [daemon.py], the dispatch of a cycle, the
    curator loop and the handlers that make no inference call.

    Conventions of the embedding.
    - A Python [int] is a [Z], and an [N] where it counts (the counters of a
      bullet start at 0 and only grow); a Python [float] is the rational it
      denotes ([Q], compared with [Qle_bool]). The rounding of [/] is left
      out: for counters below 2^26 distinct ratios stay distinct and in
      order, and a ratio of 1/2 or 1 is exact. The rounding of [*] in the
      score is left out as well.
    - A Python [str] is a [string] holding its UTF-8 bytes; [len] counts code
      points ([py_len]); [lower], [upper], [split] and [strip] are modelled
      on ASCII text.
    - A [dict] that is iterated is an association list in insertion order
      with pairwise distinct keys; a [set] is a [gset].
    - Library calls whose result the code only consumes ([math.log1p],
      [datetime.now], [datetime.fromisoformat], [json.loads]) are taken
      as parameters or as already applied to the file content. *)

From Stdlib Require Import ZArith QArith Lqa String Ascii List Sorted Lia.
From Stdlib Require OrderedTypeEx.
From stdpp Require Import base gmap sets list strings pretty.

Open Scope string_scope.
Open Scope Z_scope.

Set Warnings "-register-all".

(** ** Floats *)

Definition Qlt_bool (x y : Q) : bool := negb (Qle_bool y x).

(** ** Bullet (playbook.py, class Bullet) *)

Record Bullet := mkBullet {
  id : string;
  content : string;
  section : string;
  helpful_count : N;
  harmful_count : N;
  source_session : string;
  added : string;
  last_referenced : string;
  last_validated : string
}.

Definition total_references (b : Bullet) : N :=
  (helpful_count b + harmful_count b)%N.

Definition quality_ratio (b : Bullet) : Q :=
  let total := (helpful_count b + harmful_count b)%N in
  if (total =? 0)%N then 1 # 2
  else (inject_Z (Z.of_N (helpful_count b)) / inject_Z (Z.of_N total))%Q.

(** ** Playbook (playbook.py, class Playbook) *)

Record Metadata := mkMetadata {
  total_sessions_analyzed : Z;
  total_deltas_applied : Z;
  total_bullets_pruned : Z
}.

Record Playbook := mkPlaybook {
  sections : list (string * list Bullet);
  metadata : Metadata
}.

Definition add_pruned (n : Z) (pb : Playbook) (secs : list (string * list Bullet))
  : Playbook :=
  let m := metadata pb in
  {| sections := secs;
     metadata := {| total_sessions_analyzed := total_sessions_analyzed m;
                    total_deltas_applied := total_deltas_applied m;
                    total_bullets_pruned := total_bullets_pruned m + n |} |}.

(** *** Pruning *)

(** [Playbook._should_prune]: the three [if]s in source order. *)
Definition _should_prune (bullet : Bullet) (cutoff : string) (min_quality : Q)
  : bool :=
  if (total_references bullet <? 5)%N then false
  else if Qlt_bool (quality_ratio bullet) min_quality then true
  else if String.ltb (last_referenced bullet) cutoff
          && (total_references bullet <? 3)%N then true
  else false.

(** The predicate of the same name written from the prose of the
    specification; compared with [_should_prune] below. *)
Definition spec_should_prune (bullet : Bullet) (cutoff : string) (min_quality : Q)
  : bool :=
  (5 <=? total_references bullet)%N
  && (Qlt_bool (quality_ratio bullet) min_quality
      || (String.ltb (last_referenced bullet) cutoff
          && (total_references bullet <? 3)%N)).

(** The one-gate predicate: enough references and quality below the floor. *)
Definition simple_should_prune (bullet : Bullet) (min_quality : Q) : bool :=
  (5 <=? total_references bullet)%N
  && Qlt_bool (quality_ratio bullet) min_quality.

Section Pruning.
(** [cutoff_of d] is [(datetime.now() - timedelta(days=d)).isoformat()] at
    the instant [prune_stale] is called. *)
Variable cutoff_of : Z -> string.

Definition prune_section (cutoff : string) (min_quality : Q)
    (bs : list Bullet) : list Bullet :=
  List.filter (fun b => negb (_should_prune b cutoff min_quality)) bs.

(** The loop over the sections; returns the new sections and [pruned]. *)
Fixpoint prune_sections (cutoff : string) (min_quality : Q)
    (secs : list (string * list Bullet)) : list (string * list Bullet) * Z :=
  match secs with
  | [] => ([], 0)
  | (name, bs) :: rest =>
      let kept := prune_section cutoff min_quality bs in
      let '(rest', pruned) := prune_sections cutoff min_quality rest in
      ((name, kept) :: rest',
       (Z.of_nat (length bs) - Z.of_nat (length kept)) + pruned)
  end.

Definition prune_stale (stale_days : Z) (min_quality : Q) (pb : Playbook)
  : Playbook * Z :=
  let cutoff := cutoff_of stale_days in
  let '(secs, pruned) := prune_sections cutoff min_quality (sections pb) in
  if pruned =? 0 then ({| sections := secs; metadata := metadata pb |}, pruned)
  else (add_pruned pruned pb secs, pruned).
End Pruning.

(** *** Text similarity *)

(** [str.lower], on ASCII letters. *)
Definition lower_ascii (c : ascii) : ascii :=
  let n := nat_of_ascii c in
  if ((65 <=? n) && (n <=? 90))%nat then ascii_of_nat (n + 32) else c.

Fixpoint lower (s : string) : string :=
  match s with
  | EmptyString => EmptyString
  | String c s' => String (lower_ascii c) (lower s')
  end.

(** The ASCII characters [str.split()] treats as separators:
    TAB, LF, VT, FF, CR, FS, GS, RS, US and the space. *)
Definition is_space (c : ascii) : bool :=
  let n := nat_of_ascii c in
  (((9 <=? n) && (n <=? 13)) || ((28 <=? n) && (n <=? 32)))%nat.

Definition flush (cur : string) (acc : list string) : list string :=
  match cur with
  | EmptyString => acc
  | _ => String.rev cur :: acc
  end.

(** [split_go cur s]: the words of [s], [cur] being the reversed word read
    so far. *)
Fixpoint split_go (cur : string) (s : string) : list string :=
  match s with
  | EmptyString => flush cur []
  | String c s' =>
      if is_space c then flush cur (split_go EmptyString s')
      else split_go (String c cur) s'
  end.

Definition split (s : string) : list string := split_go EmptyString s.

Definition word_set (s : string) : gset string :=
  list_to_set (split (lower s)).

(** [Playbook._text_similarity]: Jaccard index of the two word sets. *)
Definition _text_similarity (a b : string) : Q :=
  let words_a := word_set a in
  let words_b := word_set b in
  if bool_decide (words_a = ∅) || bool_decide (words_b = ∅) then 0%Q
  else
    let intersection := words_a ∩ words_b in
    let union := words_a ∪ words_b in
    (inject_Z (Z.of_nat (size intersection))
     / inject_Z (Z.of_nat (size union)))%Q.

(** *** Deduplication *)

(** [survivor.helpful_count += loser.helpful_count], same for harmful. *)
Definition merge_counts (survivor loser : Bullet) : Bullet :=
  {| id := id survivor;
     content := content survivor;
     section := section survivor;
     helpful_count := (helpful_count survivor + helpful_count loser)%N;
     harmful_count := (harmful_count survivor + harmful_count loser)%N;
     source_session := source_session survivor;
     added := added survivor;
     last_referenced := last_referenced survivor;
     last_validated := last_validated survivor |}.

(** The state of the two nested loops: the list [bullets], whose elements
    are updated in place, and the index set [to_remove]. *)
Definition dedup_state : Type := list Bullet * gset nat.

(** One iteration of the inner loop, at indices [i < j]. *)
Definition dedup_inner (similarity_threshold : Q) (i : nat)
    (st : dedup_state) (j : nat) : dedup_state :=
  let '(bullets, to_remove) := st in
  if bool_decide (j ∈ to_remove) then st
  else
    match bullets !! i, bullets !! j with
    | Some bi, Some bj =>
        let sim := _text_similarity (content bi) (content bj) in
        if Qle_bool similarity_threshold sim then
          if Qle_bool (quality_ratio bj) (quality_ratio bi) then
            (<[i := merge_counts bi bj]> bullets, {[j]} ∪ to_remove)
          else
            (<[j := merge_counts bj bi]> bullets, {[i]} ∪ to_remove)
        else st
    | _, _ => st
    end.

(** One iteration of the outer loop: [for j in range(i + 1, len(bullets))].
    The inner loop has no [break]: it runs to the end also after [i] itself
    was added to [to_remove]. *)
Definition dedup_outer (similarity_threshold : Q) (n : nat)
    (st : dedup_state) (i : nat) : dedup_state :=
  if bool_decide (i ∈ snd st) then st
  else fold_left (dedup_inner similarity_threshold i)
                 (seq (S i) (n - S i)) st.

Definition dedup_pairs (similarity_threshold : Q) (bullets : list Bullet)
  : dedup_state :=
  fold_left (dedup_outer similarity_threshold (length bullets))
            (seq 0 (length bullets)) (bullets, ∅).

(** [[b for idx, b in enumerate(bullets) if idx not in to_remove]], the
    enumeration starting at [k]. *)
Fixpoint drop_indices (to_remove : gset nat) (k : nat) (bullets : list Bullet)
  : list Bullet :=
  match bullets with
  | [] => []
  | b :: rest =>
      if bool_decide (k ∈ to_remove) then drop_indices to_remove (S k) rest
      else b :: drop_indices to_remove (S k) rest
  end.

(** The body of the loop over the sections: the new list of the section and
    the number of bullets removed from it. *)
Definition dedup_section (similarity_threshold : Q) (bullets : list Bullet)
  : list Bullet * Z :=
  if (length bullets <? 2)%nat then (bullets, 0)
  else
    let '(bullets', to_remove) := dedup_pairs similarity_threshold bullets in
    if bool_decide (to_remove = ∅) then (bullets', 0)
    else (drop_indices to_remove 0 bullets', Z.of_nat (size to_remove)).

Fixpoint dedup_sections (similarity_threshold : Q)
    (secs : list (string * list Bullet)) : list (string * list Bullet) * Z :=
  match secs with
  | [] => ([], 0)
  | (name, bs) :: rest =>
      let '(bs', k) := dedup_section similarity_threshold bs in
      let '(rest', removed) := dedup_sections similarity_threshold rest in
      ((name, bs') :: rest', k + removed)
  end.

(** [Playbook.deduplicate]; returns the playbook and [removed]. *)
Definition deduplicate (similarity_threshold : Q) (pb : Playbook)
  : Playbook * Z :=
  let '(secs, removed) := dedup_sections similarity_threshold (sections pb) in
  if removed =? 0 then ({| sections := secs; metadata := metadata pb |}, removed)
  else (add_pruned removed pb secs, removed).

(** Sums of the counters of a section. *)
Definition sum_helpful (bs : list Bullet) : N :=
  fold_right N.add 0%N (map helpful_count bs).
Definition sum_harmful (bs : list Bullet) : N :=
  fold_right N.add 0%N (map harmful_count bs).

(** *** Selection and export *)

(** The line feed, written [\n] in the source. *)
Definition nl : string := String (ascii_of_nat 10) EmptyString.

(** [len] of a [str]: the code points of the UTF-8 text, that is the bytes
    that are not continuation bytes (10xxxxxx). *)
Fixpoint py_len (s : string) : Z :=
  match s with
  | EmptyString => 0
  | String c s' =>
      let n := nat_of_ascii c in
      (if ((128 <=? n) && (n <? 192))%nat then 0 else 1) + py_len s'
  end.

(** Stable sort in descending key order, as [list.sort(key=..., reverse=True)]:
    elements with equal keys keep the order they had. *)
Fixpoint insert_desc {A : Type} (key : A -> Q) (x : A) (l : list A) : list A :=
  match l with
  | [] => [x]
  | y :: l' =>
      if Qle_bool (key y) (key x) then x :: y :: l'
      else y :: insert_desc key x l'
  end.

Definition sort_desc {A : Type} (key : A -> Q) (l : list A) : list A :=
  fold_right (insert_desc key) [] l.

(** [d[k]] / [k in d] on a dict held as an association list. *)
Fixpoint dict_get {V : Type} (d : list (string * V)) (k : string) : option V :=
  match d with
  | [] => None
  | (k', v) :: d' => if String.eqb k' k then Some v else dict_get d' k
  end.

(** [l[:n]] *)
Definition slice_to {A : Type} (n : Z) (l : list A) : list A :=
  if n <? 0 then take (Z.to_nat (Z.of_nat (length l) + n)) l
  else take (Z.to_nat n) l.

Definition role_sections : list (string * list string) :=
  [ ("planner", ["architecture"; "build_ordering"; "general"]);
    ("builder", ["import_resolution"; "flask_patterns"; "dataclass_patterns";
                 "sqlite_patterns"; "stdlib_usage"; "error_recovery";
                 "general"]);
    ("test_gen", ["test_generation"; "import_resolution"; "general"]);
    ("initializer", ["architecture"; "general"]);
    ("explorer", ["architecture"; "general"]) ].

Definition header : string :=
  "## Coding Playbook (learned patterns — follow these)" ++ nl.

(** [f"- [{bullet.id}] {bullet.content}\n"] *)
Definition bullet_line (bullet : Bullet) : string :=
  "- [" ++ id bullet ++ "] " ++ content bullet ++ nl.

(** The loop that appends lines until one does not fit; [break] ends it. *)
Fixpoint append_lines (char_budget char_count : Z) (bullets : list Bullet)
  : list string :=
  match bullets with
  | [] => []
  | bullet :: rest =>
      let line := bullet_line bullet in
      if char_count + py_len line >? char_budget then []
      else line :: append_lines char_budget (char_count + py_len line) rest
  end.

Section Scoring.
(** [math.log1p] on the integer it is given, as the float it returns.
    The code calls it on [total_references + 1], which is at least 1. *)
Variable log1p : Z -> Q.

(** The sort key of [get_top_bullets] and of [export_for_agent]:
    [b.quality_ratio * math.log1p(b.total_references + 1)]. *)
Definition score (b : Bullet) : Q :=
  (quality_ratio b * log1p (Z.of_N (total_references b) + 1))%Q.

(** The score as the specification words it,
    [quality_ratio * log(1 + total_references)]; [log(1 + x)] is
    [log1p x]. *)
Definition spec_score (b : Bullet) : Q :=
  (quality_ratio b * log1p (Z.of_N (total_references b)))%Q.

(** [section_filter] is [None] or a string; an empty string is falsy. *)
Definition top_candidates (section_filter : option string)
    (secs : list (string * list Bullet)) : list Bullet :=
  flat_map
    (fun '(section_name, bullets) =>
       match section_filter with
       | Some f =>
           if negb (String.eqb f "") && negb (String.eqb section_name f)
           then [] else bullets
       | None => bullets
       end)
    secs.

Definition get_top_bullets (pb : Playbook) (n : Z)
    (section_filter : option string) : list Bullet :=
  slice_to n (sort_desc score (top_candidates section_filter (sections pb))).

Definition relevant_sections (pb : Playbook) (role : string) : list string :=
  match dict_get role_sections role with
  | Some l => l
  | None => map fst (sections pb)
  end.

Definition export_candidates (pb : Playbook) (role : string) : list Bullet :=
  flat_map
    (fun sec => match dict_get (sections pb) sec with
                | Some bullets => bullets
                | None => []
                end)
    (relevant_sections pb role).

Definition export_for_agent (pb : Playbook) (role : string) (max_tokens : Z)
  : string :=
  let bullets := sort_desc score (export_candidates pb role) in
  let char_budget := max_tokens * 4 in
  let char_count := py_len header in
  String.concat "" (header :: append_lines char_budget char_count bullets).
End Scoring.

(** ** Python values and exceptions *)

(** What [json.loads] returns. A [dict] is the list of its items, keys
    pairwise distinct. *)
Inductive json : Type :=
| JNull
| JBool (b : bool)
| JInt (n : Z)
| JFloat (q : Q)
| JStr (s : string)
| JArr (items : list json)
| JObj (items : list (string * json)).

Inductive pyexn : Type :=
| AttributeError | TypeError | KeyError | ValueError | JSONDecodeError
| UnicodeDecodeError | OSError.

(** A computation that returns or raises. *)
Inductive result (A : Type) : Type :=
| Ok (a : A)
| Raise (e : pyexn).
Arguments Ok {A} a.
Arguments Raise {A} e.

Definition bind {A B : Type} (m : result A) (f : A -> result B) : result B :=
  match m with
  | Ok a => f a
  | Raise e => Raise e
  end.

Notation "'let*' x ':=' m 'in' k" := (bind m (fun x => k))
  (at level 10, x name, m at level 100, k at level 200).

(** Why [path.read_text()] fails on a file that exists: its bytes are no
    UTF-8 text, or the file cannot be opened. *)
Inductive read_failure : Type :=
| NotUtf8
| NotReadable.

(** What [read_text] raises then. [UnicodeDecodeError] is a [ValueError];
    [OSError] is not. *)
Definition read_error (why : read_failure) : pyexn :=
  match why with
  | NotUtf8 => UnicodeDecodeError
  | NotReadable => OSError
  end.

(** A file that is read with [json.loads(path.read_text())]: it does not
    exist, [read_text] fails, [json.loads] raises [JSONDecodeError] on its
    text, or the text parses. *)
Inductive json_file : Type :=
| Missing
| Unreadable (why : read_failure)
| Malformed
| Parsed (v : json).

(** [bool(v)] *)
Definition truthy (v : json) : bool :=
  match v with
  | JNull => false
  | JBool b => b
  | JInt n => negb (n =? 0)
  | JFloat q => negb (Qeq_bool q 0)
  | JStr s => negb (String.eqb s "")
  | JArr l => match l with [] => false | _ => true end
  | JObj l => match l with [] => false | _ => true end
  end.

(** [v.get(k, default)]: only a [dict] has the method. *)
Definition py_get (v : json) (k : string) (default : json) : result json :=
  match v with
  | JObj items => Ok (match dict_get items k with
                      | Some x => x
                      | None => default
                      end)
  | _ => Raise AttributeError
  end.

(** The code points of a [str], each as a string of its own. *)
Fixpoint chars_go (cur : string) (s : string) : list string :=
  match s with
  | EmptyString => flush cur []
  | String c s' =>
      let n := nat_of_ascii c in
      if ((128 <=? n) && (n <? 192))%nat then chars_go (String c cur) s'
      else flush cur (chars_go (String c EmptyString) s')
  end.

Definition chars (s : string) : list string := chars_go EmptyString s.

(** [for c in v]: the elements of a list, the keys of a dict, the
    characters of a string. *)
Definition py_iter (v : json) : result (list json) :=
  match v with
  | JArr l => Ok l
  | JObj items => Ok (map (fun kv => JStr (fst kv)) items)
  | JStr s => Ok (map JStr (chars s))
  | _ => Raise TypeError
  end.

(** [len(v)] *)
Definition py_len_of (v : json) : result Z :=
  match v with
  | JArr l => Ok (Z.of_nat (length l))
  | JObj items => Ok (Z.of_nat (length items))
  | JStr s => Ok (py_len s)
  | _ => Raise TypeError
  end.

Definition hashable (v : json) : bool :=
  match v with
  | JArr _ | JObj _ => false
  | _ => true
  end.

Definition str_of (v : json) : list string :=
  match v with
  | JStr s => [s]
  | _ => []
  end.

(** [set(v)], as far as membership of a [str] can tell: the strings among
    the elements. An element that is a list or a dict is unhashable. *)
Definition py_str_set (v : json) : result (gset string) :=
  let* items := py_iter v in
  if forallb hashable items then Ok (list_to_set (flat_map str_of items))
  else Raise TypeError.

(** ** Session scanner (session_scanner.py) *)

Record SessionTrace := mkSessionTrace {
  session_id : string;
  session_dir : string;
  goal : json;
  iterations_used : json;
  max_iterations : Z;
  completed : bool;
  success : bool;
  dod_total : Z;
  dod_passed : Z;
  dod_criteria : json;
  failure_history : json;
  build_failures : list json;
  test_failures : list json;
  rca_failures : list json;
  sampling_results : list json;
  source_files : gmap string string;
  test_files : gmap string string;
  started_at : json;
  completed_at : json
}.

(** [SessionTrace.test_pass_rate] *)
Definition test_pass_rate (t : SessionTrace) : Q :=
  if dod_total t =? 0 then 0%Q
  else (inject_Z (dod_passed t) / inject_Z (dod_total t))%Q.

(** A line of a trace log: blank, not JSON, or a JSON value. *)
Inductive trace_line : Type :=
| LineBlank
| LineBad
| LineJson (entry : json).

(** An entry of the sessions directory, with what the scanner reads of it:
    the completion marker [.agents/state.json], the two trace logs and the
    summary under [.agents/traces], and the [*.py] files with their text
    ([None] when reading fails). *)
Record SessionDir := mkSessionDir {
  name : string;
  path : string;
  is_dir : bool;
  state_file : json_file;
  training_traces : option (list trace_line);
  failure_traces : option (list trace_line);
  for_claude : option string;
  py_files : list (string * option string)
}.

Record SessionScanner := mkSessionScanner {
  sessions_dir : option (list SessionDir);
  _processed : gset string
}.

(** [sorted(self.sessions_dir.iterdir())]: paths of one directory compare
    by their last component. *)
Fixpoint insert_by_name (d : SessionDir) (l : list SessionDir)
  : list SessionDir :=
  match l with
  | [] => [d]
  | e :: l' =>
      if String.leb (name d) (name e) then d :: e :: l'
      else e :: insert_by_name d l'
  end.

Definition sorted_by_name (l : list SessionDir) : list SessionDir :=
  fold_right insert_by_name [] l.

Definition state_file_exists (d : SessionDir) : bool :=
  match state_file d with
  | Missing => false
  | _ => true
  end.

(** The loop of [find_new_sessions] over the sorted entries. *)
Fixpoint new_sessions_of (processed : gset string) (entries : list SessionDir)
  : result (list SessionDir) :=
  match entries with
  | [] => Ok []
  | d :: rest =>
      if negb (is_dir d) then new_sessions_of processed rest
      else if bool_decide (name d ∈ processed) then new_sessions_of processed rest
      else
        match state_file d with
        | Missing => new_sessions_of processed rest
        | Unreadable why => Raise (read_error why)
        | Malformed => new_sessions_of processed rest
        | Parsed state =>
            let* completed_at := py_get state "completed_at" JNull in
            let* rest' := new_sessions_of processed rest in
            Ok (if truthy completed_at then d :: rest' else rest')
        end
  end.

Definition find_new_sessions (sc : SessionScanner) : result (list SessionDir) :=
  match sessions_dir sc with
  | None => Ok []
  | Some entries => new_sessions_of (_processed sc) (sorted_by_name entries)
  end.

Definition find_all_sessions (sc : SessionScanner) : list SessionDir :=
  match sessions_dir sc with
  | None => []
  | Some entries =>
      List.filter (fun d => is_dir d && state_file_exists d)
                  (sorted_by_name entries)
  end.

(** [_find_traces_file]: the first of the two names that exists. *)
Definition _find_traces_file (d : SessionDir) : option (list trace_line) :=
  match training_traces d with
  | Some lines => Some lines
  | None => failure_traces d
  end.

Definition is_type (v : json) (s : string) : bool :=
  match v with
  | JStr t => String.eqb t s
  | _ => false
  end.

Definition set_failures (t : SessionTrace)
    (bf tf rf sr : list json) : SessionTrace :=
  {| session_id := session_id t; session_dir := session_dir t;
     goal := goal t; iterations_used := iterations_used t;
     max_iterations := max_iterations t; completed := completed t;
     success := success t; dod_total := dod_total t;
     dod_passed := dod_passed t; dod_criteria := dod_criteria t;
     failure_history := failure_history t;
     build_failures := bf; test_failures := tf; rca_failures := rf;
     sampling_results := sr;
     source_files := source_files t; test_files := test_files t;
     started_at := started_at t; completed_at := completed_at t |}.

Definition set_files (t : SessionTrace)
    (src tst : gmap string string) : SessionTrace :=
  {| session_id := session_id t; session_dir := session_dir t;
     goal := goal t; iterations_used := iterations_used t;
     max_iterations := max_iterations t; completed := completed t;
     success := success t; dod_total := dod_total t;
     dod_passed := dod_passed t; dod_criteria := dod_criteria t;
     failure_history := failure_history t;
     build_failures := build_failures t; test_failures := test_failures t;
     rca_failures := rca_failures t; sampling_results := sampling_results t;
     source_files := src; test_files := tst;
     started_at := started_at t; completed_at := completed_at t |}.

(** The loop over the lines of the trace log, inside [try ... except
    Exception]: the first line that raises ends it, what was appended
    stays. *)
Fixpoint read_traces (lines : list trace_line) (t : SessionTrace)
  : SessionTrace :=
  match lines with
  | [] => t
  | LineBlank :: rest => read_traces rest t
  | LineBad :: _ => t
  | LineJson entry :: rest =>
      match py_get entry "type" (JStr "") with
      | Raise _ => t
      | Ok trace_type =>
          let bf := build_failures t in
          let tf := test_failures t in
          let rf := rca_failures t in
          let sr := sampling_results t in
          read_traces rest
            (if is_type trace_type "build_failure"
             then set_failures t (bf ++ [entry]) tf rf sr
             else if is_type trace_type "test_failure"
             then set_failures t bf (tf ++ [entry]) rf sr
             else if is_type trace_type "rca_failure"
             then set_failures t bf tf (rf ++ [entry]) sr
             else if is_type trace_type "sampling_result"
             then set_failures t bf tf rf (sr ++ [entry])
             else t)
      end
  end.

(** [s.count(pat)]: occurrences that do not overlap; [skip] characters of
    the last occurrence are still to pass. *)
Fixpoint count_go (pat : string) (skip : nat) (s : string) : nat :=
  match s with
  | EmptyString => 0
  | String _ s' =>
      match skip with
      | S k => count_go pat k s'
      | O => if String.prefix pat s
             then S (count_go pat (String.length pat - 1) s')
             else count_go pat 0 s'
      end
  end.

Definition count (s pat : string) : nat := count_go pat 0 s.

(** The summary [for_claude.md], read only when there is no trace log. *)
Definition read_for_claude (d : SessionDir) (t : SessionTrace) : SessionTrace :=
  match for_claude d, _find_traces_file d with
  | Some text, None =>
      let import_errors := count (lower text) "import_error" in
      if (0 <? import_errors)%nat then
        set_failures t (build_failures t)
          (test_failures t ++
           [JObj [("type", JStr "test_failure");
                  ("error_category", JStr "import_error");
                  ("error_output",
                   JStr ("Extracted from for_claude.md: "
                         ++ pretty import_errors ++ " import_error mentions"));
                  ("filename", JStr "unknown")]])
          (rca_failures t) (sampling_results t)
      else t
  | _, _ => t
  end.

(** The loop over [session_dir.glob("*.py")]. *)
Fixpoint read_py_files (files : list (string * option string))
    (t : SessionTrace) : SessionTrace :=
  match files with
  | [] => t
  | (fname, None) :: rest => read_py_files rest t
  | (fname, Some text) :: rest =>
      read_py_files rest
        (if String.prefix "test_" fname
         then set_files t (source_files t) (<[fname := text]> (test_files t))
         else set_files t (<[fname := text]> (source_files t)) (test_files t))
  end.

(** [sum(1 for c in dod_criteria if c.get("passed", False))] *)
Fixpoint count_passed (criteria : list json) : result Z :=
  match criteria with
  | [] => Ok 0
  | c :: rest =>
      let* passed := py_get c "passed" (JBool false) in
      let* n := count_passed rest in
      Ok (if truthy passed then 1 + n else n)
  end.

(** [SessionScanner.parse_session] *)
Definition parse_session (d : SessionDir) : result (option SessionTrace) :=
  match state_file d with
  | Missing => Ok None
  | Unreadable why => Raise (read_error why)
  | Malformed => Ok None
  | Parsed state =>
      let* dod := py_get state "dod" (JObj []) in
      let* criteria := py_get dod "criteria" (JArr []) in
      let* items := py_iter criteria in
      let* passed := count_passed items in
      let* g := py_get state "goal" (JStr "") in
      let* iteration := py_get state "iteration" (JInt 1) in
      let* done_at := py_get state "completed_at" JNull in
      let* total := py_len_of criteria in
      let* history := py_get state "failure_history" (JArr []) in
      let* started := py_get state "started_at" (JStr "") in
      let* finished := py_get state "completed_at" (JStr "") in
      let trace :=
        {| session_id := name d;
           session_dir := path d;
           goal := g;
           iterations_used := iteration;
           max_iterations := 3;
           completed := truthy done_at;
           success := (passed =? total) && (0 <? total);
           dod_total := total;
           dod_passed := passed;
           dod_criteria := criteria;
           failure_history := history;
           build_failures := [];
           test_failures := [];
           rca_failures := [];
           sampling_results := [];
           source_files := ∅;
           test_files := ∅;
           started_at := started;
           completed_at := finished |} in
      let trace := match _find_traces_file d with
                   | Some lines => read_traces lines trace
                   | None => trace
                   end in
      let trace := read_for_claude d trace in
      Ok (Some (read_py_files (py_files d) trace))
  end.

(** ** Daemon (daemon.py): the dispatch of a cycle *)

Inductive DaemonState : Type :=
| STARTING | RUNNING | REFLECTING | CURATING | EXTRACTING | REANALYZING
| BENCHMARKING | EVOLVING | TRAINING | EVALUATING | SLEEPING | STOPPED.

(** The task classes a cycle can dispatch, with their [TaskPriority]
    values: lower number, higher priority. *)
Inductive TaskClass : Type :=
| Reflect | Extract | Reanalyze | SelfEvaluate.

Definition priority (c : TaskClass) : Z :=
  match c with
  | Reflect => 0
  | Extract => 2
  | Reanalyze => 3
  | SelfEvaluate => 7
  end.

(** What [datetime.fromisoformat] returns: a naive datetime, in
    microseconds on the time line of [datetime.now()], or an aware one,
    which cannot be subtracted from [datetime.now()]. *)
Inductive datetime : Type :=
| Naive (us : Z)
| Aware.

Definition hours (h : Z) : Z := h * 3600 * 1000000.

(** The daemon with what a cycle reads: the scanner, the playbook, the three
    cursor files of the state directory and the clock. *)
Record Daemon := mkDaemon {
  state : DaemonState;
  scanner : SessionScanner;
  playbook : Playbook;
  extracted_sessions_json : json_file;
  reanalysis_state_json : json_file;
  last_eval_json : json_file;
  now : Z
}.

Definition set_state (st : DaemonState) (d : Daemon) : Daemon :=
  {| state := st; scanner := scanner d; playbook := playbook d;
     extracted_sessions_json := extracted_sessions_json d;
     reanalysis_state_json := reanalysis_state_json d;
     last_eval_json := last_eval_json d; now := now d |}.

(** [d[k]] on a parsed value: [KeyError] on a dict without the key,
    [TypeError] on what is no dict. *)
Definition py_index (v : json) (k : string) : result json :=
  match v with
  | JObj items => match dict_get items k with
                  | Some x => Ok x
                  | None => Raise KeyError
                  end
  | _ => Raise TypeError
  end.

Section Dispatch.
(** [datetime.fromisoformat] on a string; [None] is [ValueError]. *)
Variable fromisoformat : string -> option datetime.

(** The four handlers; what they do (inference calls, file writes) is
    outside the dispatch. *)
Variable _reflect_on_session : SessionDir -> Daemon -> result Daemon.
Variable _extract_training_pairs : Daemon -> result Daemon.
Variable _reanalyze_sessions : Daemon -> result Daemon.
Variable _self_evaluate_playbook : Daemon -> result Daemon.

(** The [extracted] set read at the top of [_has_unextracted_sessions]. *)
Definition read_extracted (d : Daemon) : result (gset string) :=
  match extracted_sessions_json d with
  | Missing => Ok ∅
  | Unreadable why => Raise (read_error why)
  | Malformed => Ok ∅
  | Parsed v =>
      let* l := py_get v "extracted" (JArr []) in
      py_str_set l
  end.

Fixpoint any_unextracted_success (extracted : gset string)
    (dirs : list SessionDir) : result bool :=
  match dirs with
  | [] => Ok false
  | session_dir :: rest =>
      if bool_decide (name session_dir ∈ extracted)
      then any_unextracted_success extracted rest
      else
        let* session := parse_session session_dir in
        match session with
        | Some t => if success t then Ok true
                    else any_unextracted_success extracted rest
        | None => any_unextracted_success extracted rest
        end
  end.

Definition _has_unextracted_sessions (d : Daemon) : result bool :=
  let* extracted := read_extracted d in
  any_unextracted_success extracted (find_all_sessions (scanner d)).

Definition _has_sessions_to_reanalyze (d : Daemon) : result bool :=
  match reanalysis_state_json d with
  | Missing => Ok (0 <? length (find_all_sessions (scanner d)))%nat
  | Unreadable NotUtf8 => Ok true
  | Unreadable NotReadable => Raise OSError
  | Malformed => Ok true
  | Parsed data =>
      let* last_epoch := py_get data "epoch" (JInt 0) in
      let* last_run := py_get data "last_run" (JStr "") in
      if truthy last_run then
        match last_run with
        | JStr s =>
            match fromisoformat s with
            | None => Ok true
            | Some (Naive lr) =>
                if now d - lr <? hours 24 then Ok false else Ok true
            | Some Aware => Raise TypeError
            end
        | _ => Raise TypeError
        end
      else Ok true
  end.

Definition _is_eval_time (d : Daemon) : result bool :=
  match last_eval_json d with
  | Missing => Ok true
  | Unreadable NotUtf8 => Ok true
  | Unreadable NotReadable => Raise OSError
  | Malformed => Ok true
  | Parsed data =>
      match py_index data "last_eval" with
      | Raise KeyError => Ok true
      | Raise e => Raise e
      | Ok (JStr s) =>
          match fromisoformat s with
          | None => Ok true
          | Some (Naive last) => Ok (now d - last >? hours 23)
          | Some Aware => Raise TypeError
          end
      | Ok _ => Raise TypeError
      end
  end.

(** A call of a handler: the daemon enters the state of the task class,
    the handler runs, and the call is entered in the list of the task
    classes executed. *)
Definition run_task (c : TaskClass) (st : DaemonState)
    (handler : Daemon -> result Daemon) (d : Daemon)
  : list TaskClass * result (Daemon * bool) :=
  ([c], let* d' := handler (set_state st d) in Ok (d', true)).

(** [_execute_next_task]: the task classes whose handler was called, and
    the daemon with the value returned, or the exception raised. *)
Definition _execute_next_task (d : Daemon)
  : list TaskClass * result (Daemon * bool) :=
  match find_new_sessions (scanner d) with
  | Raise e => ([], Raise e)
  | Ok (session_dir :: _) =>
      run_task Reflect REFLECTING (_reflect_on_session session_dir) d
  | Ok [] =>
      match _has_unextracted_sessions d with
      | Raise e => ([], Raise e)
      | Ok true => run_task Extract EXTRACTING _extract_training_pairs d
      | Ok false =>
          match _has_sessions_to_reanalyze d with
          | Raise e => ([], Raise e)
          | Ok true =>
              run_task Reanalyze REANALYZING _reanalyze_sessions d
          | Ok false =>
              match _is_eval_time d with
              | Raise e => ([], Raise e)
              | Ok true =>
                  run_task SelfEvaluate EVALUATING _self_evaluate_playbook d
              | Ok false => ([], Ok (d, false))
              end
          end
      end
  end.

(** The task classes whose handler a cycle called. *)
Definition executed (d : Daemon) : list TaskClass :=
  fst (_execute_next_task d).

(** The test a cycle makes for a task class before it calls its handler:
    the condition of the [if] in [_execute_next_task]. *)
Definition cycle_test (c : TaskClass) (d : Daemon) : result bool :=
  match c with
  | Reflect =>
      let* new_sessions := find_new_sessions (scanner d) in
      Ok (match new_sessions with [] => false | _ => true end)
  | Extract => _has_unextracted_sessions d
  | Reanalyze => _has_sessions_to_reanalyze d
  | SelfEvaluate => _is_eval_time d
  end.
End Dispatch.

(** ** Shapes of a completion marker *)

Definition is_object (v : json) : bool :=
  match v with
  | JObj _ => true
  | _ => false
  end.

(** The criteria of a marker of the documented shape: an object whose
    [dod], when present, is an object whose [criteria], when present, is a
    list of objects. [None] for any other shape. *)
Definition marker_criteria (state : json) : option (list json) :=
  match state with
  | JObj items =>
      match dict_get items "dod" with
      | None => Some []
      | Some (JObj dod) =>
          match dict_get dod "criteria" with
          | None => Some []
          | Some (JArr cs) => if forallb is_object cs then Some cs else None
          | Some _ => None
          end
      | Some _ => None
      end
  | _ => None
  end.

(** A criterion counts as passed when its [passed] field is present and
    true in Python's sense. *)
Definition criterion_passed (c : json) : bool :=
  match c with
  | JObj items => match dict_get items "passed" with
                  | Some v => truthy v
                  | None => false
                  end
  | _ => false
  end.

(** The marker carries a non-empty completion timestamp. *)
Definition has_completion_timestamp (d : SessionDir) : bool :=
  match state_file d with
  | Parsed (JObj items) => match dict_get items "completed_at" with
                           | Some v => truthy v
                           | None => false
                           end
  | _ => false
  end.

Definition name_le (d e : SessionDir) : Prop :=
  String.leb (name d) (name e) = true.

(** ** Notions used in the statements *)

(** Two positions of a section hold contents at or above the threshold. *)
Definition similar_at (thr : Q) (cs : list string) (i j : nat) : Prop :=
  exists a b, cs !! i = Some a /\ cs !! j = Some b
              /\ Qle_bool thr (_text_similarity a b) = true.

Definition desc {A : Type} (key : A -> Q) (x y : A) : Prop :=
  (key y <= key x)%Q.

(** Characters of the lines of a list of bullets. *)
Definition lines_len (bs : list Bullet) : Z :=
  fold_right Z.add 0 (map (fun b => py_len (bullet_line b)) bs).

(** The part of a trace the definition-of-done decides. *)
Definition dod_view (t : SessionTrace) : bool * Z * Z :=
  (success t, dod_total t, dod_passed t).

(** *** Pending work, as section 4.3 of the specification words it *)

(** A completed session: a session directory whose completion marker
    carries a non-empty completion timestamp. *)
Definition completed_session (s : SessionDir) : bool :=
  is_dir s && has_completion_timestamp s.

(** A successful session: its trace has the success flag. *)
Definition successful_session (s : SessionDir) : bool :=
  match parse_session s with
  | Ok (Some t) => success t
  | _ => false
  end.

(** The extracted-set the cursor file holds. *)
Definition extracted_set (d : Daemon) : gset string :=
  match read_extracted d with
  | Ok extracted => extracted
  | Raise _ => ∅
  end.

(** The time a cursor file records under [key], when it records one. *)
Definition recorded_time (fromisoformat : string -> option datetime)
    (cursor : json_file) (key : string) : option Z :=
  match cursor with
  | Parsed (JObj items) =>
      match dict_get items key with
      | Some (JStr s) => match fromisoformat s with
                         | Some (Naive t) => Some t
                         | _ => None
                         end
      | _ => None
      end
  | _ => None
  end.

(** The four conditions of section 4.3.  Reflect: a new, unprocessed,
    completed session exists.  Extract: a completed successful session
    exists whose id is not in the extracted-set.  Reanalyze: no reanalysis
    has run in the last 24 hours and a completed session exists.
    Self-evaluate: no self-evaluation has run in the last 23 hours. *)
Definition spec_pending (fromisoformat : string -> option datetime)
    (c : TaskClass) (d : Daemon) : bool :=
  let sessions := default [] (sessions_dir (scanner d)) in
  match c with
  | Reflect =>
      existsb (fun s => completed_session s
                        && negb (bool_decide
                                   (name s ∈ _processed (scanner d))))
              sessions
  | Extract =>
      existsb (fun s => completed_session s && successful_session s
                        && negb (bool_decide (name s ∈ extracted_set d)))
              sessions
  | Reanalyze =>
      match recorded_time fromisoformat (reanalysis_state_json d)
              "last_run" with
      | Some last_run => negb (now d - last_run <? hours 24)
      | None => true
      end
      && existsb completed_session sessions
  | SelfEvaluate =>
      match recorded_time fromisoformat (last_eval_json d) "last_eval" with
      | Some last_eval => now d - last_eval >? hours 23
      | None => true
      end
  end.

(** The class section 4.3 has a cycle execute: the first in the fixed
    order with pending work, none when no class has any. *)
Definition spec_choice (fromisoformat : string -> option datetime)
    (d : Daemon) : list TaskClass :=
  match List.filter (fun c => spec_pending fromisoformat c d)
                    [Reflect; Extract; Reanalyze; SelfEvaluate] with
  | [] => []
  | c :: _ => [c]
  end.

(** ** Sample data *)

Definition bullet_with_counts (h a : N) : Bullet :=
  mkBullet "GE-001" "prefer absolute imports" "general" h a "" "" "" "".

(** A section holding a bullet with 1 helpful and 9 harmful references,
    followed by a bullet that was never referenced. *)
Definition doubtful_bullet : Bullet :=
  mkBullet "GE-001" "wrap every import in try" "general" 1 9 "" "" "" "".

Definition fresh_bullet : Bullet :=
  mkBullet "GE-002" "use absolute imports" "general" 0 0 "" "" "" "".

Definition ranking_playbook : Playbook :=
  mkPlaybook [("general", [doubtful_bullet; fresh_bullet])] (mkMetadata 0 0 0).

(** Four values of [math.log1p], to four decimal places. *)
Definition log1p_table (x : Z) : Q :=
  if x =? 0 then 0
  else if x =? 1 then 6931 # 10000
  else if x =? 10 then 23979 # 10000
  else 24849 # 10000.

(** Three bullets with the same text: an unreferenced one, one with a
    helpful reference, one with a helpful and a harmful reference. *)
Definition dup_a : Bullet :=
  mkBullet "GE-001" "pin dependency versions" "general" 0 0 "" "" "" "".

Definition dup_b : Bullet :=
  mkBullet "GE-002" "pin dependency versions" "general" 1 0 "" "" "" "".

Definition dup_c : Bullet :=
  mkBullet "GE-003" "pin dependency versions" "general" 1 1 "" "" "" "".

Definition duplicate_playbook : Playbook :=
  mkPlaybook [("general", [dup_a; dup_b; dup_c])] (mkMetadata 0 0 0).

(** A session with two criteria, both passed. *)
Definition passed_session : SessionDir :=
  mkSessionDir "session_0001" "/shared/sessions/session_0001" true
    (Parsed (JObj [("goal", JStr "build a todo app");
                   ("iteration", JInt 2);
                   ("completed_at", JStr "2025-01-05T10:00:00");
                   ("dod", JObj [("criteria",
                      JArr [JObj [("description", JStr "tests pass");
                                  ("passed", JBool true)];
                            JObj [("description", JStr "app starts");
                                  ("passed", JBool true)]])])]))
    None None None [].

(** A session whose marker holds the JSON array [[]]: the marker parses,
    and [parse_session] raises on [state.get]. *)
Definition array_marker_session : SessionDir :=
  mkSessionDir "session_0003" "/shared/sessions/session_0003" true
               (Parsed (JArr [])) None None None [].

(** A session directory whose marker is the empty object: the marker exists
    and carries no completion timestamp. *)
Definition unfinished_session : SessionDir :=
  mkSessionDir "session_0002" "/shared/sessions/session_0002" true
               (Parsed (JObj [])) None None None [].

Definition unfinished_scanner : SessionScanner :=
  mkSessionScanner (Some [unfinished_session]) ∅.

(** A daemon whose sessions directory holds one completed session, with
    no cursor file written yet; [processed] is its processed-set. *)
Definition sample_daemon (processed : gset string) : Daemon :=
  mkDaemon RUNNING (mkSessionScanner (Some [passed_session]) processed)
           ranking_playbook Missing Missing Missing 0.

(** A clock reading for one timestamp: midnight of 1 January 2025 is the
    origin of the time line. *)
Definition sample_fromisoformat (s : string) : option datetime :=
  if String.eqb s "2025-01-01T00:00:00" then Some (Naive 0) else None.

(** Handlers that return at once. *)
Definition idle_reflect (session_dir_ : SessionDir) (d : Daemon)
  : result Daemon := Ok d.
Definition idle_handler (d : Daemon) : result Daemon := Ok d.

(** A session whose two criteria passed and whose marker carries no
    completion timestamp. *)
Definition passed_unfinished_session : SessionDir :=
  mkSessionDir "session_0005" "/shared/sessions/session_0005" true
    (Parsed (JObj [("goal", JStr "build a todo app");
                   ("dod", JObj [("criteria",
                      JArr [JObj [("description", JStr "tests pass");
                                  ("passed", JBool true)];
                            JObj [("description", JStr "app starts");
                                  ("passed", JBool true)]])])]))
    None None None [].

(** One hour after a reanalysis, with that session alone in the sessions
    directory and no extraction or self-evaluation recorded. *)
Definition unfinished_daemon : Daemon :=
  mkDaemon RUNNING (mkSessionScanner (Some [passed_unfinished_session]) ∅)
           ranking_playbook Missing
           (Parsed (JObj [("epoch", JInt 1);
                          ("last_run", JStr "2025-01-01T00:00:00");
                          ("sessions_reviewed", JInt 1)]))
           Missing (hours 1).

(** Twenty-five hours after a reanalysis, with an empty sessions directory
    and no self-evaluation recorded. *)
Definition idle_daemon : Daemon :=
  mkDaemon RUNNING (mkSessionScanner (Some []) ∅)
           ranking_playbook Missing
           (Parsed (JObj [("epoch", JInt 1);
                          ("last_run", JStr "2025-01-01T00:00:00");
                          ("sessions_reviewed", JInt 0)]))
           Missing (hours 25).

(** Two bullets whose lines are longer than 40 characters. *)
Definition long_playbook : Playbook :=
  mkPlaybook
    [("architecture",
      [mkBullet "AR-001" "keep route handlers thin and move logic to services"
                "architecture" 3 1 "" "" "" ""]);
     ("general",
      [mkBullet "GE-001" "run the test suite before declaring the task done"
                "general" 2 0 "" "" "" ""])]
    (mkMetadata 0 0 0).

(** ** Further operations of the playbook *)

(** [Playbook.total_bullets]: [sum(len(b) for b in self.sections.values())] *)
Definition total_bullets (pb : Playbook) : Z :=
  fold_right Z.add 0 (map (fun s => Z.of_nat (length (snd s))) (sections pb)).

(** Everything of a bullet but its two counters. *)
Definition bullet_identity (b : Bullet)
  : string * string * string * string * string * string * string :=
  (id b, content b, section b, source_session b, added b,
   last_referenced b, last_validated b).

(** [b'] is [b] with counters that did not go down. *)
Definition grown (b b' : Bullet) : Prop :=
  bullet_identity b = bullet_identity b'
  /\ (helpful_count b <= helpful_count b')%N
  /\ (harmful_count b <= harmful_count b')%N.

(** What the loops keep: the bullets only grow, and the indices marked for
    removal are indices of the list. *)
Definition dedup_ok (bs0 : list Bullet) (st : dedup_state) : Prop :=
  Forall2 grown bs0 (fst st) /\ (forall k, k ∈ snd st -> (k < length bs0)%nat).

(** Some index of the list is not marked for removal. While the inner loop
    of index [i] runs over [js], such an index is [i] itself or an index the
    loop will not come to. *)
Definition keeps_one (n : nat) (st : dedup_state) : Prop :=
  length (fst st) = n /\ exists k, (k < n)%nat /\ k ∉ snd st.

Definition keeps_one_in (n i : nat) (js : list nat) (st : dedup_state) : Prop :=
  length (fst st) = n
  /\ (((i < n)%nat /\ i ∉ snd st)
      \/ exists k, (k < n)%nat /\ (k ∉ snd st) /\ (k ∉ js) /\ k <> i).

(** ** Further operations of the scanner *)

(** [SessionScanner.mark_processed]: the id joins the set, which
    [_save_processed] then writes. *)
Definition mark_processed (session_id : string) (sc : SessionScanner)
  : SessionScanner :=
  {| sessions_dir := sessions_dir sc;
     _processed := {[session_id]} ∪ _processed sc |}.

(** The document [_save_processed] writes to [processed_sessions.json];
    [now_iso] is [datetime.now().isoformat()]. The order of [list(set)] is
    the set's own. *)
Definition _save_processed (sc : SessionScanner) (now_iso : string) : json :=
  JObj [("processed", JArr (map JStr (elements (_processed sc))));
        ("last_updated", JStr now_iso)].

(** [SessionScanner._load_processed], on the file [processed_sessions.json]:
    the set the scanner starts with. *)
Definition _load_processed (processed_file : json_file)
  : result (gset string) :=
  match processed_file with
  | Missing => Ok ∅
  | Unreadable why => Raise (read_error why)
  | Malformed => Ok ∅
  | Parsed data =>
      let* l := py_get data "processed" (JArr []) in
      py_str_set l
  end.

(** The text of the last readable file called [n] in a directory listing. *)
Fixpoint last_read (files : list (string * option string)) (n : string)
  : option string :=
  match files with
  | [] => None
  | (fname, text) :: rest =>
      match last_read rest n with
      | Some c => Some c
      | None => if String.eqb fname n then text else None
      end
  end.

(** A finished session with a source file, a test file and a file that
    cannot be read. *)
Definition files_session : SessionDir :=
  mkSessionDir "session_0004" "/shared/sessions/session_0004" true
    (Parsed (JObj [("completed_at", JStr "2025-01-06T09:00:00")]))
    None None None
    [("app.py", Some "print(1)"); ("test_app.py", Some "assert True");
     ("broken.py", None)].

(** The trace of a session without criteria, before any log is read. *)
Definition blank_trace : SessionTrace :=
  {| session_id := "session_0002";
     session_dir := "/shared/sessions/session_0002";
     goal := JStr ""; iterations_used := JInt 1; max_iterations := 3;
     completed := false; success := false; dod_total := 0; dod_passed := 0;
     dod_criteria := JArr []; failure_history := JArr [];
     build_failures := []; test_failures := []; rca_failures := [];
     sampling_results := []; source_files := ∅; test_files := ∅;
     started_at := JStr ""; completed_at := JStr "" |}.

(** ** Delta updates of the playbook (playbook.py) *)

(** The inner loop of [get_bullet]: the first bullet of a section with the
    id. *)
Fixpoint find_bullet (bullet_id : string) (bs : list Bullet) : option Bullet :=
  match bs with
  | [] => None
  | b :: rest =>
      if String.eqb (id b) bullet_id then Some b
      else find_bullet bullet_id rest
  end.

Fixpoint get_bullet_in (secs : list (string * list Bullet))
    (bullet_id : string) : option Bullet :=
  match secs with
  | [] => None
  | (_, bs) :: rest =>
      match find_bullet bullet_id bs with
      | Some b => Some b
      | None => get_bullet_in rest bullet_id
      end
  end.

(** [Playbook.get_bullet] *)
Definition get_bullet (pb : Playbook) (bullet_id : string) : option Bullet :=
  get_bullet_in (sections pb) bullet_id.

(** [get_bullet] returns an object of the playbook: assigning to its fields
    changes the playbook at the place where the bullet was found. *)
Fixpoint set_found (bullet_id : string) (f : Bullet -> Bullet)
    (bs : list Bullet) : list Bullet :=
  match bs with
  | [] => []
  | b :: rest =>
      if String.eqb (id b) bullet_id then f b :: rest
      else b :: set_found bullet_id f rest
  end.

Fixpoint set_found_in (bullet_id : string) (f : Bullet -> Bullet)
    (secs : list (string * list Bullet)) : list (string * list Bullet) :=
  match secs with
  | [] => []
  | (name, bs) :: rest =>
      match find_bullet bullet_id bs with
      | Some _ => (name, set_found bullet_id f bs) :: rest
      | None => (name, bs) :: set_found_in bullet_id f rest
      end
  end.

(** The body of [update_counts] on the bullet found; [now] is
    [datetime.now().isoformat()]. *)
Definition count_reference (helpful : bool) (now : string) (b : Bullet)
  : Bullet :=
  {| id := id b;
     content := content b;
     section := section b;
     helpful_count := if helpful then (helpful_count b + 1)%N
                      else helpful_count b;
     harmful_count := if helpful then harmful_count b
                      else (harmful_count b + 1)%N;
     source_session := source_session b;
     added := added b;
     last_referenced := now;
     last_validated := last_validated b |}.

(** [Playbook.update_counts] *)
Definition update_counts (now : string) (pb : Playbook) (bullet_id : string)
    (helpful : bool) : Playbook :=
  match get_bullet pb bullet_id with
  | Some _ =>
      {| sections := set_found_in bullet_id (count_reference helpful now)
                       (sections pb);
         metadata := metadata pb |}
  | None => pb
  end.

(** [str.strip()], on the ASCII separators. *)
Fixpoint lstrip (s : string) : string :=
  match s with
  | EmptyString => EmptyString
  | String c s' => if is_space c then lstrip s' else s
  end.

Definition strip (s : string) : string :=
  String.rev (lstrip (String.rev (lstrip s))).

(** The body of [update_content] on the bullet found. *)
Definition edit_content (new_content now : string) (b : Bullet) : Bullet :=
  {| id := id b;
     content := strip new_content;
     section := section b;
     helpful_count := helpful_count b;
     harmful_count := harmful_count b;
     source_session := source_session b;
     added := added b;
     last_referenced := last_referenced b;
     last_validated := now |}.

(** [Playbook.update_content] *)
Definition update_content (now : string) (pb : Playbook)
    (bullet_id new_content : string) : Playbook :=
  match get_bullet pb bullet_id with
  | Some _ =>
      {| sections := set_found_in bullet_id (edit_content new_content now)
                       (sections pb);
         metadata := metadata pb |}
  | None => pb
  end.

(** The inner loop of [remove_bullet]: [bullets.pop(i)] at the first
    bullet with the id. *)
Fixpoint pop_found (bullet_id : string) (bs : list Bullet)
  : option (list Bullet) :=
  match bs with
  | [] => None
  | b :: rest =>
      if String.eqb (id b) bullet_id then Some rest
      else match pop_found bullet_id rest with
           | Some rest' => Some (b :: rest')
           | None => None
           end
  end.

Fixpoint remove_in (secs : list (string * list Bullet)) (bullet_id : string)
  : option (list (string * list Bullet)) :=
  match secs with
  | [] => None
  | (name, bs) :: rest =>
      match pop_found bullet_id bs with
      | Some bs' => Some ((name, bs') :: rest)
      | None => match remove_in rest bullet_id with
                | Some rest' => Some ((name, bs) :: rest')
                | None => None
                end
      end
  end.

(** [Playbook.remove_bullet]: the playbook after the call and the value
    returned. *)
Definition remove_bullet (pb : Playbook) (bullet_id : string)
  : Playbook * bool :=
  match remove_in (sections pb) bullet_id with
  | Some secs => (add_pruned 1 pb secs, true)
  | None => (pb, false)
  end.

(** The ids of all bullets, section after section. *)
Definition all_ids (pb : Playbook) : list string :=
  flat_map (fun s => map id (snd s)) (sections pb).

(** ** Adding bullets (playbook.py) *)

(** [s.split(sep)] for a separator of one character: the pieces between
    the separators, the empty ones included. *)
Fixpoint split_on_go (sep : ascii) (cur : string) (s : string)
  : list string :=
  match s with
  | EmptyString => [String.rev cur]
  | String c s' =>
      if Ascii.eqb c sep then String.rev cur :: split_on_go sep EmptyString s'
      else split_on_go sep (String c cur) s'
  end.

Definition split_on (sep : ascii) (s : string) : list string :=
  split_on_go sep EmptyString s.

(** [str.upper], on ASCII letters. *)
Definition upper_ascii (c : ascii) : ascii :=
  let n := nat_of_ascii c in
  if ((97 <=? n) && (n <=? 122))%nat then ascii_of_nat (n - 32) else c.

Fixpoint upper (s : string) : string :=
  match s with
  | EmptyString => EmptyString
  | String c s' => String (upper_ascii c) (upper s')
  end.

(** [Playbook._section_prefix]; [None] is the [IndexError] of [parts[k][0]]
    on an empty part. *)
Definition _section_prefix (section : string) : option string :=
  match split_on "_" section with
  | p0 :: p1 :: _ =>
      match head (chars p0), head (chars p1) with
      | Some c0, Some c1 => Some (upper (c0 ++ c1))
      | _, _ => None
      end
  | _ => Some (upper (String.concat "" (take 2 (chars section))))
  end.

(** [f"{n:03d}"] *)
Definition zfill (width : nat) (digits : string) : string :=
  String.concat "" (replicate (width - String.length digits) "0") ++ digits.

Definition format_03d (n : Z) : string :=
  if n <? 0 then "-" ++ zfill 2 (pretty (Z.to_N (- n)))
  else zfill 3 (pretty (Z.to_N n)).

(** The playbook with its counters [_next_ids]. *)
Record PlaybookState := mkPlaybookState {
  book : Playbook;
  _next_ids : gmap string Z
}.

(** [self.sections[name] = f(self.sections[name])] *)
Fixpoint with_section (name : string) (f : list Bullet -> list Bullet)
    (secs : list (string * list Bullet)) : list (string * list Bullet) :=
  match secs with
  | [] => []
  | (n, bs) :: rest =>
      if String.eqb n name then (n, f bs) :: rest
      else (n, bs) :: with_section name f rest
  end.

(** What a call of [add_bullet] leaves: the bullet returned, or the
    exception raised, and the playbook as it is then. *)
Inductive add_outcome : Type :=
| Added (bullet : Bullet) (st : PlaybookState)
| AddIndexError (st : PlaybookState)
| AddKeyError (st : PlaybookState).

(** [Playbook.add_bullet]; [added_at] and [referenced_at] are the two
    readings of [datetime.now().isoformat()]. *)
Definition add_bullet (added_at referenced_at : string) (st : PlaybookState)
    (section content source_session : string) : add_outcome :=
  let pb := book st in
  let st1 :=
    match dict_get (sections pb) section with
    | Some _ => st
    | None =>
        {| book := {| sections := (sections pb ++ [(section, [])])%list;
                      metadata := metadata pb |};
           _next_ids := <[section := 1]> (_next_ids st) |}
    end in
  match _section_prefix section with
  | None => AddIndexError st1
  | Some prefix =>
      match _next_ids st1 !! section with
      | None => AddKeyError st1
      | Some n =>
          let bullet :=
            {| id := prefix ++ "-" ++ format_03d n;
               content := strip content;
               section := section;
               helpful_count := 0;
               harmful_count := 0;
               source_session := source_session;
               added := added_at;
               last_referenced := referenced_at;
               last_validated := "" |} in
          let m := metadata (book st1) in
          Added bullet
            {| book :=
                 {| sections :=
                      with_section section (fun bs => (bs ++ [bullet])%list)
                                   (sections (book st1));
                    metadata :=
                      {| total_sessions_analyzed := total_sessions_analyzed m;
                         total_deltas_applied := total_deltas_applied m + 1;
                         total_bullets_pruned := total_bullets_pruned m |} |};
               _next_ids := <[section := n + 1]> (_next_ids st1) |}
      end
  end.

Definition outcome_state (o : add_outcome) : PlaybookState :=
  match o with
  | Added _ st => st
  | AddIndexError st => st
  | AddKeyError st => st
  end.

(** ** The curator loop of [_reflect_on_session] (daemon.py) *)

(** A proposed bullet: the section and the content of the proposal, with
    the defaults of the two [get]s filled in; both are strings. *)
Record Proposed := mkProposed {
  p_section : string;
  p_content : string
}.

(** The body of the duplicate branch on the bullet found. *)
Definition bump (success : bool) (now : string) (existing : Bullet) : Bullet :=
  {| id := id existing;
     content := content existing;
     section := section existing;
     helpful_count := if success then (helpful_count existing + 1)%N
                      else helpful_count existing;
     harmful_count := harmful_count existing;
     source_session := source_session existing;
     added := added existing;
     last_referenced := now;
     last_validated := last_validated existing |}.

(** [bullet.helpful_count = 1] on the bullet [add_bullet] returned. *)
Definition set_helpful (n : N) (b : Bullet) : Bullet :=
  {| id := id b;
     content := content b;
     section := section b;
     helpful_count := n;
     harmful_count := harmful_count b;
     source_session := source_session b;
     added := added b;
     last_referenced := last_referenced b;
     last_validated := last_validated b |}.

Fixpoint set_last (f : Bullet -> Bullet) (bs : list Bullet) : list Bullet :=
  match bs with
  | [] => []
  | [b] => [f b]
  | b :: rest => b :: set_last f rest
  end.

Definition with_book (st : PlaybookState)
    (secs : list (string * list Bullet)) : PlaybookState :=
  {| book := {| sections := secs; metadata := metadata (book st) |};
     _next_ids := _next_ids st |}.

(** What the loop leaves: the playbook, the number of clock readings made
    and [bullets_added], or the playbook at the exception of
    [add_bullet]. *)
Inductive curator_outcome : Type :=
| Curated (st : PlaybookState) (ticks : nat) (bullets_added : Z)
| CuratorRaised (st : PlaybookState).

Section Curator.
(** [clock k] is what the reading number [k] of
    [datetime.now().isoformat()] gives; [threshold] is
    [config.dedup_similarity_threshold]. *)
Variable clock : nat -> string.
Variable threshold : Q.

(** The loop over the bullets of the section: the first one whose
    similarity with [content] is above the threshold is bumped. *)
Fixpoint bump_similar (success : bool) (now content_ : string)
    (bs : list Bullet) : option (list Bullet) :=
  match bs with
  | [] => None
  | existing :: rest =>
      if Qlt_bool threshold (_text_similarity content_ (content existing))
      then Some (bump success now existing :: rest)
      else match bump_similar success now content_ rest with
           | Some rest' => Some (existing :: rest')
           | None => None
           end
  end.

(** The loop over the proposed bullets.  A new bullet costs three clock
    readings (two in [add_bullet], one in its [save]), a duplicate one. *)
Fixpoint curate (session_id_ : string) (success_ : bool)
    (proposed_bullets : list Proposed) (st : PlaybookState) (ticks : nat)
    (bullets_added : Z) : curator_outcome :=
  match proposed_bullets with
  | [] => Curated st ticks bullets_added
  | proposed :: rest =>
      let section_ := p_section proposed in
      let content_ := strip (p_content proposed) in
      if String.eqb content_ "" then
        curate session_id_ success_ rest st ticks bullets_added
      else
        match bump_similar success_ (clock ticks) content_
                (default [] (dict_get (sections (book st)) section_)) with
        | Some bs' =>
            curate session_id_ success_ rest
              (with_book st
                 (with_section section_ (fun _ => bs') (sections (book st))))
              (S ticks) bullets_added
        | None =>
            match add_bullet (clock ticks) (clock (S ticks)) st
                    section_ content_ session_id_ with
            | Added _ st' =>
                curate session_id_ success_ rest
                  (if success_
                   then with_book st'
                          (with_section section_ (set_last (set_helpful 1))
                             (sections (book st')))
                   else st')
                  (3 + ticks) (bullets_added + 1)
            | AddIndexError st' => CuratorRaised st'
            | AddKeyError st' => CuratorRaised st'
            end
        end
  end.
End Curator.

Definition curator_state (o : curator_outcome) : PlaybookState :=
  match o with
  | Curated st _ _ => st
  | CuratorRaised st => st
  end.

(** [b'] is [b] after duplicate checks of a session: more helpful
    references at most, and none when the session failed. *)
Definition bumped (success_ : bool) (b b' : Bullet) : Prop :=
  (id b', content b', section b', source_session b', added b',
   last_validated b')
  = (id b, content b, section b, source_session b, added b, last_validated b)
  /\ harmful_count b' = harmful_count b
  /\ (helpful_count b <= helpful_count b')%N
  /\ (success_ = false -> helpful_count b' = helpful_count b).

(** A bullet added for a session. *)
Definition fresh (session_id_ : string) (success_ : bool) (name : string)
    (b : Bullet) : Prop :=
  harmful_count b = 0%N /\ source_session b = session_id_
  /\ section b = name
  /\ (success_ = false -> helpful_count b = 0%N).

(** A section after the loop: its bullets of before, bumped at most, then
    the bullets added. *)
Definition section_extended (session_id_ : string) (success_ : bool)
    (s s' : string * list Bullet) : Prop :=
  fst s' = fst s
  /\ exists kept extra,
       snd s' = (kept ++ extra)%list
       /\ Forall2 (bumped success_) (snd s) kept
       /\ Forall (fresh session_id_ success_ (fst s)) extra.

(** The sections after the loop: those of before, extended, then the new
    sections. *)
Definition extended (session_id_ : string) (success_ : bool)
    (secs secs' : list (string * list Bullet)) : Prop :=
  exists names : list string,
    Forall2 (section_extended session_id_ success_)
            (secs ++ map (fun n => (n, [])) names)%list secs'.

(** No bullet has a harmful reference. *)
Definition harmless (secs : list (string * list Bullet)) : Prop :=
  Forall (fun s => Forall (fun b => harmful_count b = 0%N) (snd s)) secs.

(** ** Statistics (playbook.py) *)

(** The dict [stats] returns. *)
Record Stats := mkStats {
  stats_total_bullets : Z;
  stats_sections : list (string * Z);
  avg_quality : Q;
  most_helpful : list Bullet;
  stats_metadata : Metadata
}.

(** [[b for bullets in self.sections.values() for b in bullets]] *)
Definition all_bullets (pb : Playbook) : list Bullet :=
  flat_map snd (sections pb).

(** [Playbook.stats] *)
Definition stats (pb : Playbook) : Stats :=
  let bs := all_bullets pb in
  {| stats_total_bullets := Z.of_nat (length bs);
     stats_sections :=
       map (fun s => (fst s, Z.of_nat (length (snd s)))) (sections pb);
     avg_quality :=
       match bs with
       | [] => 0
       | _ => (fold_right Qplus 0 (map quality_ratio bs)
               / inject_Z (Z.of_nat (length bs)))%Q
       end;
     most_helpful :=
       match bs with
       | [] => []
       | _ => slice_to 5
                (sort_desc (fun b => inject_Z (Z.of_N (helpful_count b))) bs)
       end;
     stats_metadata := metadata pb |}.

(** ** The handlers of the daemon (daemon.py) *)

(** The settings of [DaemonConfig] that the playbook handlers read. *)
Record DaemonConfig := mkDaemonConfig {
  stale_days : Z;
  min_helpful_ratio : Q;
  dedup_similarity_threshold : Q
}.

(** The defaults of config.py: 14 days, 0.3 and 0.85. *)
Definition default_config : DaemonConfig :=
  mkDaemonConfig 14 (3 # 10) (85 # 100).

(** The daemon at a later reading of the clock. *)
Definition at_time (t : Z) (d : Daemon) : Daemon :=
  {| state := state d; scanner := scanner d; playbook := playbook d;
     extracted_sessions_json := extracted_sessions_json d;
     reanalysis_state_json := reanalysis_state_json d;
     last_eval_json := last_eval_json d; now := t |}.

Module Handlers.

(** [_self_evaluate_playbook], with the document it writes to
    [last_eval.json]; [isoformat written_at] is
    [datetime.now().isoformat()] at the write. *)
Definition _self_evaluate_playbook (cutoff_of : Z -> string)
    (isoformat : Z -> string) (config : DaemonConfig) (written_at : Z)
    (d : Daemon) : Daemon :=
  let '(pb1, pruned) :=
    prune_stale cutoff_of (stale_days config) (min_helpful_ratio config)
                (playbook d) in
  let '(pb2, deduped) :=
    deduplicate (dedup_similarity_threshold config) pb1 in
  {| state := state d; scanner := scanner d; playbook := pb2;
     extracted_sessions_json := extracted_sessions_json d;
     reanalysis_state_json := reanalysis_state_json d;
     last_eval_json :=
       Parsed (JObj [("last_eval", JStr (isoformat written_at));
                     ("pruned", JInt pruned);
                     ("deduped", JInt deduped);
                     ("total_bullets",
                      JInt (stats_total_bullets (stats pb2)))]);
     now := now d |}.

(** [len(content.strip().split("\n")) < 10] *)
Definition trivial_file (file_content : string) : bool :=
  (length (split_on (ascii_of_nat 10) (strip file_content)) <? 10)%nat.

(** The pairs the inner loop of [_extract_training_pairs] appends to the
    queue for one session: one for each source file that is not trivial. *)
Definition pairs_of (t : SessionTrace) : Z :=
  Z.of_nat (length (List.filter (fun kv => negb (trivial_file (snd kv)))
                                (map_to_list (source_files t)))).

(** The loop of [_extract_training_pairs] over the sessions: the set
    [extracted] and [pairs_added]. *)
Fixpoint extract_loop (extracted : gset string) (pairs_added : Z)
    (dirs : list SessionDir) : result (gset string * Z) :=
  match dirs with
  | [] => Ok (extracted, pairs_added)
  | session_dir_ :: rest =>
      if bool_decide (name session_dir_ ∈ extracted)
      then extract_loop extracted pairs_added rest
      else
        let* session := parse_session session_dir_ in
        match session with
        | Some t =>
            if success t
            then extract_loop ({[name session_dir_]} ∪ extracted)
                              (pairs_added + pairs_of t) rest
            else extract_loop ({[name session_dir_]} ∪ extracted)
                              pairs_added rest
        | None =>
            extract_loop ({[name session_dir_]} ∪ extracted) pairs_added rest
        end
  end.

(** [_extract_training_pairs]: the daemon with the document written to
    [extracted_sessions.json], and [pairs_added].  The set is written as
    far as membership of a [str] can tell: its strings. *)
Definition _extract_training_pairs (now_iso : string) (d : Daemon)
  : result (Daemon * Z) :=
  let* extracted := read_extracted d in
  let* looped := extract_loop extracted 0 (find_all_sessions (scanner d)) in
  let '(extracted', pairs_added) := looped in
  Ok ({| state := state d; scanner := scanner d; playbook := playbook d;
         extracted_sessions_json :=
           Parsed (JObj [("extracted",
                          JArr (map JStr (elements extracted')));
                         ("last_updated", JStr now_iso)]);
         reanalysis_state_json := reanalysis_state_json d;
         last_eval_json := last_eval_json d; now := now d |},
      pairs_added).

End Handlers.

(** * Properties *)

Lemma Qlt_bool_iff (x y : Q) : Qlt_bool x y = true <-> (x < y)%Q.
Proof.
  unfold Qlt_bool. rewrite negb_true_iff. split.
  - intros H. apply Qnot_le_lt. intros Hle.
    apply Qle_bool_iff in Hle. congruence.
  - intros H. destruct (Qle_bool y x) eqn:E; [|reflexivity].
    apply Qle_bool_iff in E. exfalso. eapply Qlt_not_le; eauto.
Qed.

(** ** Quality ratio *)

Lemma quality_ratio_pos (b : Bullet) (p : positive) :
  (helpful_count b + harmful_count b)%N = N.pos p ->
  (quality_ratio b == Z.of_N (helpful_count b) # p)%Q.
Proof.
  intros Hp. unfold quality_ratio. rewrite Hp. simpl.
  symmetry. apply Qmake_Qdiv.
Qed.

Lemma quality_ratio_zero (b : Bullet) :
  (helpful_count b + harmful_count b)%N = 0%N -> quality_ratio b = 1 # 2.
Proof. intros H0. unfold quality_ratio. now rewrite H0. Qed.

(** C6, as amended: the ratio lies in [0,1]; it is exactly 1/2 when both
    counters are zero, and it equals 1/2 exactly when the two counters are
    equal, which also happens with references (one helpful and one
    harmful, say). *)
Theorem quality_ratio_bounds_and_half (b : Bullet) :
  (0 <= quality_ratio b <= 1)%Q
  /\ ((helpful_count b + harmful_count b)%N = 0%N -> quality_ratio b = 1 # 2)
  /\ ((quality_ratio b == 1 # 2)%Q <-> helpful_count b = harmful_count b).
Proof.
  destruct (helpful_count b + harmful_count b)%N as [|p] eqn:Ht.
  - rewrite (quality_ratio_zero b Ht).
    repeat split; try (intros; lia); try discriminate.
  - pose proof (quality_ratio_pos b p Ht) as Hq.
    split; [|split].
    + rewrite Hq. unfold Qle. simpl. lia.
    + discriminate.
    + rewrite Hq. unfold Qeq. simpl. lia.
Qed.

(** One helpful and one harmful reference: the ratio is 1/2 although the
    counters do not sum to zero. *)
Lemma quality_ratio_half_with_references :
  ~ ((quality_ratio (bullet_with_counts 1 1) == 1 # 2)%Q
     <-> (helpful_count (bullet_with_counts 1 1)
          + harmful_count (bullet_with_counts 1 1))%N = 0%N).
Proof.
  intros [H _]. assert (Hq : (quality_ratio (bullet_with_counts 1 1) == 1 # 2)%Q)
    by reflexivity.
  specialize (H Hq). discriminate H.
Qed.

(** ** Pruning *)

Lemma _should_prune_spec (b : Bullet) (cutoff : string) (min_quality : Q) :
  _should_prune b cutoff min_quality = spec_should_prune b cutoff min_quality.
Proof.
  unfold _should_prune, spec_should_prune.
  destruct (N.ltb_spec (total_references b) 5) as [H|H];
    destruct (N.leb_spec 5 (total_references b)) as [H'|H'];
    try (exfalso; lia); simpl; [reflexivity|].
  destruct (Qlt_bool (quality_ratio b) min_quality); simpl; [reflexivity|].
  destruct (String.ltb (last_referenced b) cutoff);
    destruct (total_references b <? 3)%N; reflexivity.
Qed.

Lemma _should_prune_simple (b : Bullet) (cutoff : string) (min_quality : Q) :
  _should_prune b cutoff min_quality = simple_should_prune b min_quality.
Proof.
  unfold _should_prune, simple_should_prune.
  destruct (N.ltb_spec (total_references b) 5) as [H|H];
    destruct (N.leb_spec 5 (total_references b)) as [H'|H'];
    try (exfalso; lia); simpl; [reflexivity|].
  destruct (Qlt_bool (quality_ratio b) min_quality); [reflexivity|].
  destruct (N.ltb_spec (total_references b) 3) as [H3|H3]; [exfalso; lia|].
  now rewrite andb_false_r.
Qed.

Lemma prune_sections_fst (P : Bullet -> bool) (cutoff : string) (min_quality : Q)
    (secs : list (string * list Bullet)) :
  (forall b, _should_prune b cutoff min_quality = P b) ->
  fst (prune_sections cutoff min_quality secs)
  = map (fun '(name, bs) => (name, List.filter (fun b => negb (P b)) bs)) secs.
Proof.
  intros HP. induction secs as [|[name bs] rest IH]; simpl; [reflexivity|].
  destruct (prune_sections cutoff min_quality rest) as [rest' pruned].
  simpl in *. rewrite IH. f_equal. f_equal. unfold prune_section.
  apply filter_ext. intros b. now rewrite HP.
Qed.

Lemma prune_sections_snd (cutoff : string) (min_quality : Q)
    (secs : list (string * list Bullet)) :
  snd (prune_sections cutoff min_quality secs)
  = fold_right Z.add 0
      (map (fun '(_, bs) =>
              Z.of_nat (length (List.filter
                (fun b => _should_prune b cutoff min_quality) bs))) secs).
Proof.
  induction secs as [|[name bs] rest IH]; simpl; [reflexivity|].
  destruct (prune_sections cutoff min_quality rest) as [rest' pruned].
  simpl in *. rewrite <- IH. f_equal. unfold prune_section.
  induction bs as [|b bs IHb]; simpl; [reflexivity|].
  destruct (_should_prune b cutoff min_quality); simpl in *; lia.
Qed.

Lemma prune_stale_sections (cutoff_of : Z -> string) (stale_days : Z)
    (min_quality : Q) (pb : Playbook) :
  sections (fst (prune_stale cutoff_of stale_days min_quality pb))
  = fst (prune_sections (cutoff_of stale_days) min_quality (sections pb)).
Proof.
  unfold prune_stale.
  destruct (prune_sections (cutoff_of stale_days) min_quality (sections pb))
    as [secs pruned]. simpl.
  destruct (pruned =? 0); reflexivity.
Qed.

(** C3: [prune_stale] keeps, in every section and in order, exactly the
    bullets that fail the stated condition (at least 5 references, and
    quality below the floor or stale with fewer than 3 references); a bullet
    with fewer than 5 references is never selected for removal. *)
Theorem prune_stale_removes_iff (cutoff_of : Z -> string) (stale_days : Z)
    (min_quality : Q) (pb : Playbook) :
  sections (fst (prune_stale cutoff_of stale_days min_quality pb))
  = map (fun '(name, bs) =>
           (name,
            List.filter
              (fun b =>
                 negb ((5 <=? total_references b)%N
                       && (Qlt_bool (quality_ratio b) min_quality
                           || (String.ltb (last_referenced b)
                                          (cutoff_of stale_days)
                               && (total_references b <? 3)%N))))
              bs))
        (sections pb)
  /\ snd (prune_stale cutoff_of stale_days min_quality pb)
     = fold_right Z.add 0
         (map (fun '(_, bs) =>
                 Z.of_nat (length (List.filter
                   (fun b => _should_prune b (cutoff_of stale_days) min_quality)
                   bs)))
              (sections pb))
  /\ (forall b cutoff, (total_references b < 5)%N ->
        _should_prune b cutoff min_quality = false).
Proof.
  split; [|split].
  - rewrite prune_stale_sections.
    apply (prune_sections_fst
             (fun b => spec_should_prune b (cutoff_of stale_days) min_quality)).
    intros b. apply _should_prune_spec.
  - unfold prune_stale. rewrite <- prune_sections_snd.
    destruct (prune_sections _ _ _) as [secs pruned]. simpl.
    destruct (pruned =? 0); reflexivity.
  - intros b cutoff Hlt. unfold _should_prune.
    destruct (N.ltb_spec (total_references b) 5); [reflexivity|lia].
Qed.

(** C10: the staleness test never decides: [_should_prune] is the one-gate
    predicate, and [prune_stale] keeps exactly the bullets that fail it. *)
Theorem prune_stale_staleness_unreachable (cutoff_of : Z -> string)
    (stale_days : Z) (min_quality : Q) (pb : Playbook) :
  (forall b cutoff,
      _should_prune b cutoff min_quality = true
      <-> ((5 <= total_references b)%N /\ (quality_ratio b < min_quality)%Q))
  /\ (forall b cutoff,
        (5 <= total_references b)%N ->
        Qlt_bool (quality_ratio b) min_quality = false ->
        String.ltb (last_referenced b) cutoff
          && (total_references b <? 3)%N = false)
  /\ sections (fst (prune_stale cutoff_of stale_days min_quality pb))
     = map (fun '(name, bs) =>
              (name, List.filter
                       (fun b => negb (simple_should_prune b min_quality)) bs))
           (sections pb).
Proof.
  split; [|split].
  - intros b cutoff. rewrite _should_prune_simple. unfold simple_should_prune.
    rewrite andb_true_iff, N.leb_le, Qlt_bool_iff. tauto.
  - intros b cutoff H5 _.
    destruct (N.ltb_spec (total_references b) 3); [lia|].
    apply andb_false_r.
  - rewrite prune_stale_sections.
    apply (prune_sections_fst (fun b => simple_should_prune b min_quality)).
    intros b. apply _should_prune_simple.
Qed.

(** ** Deduplication: what a run leaves behind *)

Lemma fold_left_fixed {A B : Type} (f : A -> B -> A) (l : list B) (s : A) :
  (forall x, x ∈ l -> f s x = s) -> fold_left f l s = s.
Proof.
  induction l as [|x l IH]; simpl; intros H; [reflexivity|].
  rewrite H by left. apply IH. intros y Hy. apply H. now right.
Qed.

Lemma merge_counts_content (x y : Bullet) :
  content (merge_counts x y) = content x.
Proof. reflexivity. Qed.

Lemma dedup_inner_inv (thr : Q) (cs : list string) (i j : nat)
    (bs : list Bullet) (rm : gset nat) :
  content <$> bs = cs ->
  content <$> fst (dedup_inner thr i (bs, rm) j) = cs
  /\ rm ⊆ snd (dedup_inner thr i (bs, rm) j)
  /\ (similar_at thr cs i j ->
      i ∈ snd (dedup_inner thr i (bs, rm) j)
      \/ j ∈ snd (dedup_inner thr i (bs, rm) j)).
Proof.
  intros Hcs. unfold dedup_inner.
  case_bool_decide as Hj; simpl.
  { split; [assumption|]. split; [reflexivity|]. intros _. now right. }
  destruct (bs !! i) as [bi|] eqn:Hi; simpl.
  2:{ split; [assumption|]. split; [reflexivity|].
      intros (a & b & Ha & _). subst cs.
      rewrite list_lookup_fmap, Hi in Ha. discriminate. }
  destruct (bs !! j) as [bj|] eqn:Hbj; simpl.
  2:{ split; [assumption|]. split; [reflexivity|].
      intros (a & b & _ & Hb & _). subst cs.
      rewrite list_lookup_fmap, Hbj in Hb. discriminate. }
  destruct (Qle_bool thr (_text_similarity (content bi) (content bj))) eqn:Hsim.
  - destruct (Qle_bool (quality_ratio bj) (quality_ratio bi)); simpl.
    + split; [|split; [apply union_subseteq_r|]].
      * rewrite list_fmap_insert, merge_counts_content. subst cs.
        apply list_insert_id. now rewrite list_lookup_fmap, Hi.
      * intros _. right. apply elem_of_union_l, elem_of_singleton. reflexivity.
    + split; [|split; [apply union_subseteq_r|]].
      * rewrite list_fmap_insert, merge_counts_content. subst cs.
        apply list_insert_id. now rewrite list_lookup_fmap, Hbj.
      * intros _. left. apply elem_of_union_l, elem_of_singleton. reflexivity.
  - simpl. split; [assumption|]. split; [reflexivity|].
    intros (a & b & Ha & Hb & Hab). subst cs.
    rewrite list_lookup_fmap, Hi in Ha. rewrite list_lookup_fmap, Hbj in Hb.
    simpl in *. inversion Ha; inversion Hb; subst. congruence.
Qed.

Lemma dedup_inner_fold_inv (thr : Q) (cs : list string) (i : nat)
    (js : list nat) (st : dedup_state) :
  content <$> fst st = cs ->
  let st' := fold_left (dedup_inner thr i) js st in
  content <$> fst st' = cs
  /\ snd st ⊆ snd st'
  /\ (forall j, j ∈ js -> similar_at thr cs i j -> i ∈ snd st' \/ j ∈ snd st').
Proof.
  revert st. induction js as [|j js IH]; intros [bs rm] Hcs; cbn [fold_left].
  { split; [assumption|]. split; [reflexivity|]. intros j Hj. inversion Hj. }
  destruct (dedup_inner_inv thr cs i j bs rm Hcs) as (Hc1 & Hmono1 & Hsim1).
  destruct (dedup_inner thr i (bs, rm) j) as [bs1 rm1] eqn:Hstep.
  destruct (IH (bs1, rm1) Hc1) as (Hc2 & Hmono2 & Hsim2). cbn [fst snd] in *.
  split; [assumption|]. split; [etrans; eassumption|].
  intros j' Hj' Hs. apply elem_of_cons in Hj' as [->|Hj'].
  - destruct (Hsim1 Hs) as [H|H]; [left|right]; apply Hmono2, H.
  - apply Hsim2; assumption.
Qed.

Lemma dedup_outer_inv (thr : Q) (cs : list string) (n i : nat)
    (st : dedup_state) :
  content <$> fst st = cs ->
  let st' := dedup_outer thr n st i in
  content <$> fst st' = cs
  /\ snd st ⊆ snd st'
  /\ (forall j, (i < j < n)%nat -> similar_at thr cs i j ->
        i ∈ snd st' \/ j ∈ snd st').
Proof.
  intros Hcs. unfold dedup_outer. case_bool_decide as Hi.
  { simpl. split; [assumption|]. split; [reflexivity|]. intros; now left. }
  destruct (dedup_inner_fold_inv thr cs i (seq (S i) (n - S i)) st Hcs)
    as (Hc & Hmono & Hsim).
  split; [assumption|]. split; [assumption|].
  intros j Hj. apply Hsim. apply elem_of_seq. lia.
Qed.

Lemma dedup_outer_fold_inv (thr : Q) (cs : list string) (n : nat)
    (idxs : list nat) (st : dedup_state) :
  content <$> fst st = cs ->
  let st' := fold_left (dedup_outer thr n) idxs st in
  content <$> fst st' = cs
  /\ snd st ⊆ snd st'
  /\ (forall i j, i ∈ idxs -> (i < j < n)%nat -> similar_at thr cs i j ->
        i ∈ snd st' \/ j ∈ snd st').
Proof.
  revert st. induction idxs as [|i idxs IH]; intros st Hcs; cbn [fold_left].
  { split; [assumption|]. split; [reflexivity|]. intros i j Hi. inversion Hi. }
  destruct (dedup_outer_inv thr cs n i st Hcs) as (Hc1 & Hmono1 & Hsim1).
  destruct (IH (dedup_outer thr n st i) Hc1) as (Hc2 & Hmono2 & Hsim2).
  cbn zeta in *. split; [assumption|]. split; [etrans; eassumption|].
  intros i' j Hi' Hj Hs. apply elem_of_cons in Hi' as [->|Hi'].
  - destruct (Hsim1 j Hj Hs) as [H|H]; [left|right]; apply Hmono2, H.
  - apply Hsim2; assumption.
Qed.

(** After the two loops, of any two positions with similar contents at
    least one is marked for removal; contents are untouched. *)
Lemma dedup_pairs_inv (thr : Q) (bs : list Bullet) :
  content <$> fst (dedup_pairs thr bs) = content <$> bs
  /\ (forall i j, (i < j < length bs)%nat ->
        similar_at thr (content <$> bs) i j ->
        i ∈ snd (dedup_pairs thr bs) \/ j ∈ snd (dedup_pairs thr bs)).
Proof.
  unfold dedup_pairs.
  destruct (dedup_outer_fold_inv thr (content <$> bs) (length bs)
              (seq 0 (length bs)) (bs, ∅) eq_refl) as (Hc & _ & Hsim).
  split; [assumption|]. intros i j Hij.
  apply Hsim; [apply elem_of_seq; lia|lia].
Qed.

(** A section without similar pairs is left as it is. *)
Lemma dedup_pairs_fixed (thr : Q) (bs : list Bullet) :
  (forall i j, (i < j < length bs)%nat ->
     ~ similar_at thr (content <$> bs) i j) ->
  dedup_pairs thr bs = (bs, ∅).
Proof.
  intros Hno. unfold dedup_pairs. apply fold_left_fixed.
  intros i Hi. apply elem_of_seq in Hi. unfold dedup_outer. simpl.
  rewrite bool_decide_eq_false_2 by set_solver.
  apply fold_left_fixed. intros j Hj. apply elem_of_seq in Hj.
  unfold dedup_inner. rewrite bool_decide_eq_false_2 by set_solver.
  destruct (bs !! i) as [bi|] eqn:Hbi; [|reflexivity].
  destruct (bs !! j) as [bj|] eqn:Hbj; [|reflexivity].
  destruct (Qle_bool thr (_text_similarity (content bi) (content bj))) eqn:Hs;
    [|reflexivity].
  exfalso. apply (Hno i j); [lia|].
  exists (content bi), (content bj).
  rewrite !list_lookup_fmap, Hbi, Hbj. auto.
Qed.

Lemma drop_indices_lookup (rm : gset nat) (l : list Bullet) :
  forall (k a : nat) (x : Bullet),
    drop_indices rm k l !! a = Some x ->
    exists i, l !! i = Some x /\ (k + i)%nat ∉ rm.
Proof.
  induction l as [|h l IH]; intros k a x; simpl; [discriminate|].
  case_bool_decide as Hk.
  - intros Ha. destruct (IH (S k) a x Ha) as (i & Hi & Hrm).
    exists (S i). split; [assumption|]. now replace (k + S i)%nat with (S k + i)%nat by lia.
  - destruct a as [|a]; simpl.
    + intros [= <-]. exists 0%nat. split; [reflexivity|].
      now rewrite Nat.add_0_r.
    + intros Ha. destruct (IH (S k) a x Ha) as (i & Hi & Hrm).
      exists (S i). split; [assumption|].
      now replace (k + S i)%nat with (S k + i)%nat by lia.
Qed.

(** The list comprehension keeps the relative order of what it keeps. *)
Lemma drop_indices_pair (rm : gset nat) (l : list Bullet) :
  forall (k a b : nat) (x y : Bullet),
    (a < b)%nat ->
    drop_indices rm k l !! a = Some x ->
    drop_indices rm k l !! b = Some y ->
    exists i j, (i < j)%nat /\ l !! i = Some x /\ l !! j = Some y
                /\ ((k + i)%nat ∉ rm) /\ ((k + j)%nat ∉ rm).
Proof.
  induction l as [|h l IH]; intros k a b x y Hab; simpl; [discriminate|].
  case_bool_decide as Hk.
  - intros Ha Hb.
    destruct (IH (S k) a b x y Hab Ha Hb) as (i & j & Hij & Hi & Hj & Ri & Rj).
    exists (S i), (S j). repeat split; try assumption; try lia.
    + now replace (k + S i)%nat with (S k + i)%nat by lia.
    + now replace (k + S j)%nat with (S k + j)%nat by lia.
  - destruct b as [|b]; [lia|]. destruct a as [|a]; simpl.
    + intros [= <-] Hb.
      destruct (drop_indices_lookup rm l (S k) b y Hb) as (j & Hj & Rj).
      exists 0%nat, (S j). repeat split; try assumption; try lia.
      * now rewrite Nat.add_0_r.
      * now replace (k + S j)%nat with (S k + j)%nat by lia.
    + intros Ha Hb.
      destruct (IH (S k) a b x y ltac:(lia) Ha Hb)
        as (i & j & Hij & Hi & Hj & Ri & Rj).
      exists (S i), (S j). repeat split; try assumption; try lia.
      * now replace (k + S i)%nat with (S k + i)%nat by lia.
      * now replace (k + S j)%nat with (S k + j)%nat by lia.
Qed.

(** What a run hands back has no two similar bullets left. *)
Lemma dedup_pairs_survivors (thr : Q) (bs : list Bullet) :
  let s := drop_indices (snd (dedup_pairs thr bs)) 0 (fst (dedup_pairs thr bs)) in
  forall a b, (a < b < length s)%nat -> ~ similar_at thr (content <$> s) a b.
Proof.
  intros s a b Hab (ca & cb & Ha & Hb & Hsim).
  destruct (dedup_pairs_inv thr bs) as (Hc & Hinv).
  rewrite list_lookup_fmap in Ha, Hb.
  destruct (s !! a) as [x|] eqn:Hx; [|discriminate].
  destruct (s !! b) as [y|] eqn:Hy; [|discriminate].
  simpl in Ha, Hb. injection Ha as <-. injection Hb as <-.
  destruct (drop_indices_pair _ _ 0 a b x y ltac:(lia) Hx Hy)
    as (i & j & Hij & Hi & Hj & Ri & Rj).
  simpl in Ri, Rj.
  assert (Hlen : length (fst (dedup_pairs thr bs)) = length bs).
  { rewrite <- (length_fmap content), Hc. apply length_fmap. }
  assert (Hjlt : (j < length bs)%nat).
  { rewrite <- Hlen. eapply lookup_lt_Some; eassumption. }
  destruct (Hinv i j ltac:(lia)) as [H|H]; [|contradiction|contradiction].
  exists (content x), (content y). rewrite <- Hc, !list_lookup_fmap, Hi, Hj.
  auto.
Qed.

Lemma drop_indices_empty (l : list Bullet) (k : nat) : drop_indices ∅ k l = l.
Proof.
  revert k. induction l as [|h l IH]; intros k; simpl; [reflexivity|].
  rewrite bool_decide_eq_false_2 by apply not_elem_of_empty.
  now rewrite IH.
Qed.

(** On the outcome of [dedup_section] a further run changes nothing. *)
Lemma dedup_section_idempotent (thr : Q) (bs : list Bullet) :
  dedup_section thr (fst (dedup_section thr bs))
  = (fst (dedup_section thr bs), 0).
Proof.
  assert (Hfix : forall s,
             (forall a b, (a < b < length s)%nat ->
                          ~ similar_at thr (content <$> s) a b) ->
             dedup_section thr s = (s, 0)).
  { intros s Hs. unfold dedup_section.
    destruct (length s <? 2)%nat; [reflexivity|].
    rewrite (dedup_pairs_fixed thr s Hs).
    now rewrite bool_decide_eq_true_2. }
  unfold dedup_section at 2 3.
  destruct (length bs <? 2)%nat eqn:Hlen.
  { simpl. unfold dedup_section. now rewrite Hlen. }
  pose proof (dedup_pairs_survivors thr bs) as Hsurv.
  destruct (dedup_pairs thr bs) as [bs' rm] eqn:Hpairs. simpl in Hsurv.
  case_bool_decide as Hrm; simpl.
  - subst rm. rewrite drop_indices_empty in Hsurv. apply Hfix, Hsurv.
  - apply Hfix, Hsurv.
Qed.

Lemma dedup_sections_idempotent (thr : Q) (secs : list (string * list Bullet)) :
  dedup_sections thr (fst (dedup_sections thr secs))
  = (fst (dedup_sections thr secs), 0).
Proof.
  induction secs as [|[name bs] rest IH]; simpl; [reflexivity|].
  pose proof (dedup_section_idempotent thr bs) as Hs.
  destruct (dedup_section thr bs) as [bs' k].
  destruct (dedup_sections thr rest) as [rest' removed].
  simpl in *. rewrite Hs, IH. reflexivity.
Qed.

(** C4: a second consecutive [deduplicate] at the same threshold removes no
    bullet and leaves the playbook as the first run left it. *)
Theorem deduplicate_idempotent (similarity_threshold : Q) (pb : Playbook) :
  deduplicate similarity_threshold (fst (deduplicate similarity_threshold pb))
  = (fst (deduplicate similarity_threshold pb), 0).
Proof.
  assert (Hrun : forall p secs,
             sections p = fst (dedup_sections similarity_threshold secs) ->
             deduplicate similarity_threshold p = (p, 0)).
  { intros [psecs pmeta] secs Hp. simpl in Hp. subst psecs.
    unfold deduplicate. simpl.
    now rewrite dedup_sections_idempotent. }
  unfold deduplicate at 2 3.
  destruct (dedup_sections similarity_threshold (sections pb))
    as [secs removed] eqn:Hd.
  destruct (removed =? 0); simpl; apply (Hrun _ (sections pb));
    now rewrite Hd.
Qed.

(** ** Deduplication: the counters *)

(** A section of two similar bullets: the one with the higher ratio stays
    (the first on a tie) and takes the counters of the other; the sums of
    the section are kept. *)
Lemma dedup_section_two (thr : Q) (x y : Bullet) :
  Qle_bool thr (_text_similarity (content x) (content y)) = true ->
  dedup_section thr [x; y]
  = (if Qle_bool (quality_ratio y) (quality_ratio x)
     then [merge_counts x y] else [merge_counts y x], 1)
  /\ sum_helpful (fst (dedup_section thr [x; y])) = sum_helpful [x; y]
  /\ sum_harmful (fst (dedup_section thr [x; y])) = sum_harmful [x; y].
Proof.
  intros Hsim.
  assert (Hin : forall i : nat, bool_decide (i ∈ ({[i]} ∪ ∅ : gset nat)) = true).
  { intros i. apply bool_decide_eq_true_2, elem_of_union_l, elem_of_singleton.
    reflexivity. }
  assert (Hout : forall i j : nat, i <> j ->
                 bool_decide (i ∈ ({[j]} ∪ ∅ : gset nat)) = false).
  { intros i j Hij. apply bool_decide_eq_false_2.
    rewrite elem_of_union, elem_of_singleton, elem_of_empty. tauto. }
  assert (Hne : forall j : nat, bool_decide (({[j]} ∪ ∅ : gset nat) = ∅) = false).
  { intros j. apply bool_decide_eq_false_2. intros H.
    apply (not_elem_of_empty (C:=gset nat) j). rewrite <- H.
    apply elem_of_union_l, elem_of_singleton. reflexivity. }
  assert (Hsize : forall j : nat, size ({[j]} ∪ ∅ : gset nat) = 1%nat).
  { intros j. rewrite (right_id_L ∅ (∪)). apply size_singleton. }
  assert (Heq : dedup_section thr [x; y]
                = (if Qle_bool (quality_ratio y) (quality_ratio x)
                   then [merge_counts x y] else [merge_counts y x], 1)).
  { unfold dedup_section, dedup_pairs.
    cbn [length Nat.ltb Nat.leb seq fold_left].
    unfold dedup_outer at 2. cbn [snd].
    rewrite bool_decide_eq_false_2 by apply not_elem_of_empty.
    cbn [Nat.sub seq fold_left]. unfold dedup_inner.
    rewrite bool_decide_eq_false_2 by apply not_elem_of_empty.
    cbn [lookup list_lookup]. rewrite Hsim.
    destruct (Qle_bool (quality_ratio y) (quality_ratio x));
      unfold dedup_outer; cbn [snd Nat.sub seq fold_left].
    - rewrite Hin, Hne, Hsize. cbn [drop_indices insert list_insert].
      rewrite (Hout 0%nat 1%nat) by lia. rewrite Hin. reflexivity.
    - rewrite (Hout 1%nat 0%nat) by lia. rewrite Hne, Hsize.
      cbn [drop_indices insert list_insert].
      rewrite Hin, (Hout 1%nat 0%nat) by lia. reflexivity. }
  split; [exact Heq|]. rewrite Heq.
  destruct (Qle_bool (quality_ratio y) (quality_ratio x));
    unfold sum_helpful, sum_harmful; simpl; split; lia.
Qed.

(** C5: on three bullets with the same text the code merges the third into
    the first after the first was marked for removal: one bullet is left,
    and the helpful and harmful counts of the section drop from 2 and 1 to
    1 and 0. *)
Theorem deduplicate_drops_counts :
  sections (fst (deduplicate (85 # 100) duplicate_playbook))
  = [("general", [dup_b])]
  /\ snd (deduplicate (85 # 100) duplicate_playbook) = 2
  /\ sum_helpful [dup_a; dup_b; dup_c] = 2%N
  /\ sum_helpful [dup_b] = 1%N
  /\ sum_harmful [dup_a; dup_b; dup_c] = 1%N
  /\ sum_harmful [dup_b] = 0%N.
Proof. vm_compute. repeat split. Qed.

(** ** Selection and export *)

Lemma insert_desc_perm {A : Type} (key : A -> Q) (x : A) (l : list A) :
  insert_desc key x l ≡ₚ x :: l.
Proof.
  induction l as [|y l IH]; simpl; [reflexivity|].
  destruct (Qle_bool (key y) (key x)); [reflexivity|].
  rewrite IH. apply Permutation_swap.
Qed.

Lemma sort_desc_perm {A : Type} (key : A -> Q) (l : list A) :
  sort_desc key l ≡ₚ l.
Proof.
  induction l as [|x l IH]; simpl; [reflexivity|].
  rewrite insert_desc_perm. now rewrite IH.
Qed.

Lemma insert_desc_sorted {A : Type} (key : A -> Q) (x : A) (l : list A) :
  Sorted (desc key) l -> Sorted (desc key) (insert_desc key x l).
Proof.
  induction l as [|y l IH]; simpl; intros Hs.
  - repeat constructor.
  - destruct (Qle_bool (key y) (key x)) eqn:Hle.
    + constructor; [assumption|]. constructor. now apply Qle_bool_iff.
    + inversion Hs as [|? ? Hl Hhd]; subst.
      constructor; [apply IH, Hl|].
      assert (Hxy : desc key y x).
      { unfold desc. apply Qlt_le_weak, Qnot_le_lt. intros H.
        apply Qle_bool_iff in H. congruence. }
      destruct l as [|z l]; simpl.
      * now constructor.
      * destruct (Qle_bool (key z) (key x)); constructor; try assumption.
        now inversion Hhd.
Qed.

Lemma sort_desc_sorted {A : Type} (key : A -> Q) (l : list A) :
  Sorted (desc key) (sort_desc key l).
Proof.
  induction l as [|x l IH]; simpl; [constructor|].
  now apply insert_desc_sorted.
Qed.

Lemma py_len_nonneg (s : string) : 0 <= py_len s.
Proof.
  induction s as [|c s IH]; cbn [py_len]; [lia|]. cbv zeta.
  destruct ((128 <=? nat_of_ascii c)%nat && (nat_of_ascii c <? 192)%nat); lia.
Qed.

Lemma append_lines_prefix (char_budget : Z) (bs : list Bullet) :
  forall char_count,
  exists k, (k <= length bs)%nat
    /\ append_lines char_budget char_count bs = map bullet_line (take k bs)
    /\ (forall m, (0 < m <= k)%nat ->
          char_count + lines_len (take m bs) <= char_budget)
    /\ ((k < length bs)%nat ->
          char_count + lines_len (take (S k) bs) > char_budget).
Proof.
  assert (Hcons : forall b l, lines_len (b :: l)
                              = py_len (bullet_line b) + lines_len l)
    by reflexivity.
  induction bs as [|b bs IH]; intros c; cbn [append_lines length].
  - exists 0%nat. split; [lia|]. split; [reflexivity|]. split; intros; lia.
  - cbv zeta.
    destruct (Z.gtb_spec (c + py_len (bullet_line b)) char_budget) as [Hgt|Hle].
    + exists 0%nat. split; [lia|]. split; [reflexivity|].
      split; [intros; lia|]. intros _.
      change (take 1 (b :: bs)) with [b]. rewrite Hcons.
      change (lines_len []) with 0. lia.
    + destruct (IH (c + py_len (bullet_line b)))
        as (k & Hk & Heq & Hfit & Hstop).
      exists (S k). split; [lia|].
      split; [rewrite Heq; reflexivity|]. split.
      * intros m Hm. destruct m as [|m]; [lia|].
        change (take (S m) (b :: bs)) with (b :: take m bs). rewrite Hcons.
        destruct m as [|m].
        { rewrite take_0. change (lines_len []) with 0. lia. }
        specialize (Hfit (S m) ltac:(lia)). lia.
      * intros Hlt. specialize (Hstop ltac:(lia)).
        change (take (S (S k)) (b :: bs)) with (b :: take (S k) bs).
        rewrite Hcons. lia.
Qed.

(** Once the count exceeds the budget nothing more is appended. *)
Lemma append_lines_over_budget (char_budget char_count : Z) (bs : list Bullet) :
  char_budget < char_count -> append_lines char_budget char_count bs = [].
Proof.
  intros Hlt. destruct bs as [|b bs]; [reflexivity|].
  cbn [append_lines]. cbv zeta.
  pose proof (py_len_nonneg (bullet_line b)) as Hb.
  destruct (Z.gtb_spec (char_count + py_len (bullet_line b)) char_budget);
    [reflexivity|lia].
Qed.

(** C8: the text is the header followed by the whole lines of a prefix of
    the candidates in descending score order; every included line fits the
    budget of [max_tokens * 4] characters (the header counted), and the
    first line left out is one that does not fit. With a budget of 10
    tokens and every candidate line longer than 40 characters the text is
    the header alone. *)
Theorem export_for_agent_whole_lines (log1p : Z -> Q) (pb : Playbook)
    (role : string) (max_tokens : Z) :
  let sorted := sort_desc (score log1p) (export_candidates pb role) in
  sorted ≡ₚ export_candidates pb role
  /\ Sorted (desc (score log1p)) sorted
  /\ (exists k, (k <= length sorted)%nat
        /\ export_for_agent log1p pb role max_tokens
           = String.concat "" (header :: map bullet_line (take k sorted))
        /\ (forall m, (0 < m <= k)%nat ->
              py_len header + lines_len (take m sorted) <= max_tokens * 4)
        /\ ((k < length sorted)%nat ->
              py_len header + lines_len (take (S k) sorted) > max_tokens * 4))
  /\ (max_tokens = 10 ->
      (forall b, b ∈ export_candidates pb role -> 40 < py_len (bullet_line b)) ->
      export_for_agent log1p pb role max_tokens = header).
Proof.
  intros sorted. split; [apply sort_desc_perm|].
  split; [apply sort_desc_sorted|]. split.
  - destruct (append_lines_prefix (max_tokens * 4) sorted (py_len header))
      as (k & Hk & Heq & Hfit & Hstop).
    exists k. split; [assumption|]. split; [|split; assumption].
    unfold export_for_agent. fold sorted. now rewrite Heq.
  - intros -> _. unfold export_for_agent. fold sorted.
    rewrite append_lines_over_budget; [reflexivity|].
    change (py_len header) with 53. lia.
Qed.

(** *** The score that ranks *)

(** C7: the key is [quality_ratio * log1p(total_references + 1)], the
    logarithm of [2 + total_references]. With the facts [log 1 = 0],
    [0 < log 11] and [log 12 < 5 * log 2] about the logarithm, the code
    ranks the unreferenced bullet first, where the score
    [quality_ratio * log(1 + total_references)] ranks it last. *)
Theorem get_top_bullets_ranks_by_log1p_plus_one (log1p : Z -> Q) :
  (log1p 0%Z == 0)%Q -> (0 < log1p 10%Z)%Q ->
  (log1p 11%Z < 5 * log1p 1%Z)%Q ->
  get_top_bullets log1p ranking_playbook 30 None
  = [fresh_bullet; doubtful_bullet]
  /\ export_for_agent log1p ranking_playbook "planner" 4000
     = header ++ bullet_line fresh_bullet ++ bullet_line doubtful_bullet
  /\ sort_desc (spec_score log1p) [doubtful_bullet; fresh_bullet]
     = [doubtful_bullet; fresh_bullet].
Proof.
  intros H0 H10 H11.
  assert (Hcode : Qle_bool (score log1p fresh_bullet)
                           (score log1p doubtful_bullet) = false).
  { destruct (Qle_bool _ _) eqn:E; [|reflexivity]. exfalso.
    apply Qle_bool_iff in E. unfold score in E.
    change (quality_ratio fresh_bullet) with (1 # 2) in E.
    change (quality_ratio doubtful_bullet) with (inject_Z 1 / inject_Z 10)%Q in E.
    change (Z.of_N (total_references fresh_bullet) + 1) with 1 in E.
    change (Z.of_N (total_references doubtful_bullet) + 1) with 11 in E.
    assert (Hq : (inject_Z 1 / inject_Z 10 == 1 # 10)%Q) by reflexivity.
    rewrite Hq in E. lra. }
  assert (Hspec : Qle_bool (spec_score log1p fresh_bullet)
                           (spec_score log1p doubtful_bullet) = true).
  { apply Qle_bool_iff. unfold spec_score.
    change (quality_ratio fresh_bullet) with (1 # 2).
    change (quality_ratio doubtful_bullet) with (inject_Z 1 / inject_Z 10)%Q.
    change (Z.of_N (total_references fresh_bullet)) with 0.
    change (Z.of_N (total_references doubtful_bullet)) with 10.
    assert (Hq : (inject_Z 1 / inject_Z 10 == 1 # 10)%Q) by reflexivity.
    rewrite Hq, H0. lra. }
  split; [|split].
  - unfold get_top_bullets, ranking_playbook, top_candidates, sort_desc.
    cbn [sections flat_map app fold_right insert_desc]. now rewrite Hcode.
  - unfold export_for_agent, export_candidates, relevant_sections, sort_desc.
    change (dict_get role_sections "planner")
      with (Some ["architecture"; "build_ordering"; "general"]).
    cbn [flat_map]. 
    change (dict_get (sections ranking_playbook) "architecture")
      with (@None (list Bullet)).
    change (dict_get (sections ranking_playbook) "build_ordering")
      with (@None (list Bullet)).
    change (dict_get (sections ranking_playbook) "general")
      with (Some [doubtful_bullet; fresh_bullet]).
    cbn [app fold_right insert_desc]. rewrite Hcode. reflexivity.
  - unfold sort_desc. cbn [fold_right insert_desc]. now rewrite Hspec.
Qed.

Lemma get_top_bullets_ranks_by_log1p_plus_one_witness :
  get_top_bullets log1p_table ranking_playbook 30 None
  = [fresh_bullet; doubtful_bullet]
  /\ export_for_agent log1p_table ranking_playbook "planner" 4000
     = header ++ bullet_line fresh_bullet ++ bullet_line doubtful_bullet
  /\ sort_desc (spec_score log1p_table) [doubtful_bullet; fresh_bullet]
     = [doubtful_bullet; fresh_bullet].
Proof.
  apply (get_top_bullets_ranks_by_log1p_plus_one log1p_table);
    vm_compute; reflexivity.
Defined.

(** ** Session scanner *)

Lemma leb_trans (a b c : string) :
  String.leb a b = true -> String.leb b c = true -> String.leb a c = true.
Proof.
  assert (Hle : forall x y, String.leb x y = true
                            <-> (OrderedTypeEx.String_as_OT.lt x y \/ x = y)).
  { intros x y. unfold String.leb.
    destruct (String.compare x y) eqn:E.
    - apply String.compare_eq_iff in E. tauto.
    - apply OrderedTypeEx.String_as_OT.cmp_lt in E. tauto.
    - split; [discriminate|]. intros [H| ->].
      + apply OrderedTypeEx.String_as_OT.cmp_lt in H.
        unfold OrderedTypeEx.String_as_OT.cmp in H. congruence.
      + assert (H : String.compare y y = Eq)
          by now apply OrderedTypeEx.String_as_OT.cmp_eq.
        congruence. }
  rewrite !Hle. intros [H1| ->] [H2| ->]; auto.
  left. eapply OrderedTypeEx.String_as_OT.lt_trans; eassumption.
Qed.

Lemma insert_by_name_perm (d : SessionDir) (l : list SessionDir) :
  insert_by_name d l ≡ₚ d :: l.
Proof.
  induction l as [|e l IH]; simpl; [reflexivity|].
  destruct (String.leb (name d) (name e)); [reflexivity|].
  rewrite IH. apply Permutation_swap.
Qed.

Lemma sorted_by_name_perm (l : list SessionDir) : sorted_by_name l ≡ₚ l.
Proof.
  induction l as [|d l IH]; simpl; [reflexivity|].
  rewrite insert_by_name_perm. now rewrite IH.
Qed.

Lemma insert_by_name_sorted (d : SessionDir) (l : list SessionDir) :
  StronglySorted name_le l -> StronglySorted name_le (insert_by_name d l).
Proof.
  induction l as [|e l IH]; simpl; intros Hs.
  - repeat constructor.
  - destruct (String.leb (name d) (name e)) eqn:Hle.
    + constructor; [assumption|]. constructor; [assumption|].
      apply StronglySorted_inv in Hs as [_ Hall].
      eapply List.Forall_impl; [|exact Hall].
      intros x Hx. unfold name_le in *. eapply leb_trans; eassumption.
    + apply StronglySorted_inv in Hs as [Hl Hall].
      constructor; [apply IH, Hl|].
      assert (Hed : name_le e d).
      { unfold name_le. destruct (String.leb_total (name e) (name d)); congruence. }
      rewrite insert_by_name_perm. constructor; assumption.
Qed.

Lemma sorted_by_name_sorted (l : list SessionDir) :
  StronglySorted name_le (sorted_by_name l).
Proof.
  induction l as [|d l IH]; simpl; [constructor|].
  now apply insert_by_name_sorted.
Qed.

Lemma filter_strongly_sorted {A : Type} (R : A -> A -> Prop) (f : A -> bool)
    (l : list A) :
  StronglySorted R l -> StronglySorted R (List.filter f l).
Proof.
  induction 1 as [|x l Hl IH Hall]; simpl; [constructor|].
  destruct (f x); [|assumption].
  constructor; [assumption|].
  rewrite List.Forall_forall in *. intros y Hy.
  apply List.filter_In in Hy. apply Hall, Hy.
Qed.

(** C9, as amended: [find_all_sessions] returns, ordered by directory name,
    exactly the subdirectories whose completion marker file exists,
    whatever the file holds, and does not look at the processed-set. *)
Theorem find_all_sessions_marker_exists (sc : SessionScanner) :
  StronglySorted name_le (find_all_sessions sc)
  /\ find_all_sessions sc
     ≡ₚ List.filter (fun d => is_dir d && state_file_exists d)
                    (default [] (sessions_dir sc))
  /\ (forall d, d ∈ find_all_sessions sc
        <-> d ∈ default [] (sessions_dir sc)
            /\ is_dir d = true /\ state_file d <> Missing)
  /\ (forall processed,
        find_all_sessions (mkSessionScanner (sessions_dir sc) processed)
        = find_all_sessions sc).
Proof.
  assert (Hperm : find_all_sessions sc
                  ≡ₚ List.filter (fun d => is_dir d && state_file_exists d)
                                 (default [] (sessions_dir sc))).
  { unfold find_all_sessions. destruct (sessions_dir sc) as [entries|]; simpl;
      [|reflexivity].
    induction entries as [|d l IH]; [reflexivity|].
    change (sorted_by_name (d :: l)) with (insert_by_name d (sorted_by_name l)).
    assert (Hf : forall l1 l2 : list SessionDir, l1 ≡ₚ l2 ->
               List.filter (fun d => is_dir d && state_file_exists d) l1
               ≡ₚ List.filter (fun d => is_dir d && state_file_exists d) l2).
    { induction 1; simpl; try reflexivity.
      - destruct (is_dir x && state_file_exists x); [constructor|]; assumption.
      - destruct (is_dir x && state_file_exists x);
          destruct (is_dir y && state_file_exists y);
          try reflexivity. apply Permutation_swap.
      - etrans; eassumption. }
    rewrite (Hf _ _ (insert_by_name_perm d (sorted_by_name l))). simpl.
    destruct (is_dir d && state_file_exists d); [constructor|]; exact IH. }
  split; [|split; [exact Hperm|split]].
  - unfold find_all_sessions. destruct (sessions_dir sc) as [entries|];
      [|constructor].
    apply filter_strongly_sorted, sorted_by_name_sorted.
  - intros d. rewrite Hperm, list_elem_of_In, List.filter_In, <- list_elem_of_In,
      andb_true_iff.
    unfold state_file_exists. destruct (state_file d); intuition congruence.
  - intros processed. reflexivity.
Qed.

(** [find_all_sessions] returns a session without a completion timestamp,
    which [find_new_sessions] leaves out. *)
Lemma find_all_sessions_keeps_unfinished :
  find_all_sessions unfinished_scanner = [unfinished_session]
  /\ has_completion_timestamp unfinished_session = false
  /\ find_new_sessions unfinished_scanner = Ok [].
Proof. repeat split. Qed.

(** *** [parse_session] *)

Lemma read_traces_dod (lines : list trace_line) (t : SessionTrace) :
  dod_view (read_traces lines t) = dod_view t.
Proof.
  revert t. induction lines as [|l lines IH]; intros t; [reflexivity|].
  destruct l as [| |entry]; cbn [read_traces]; [apply IH|reflexivity|].
  destruct (py_get entry "type" (JStr "")) as [ty|e]; [|reflexivity].
  cbv zeta. rewrite IH.
  destruct (is_type ty "build_failure"); [reflexivity|].
  destruct (is_type ty "test_failure"); [reflexivity|].
  destruct (is_type ty "rca_failure"); [reflexivity|].
  destruct (is_type ty "sampling_result"); reflexivity.
Qed.

Lemma read_for_claude_dod (d : SessionDir) (t : SessionTrace) :
  dod_view (read_for_claude d t) = dod_view t.
Proof.
  unfold read_for_claude.
  destruct (for_claude d); [|reflexivity].
  destruct (_find_traces_file d); [reflexivity|].
  destruct (0 <? count (lower s) "import_error")%nat; reflexivity.
Qed.

Lemma read_py_files_dod (files : list (string * option string))
    (t : SessionTrace) :
  dod_view (read_py_files files t) = dod_view t.
Proof.
  revert t. induction files as [|[fname [text|]] files IH]; intros t;
    cbn [read_py_files]; [reflexivity| |apply IH].
  rewrite IH. destruct (String.prefix "test_" fname); reflexivity.
Qed.

Lemma count_passed_objects (cs : list json) :
  forallb is_object cs = true ->
  count_passed cs
  = Ok (Z.of_nat (length (List.filter criterion_passed cs))).
Proof.
  induction cs as [|c cs IH]; [reflexivity|].
  cbn [forallb]. rewrite andb_true_iff. intros [Hc Hcs].
  cbn [count_passed]. destruct c as [| | | | | |items]; try discriminate.
  cbn [py_get bind]. rewrite (IH Hcs). cbn [bind List.filter criterion_passed].
  destruct (dict_get items "passed") as [v|]; cbn [truthy].
  - destruct (truthy v); cbn [length]; f_equal; lia.
  - reflexivity.
Qed.

Lemma filter_length_all {A : Type} (f : A -> bool) (l : list A) :
  length (List.filter f l) = length l <-> List.Forall (fun x => f x = true) l.
Proof.
  induction l as [|x l IH]; simpl.
  - split; [constructor|reflexivity].
  - pose proof (List.filter_length_le f l) as Hle.
    destruct (f x) eqn:Hx; simpl.
    + split.
      * intros H. constructor; [assumption|]. apply IH. lia.
      * intros H. inversion H; subst. f_equal. now apply IH.
    + split; [lia|]. intros H. inversion H; congruence.
Qed.

(** What [parse_session] returns on a marker of the documented shape. *)
Lemma parse_session_shape (d : SessionDir) (state : json) (cs : list json) :
  state_file d = Parsed state ->
  marker_criteria state = Some cs ->
  exists t, parse_session d = Ok (Some t)
    /\ dod_view t
       = ((Z.of_nat (length (List.filter criterion_passed cs))
           =? Z.of_nat (length cs)) && (0 <? Z.of_nat (length cs)),
          Z.of_nat (length cs),
          Z.of_nat (length (List.filter criterion_passed cs))).
Proof.
  intros Hfile Hshape. unfold parse_session. rewrite Hfile.
  assert (Hrun : exists dod criteria,
             py_get state "dod" (JObj []) = Ok dod
             /\ py_get dod "criteria" (JArr []) = Ok criteria
             /\ py_iter criteria = Ok cs
             /\ py_len_of criteria = Ok (Z.of_nat (length cs))
             /\ forallb is_object cs = true
             /\ is_object state = true).
  { unfold marker_criteria in Hshape.
    destruct state as [| | | | | |items]; try discriminate.
    cbn [py_get].
    destruct (dict_get items "dod") as [dod|] eqn:Hd.
    - destruct dod as [| | | | | |dod]; try discriminate.
      destruct (dict_get dod "criteria") as [c|] eqn:Hc.
      + destruct c as [| | | | |l|]; try discriminate.
        destruct (forallb is_object l) eqn:Hall; [|discriminate].
        injection Hshape as <-. exists (JObj dod), (JArr l).
        cbn [py_get]. rewrite Hc. repeat split; assumption.
      + injection Hshape as <-. exists (JObj dod), (JArr []).
        cbn [py_get]. rewrite Hc. repeat split.
    - injection Hshape as <-. exists (JObj []), (JArr []). repeat split. }
  destruct Hrun as (dod & criteria & Hdod & Hcrit & Hiter & Hlen & Hall & Hobj).
  rewrite Hdod. cbn [bind]. rewrite Hcrit. cbn [bind]. rewrite Hiter.
  cbn [bind]. rewrite (count_passed_objects cs Hall). cbn [bind].
  destruct state as [| | | | | |items]; try discriminate.
  cbn [py_get bind]. rewrite Hlen. cbn [bind].
  eexists. split; [reflexivity|].
  rewrite read_py_files_dod, read_for_claude_dod.
  destruct (_find_traces_file d); [rewrite read_traces_dod|]; reflexivity.
Qed.

(** C1, as amended: on a completion marker that is a JSON object of the
    documented shape (its [dod], when present, an object; the [criteria],
    when present, a list of objects) [parse_session] returns a trace whose
    [success] is true exactly when the criteria list is non-empty and every
    criterion's [passed] field is true (in Python's sense of truth; for a
    boolean field, [true]). No criteria: no success and pass rate 0. Two
    criteria, both passed: success, 2 of 2, pass rate 1. *)
Theorem parse_session_success_iff (d : SessionDir) (state : json)
    (cs : list json) :
  state_file d = Parsed state ->
  marker_criteria state = Some cs ->
  exists t, parse_session d = Ok (Some t)
    /\ (success t = true
        <-> cs <> [] /\ List.Forall (fun c => criterion_passed c = true) cs)
    /\ dod_total t = Z.of_nat (length cs)
    /\ dod_passed t = Z.of_nat (length (List.filter criterion_passed cs))
    /\ (cs = [] -> success t = false /\ test_pass_rate t = 0%Q)
    /\ (forall c1 c2, cs = [c1; c2] ->
          criterion_passed c1 = true -> criterion_passed c2 = true ->
          success t = true /\ dod_passed t = 2 /\ dod_total t = 2
          /\ (test_pass_rate t == 1)%Q)
    /\ (forall items b, dict_get items "passed" = Some (JBool b) ->
          criterion_passed (JObj items) = b).
Proof.
  intros Hfile Hshape.
  destruct (parse_session_shape d state cs Hfile Hshape) as (t & Hparse & Hview).
  exists t. split; [assumption|].
  unfold dod_view in Hview. injection Hview as Hsucc Htotal Hpassed.
  split; [|split; [assumption|split; [assumption|split; [|split]]]].
  - rewrite Hsucc, andb_true_iff, Z.eqb_eq, Z.ltb_lt, Nat2Z.inj_iff,
      filter_length_all.
    destruct cs; simpl; split; intros [H1 H2]; split;
      try assumption; try lia; try congruence.
  - intros ->. split; [rewrite Hsucc; reflexivity|].
    unfold test_pass_rate. now rewrite Htotal.
  - intros c1 c2 -> H1 H2.
    assert (Hp : dod_passed t = 2).
    { rewrite Hpassed. cbn [List.filter]. now rewrite H1, H2. }
    assert (Ht : dod_total t = 2) by (rewrite Htotal; reflexivity).
    split; [|split; [assumption|split; [assumption|]]].
    + rewrite Hsucc. cbn [List.filter]. now rewrite H1, H2.
    + unfold test_pass_rate. rewrite Hp, Ht. reflexivity.
  - intros items b Hb. cbn [criterion_passed]. now rewrite Hb.
Qed.

Lemma parse_session_success_iff_witness :
  exists t, parse_session passed_session = Ok (Some t)
    /\ success t = true /\ dod_passed t = 2 /\ dod_total t = 2
    /\ (test_pass_rate t == 1)%Q.
Proof.
  destruct (parse_session_success_iff passed_session _ _ eq_refl eq_refl)
    as (t & Hparse & _ & _ & _ & _ & Htwo & _).
  exists t. split; [assumption|].
  exact (Htwo _ _ eq_refl eq_refl eq_refl).
Defined.

Lemma parse_session_raises_on_array_marker :
  state_file array_marker_session = Parsed (JArr [])
  /\ parse_session array_marker_session = Raise AttributeError
  /\ ~ (exists t, parse_session array_marker_session = Ok (Some t)).
Proof.
  repeat split. intros [t Ht]. discriminate Ht.
Qed.

(** ** The dispatch of a cycle *)

(** The loop of [find_new_sessions] keeps the entries that pass its four
    tests, in the order it is given them. *)
Lemma new_sessions_of_filter (processed : gset string)
    (entries l : list SessionDir) :
  new_sessions_of processed entries = Ok l ->
  l = List.filter
        (fun d => is_dir d && negb (bool_decide (name d ∈ processed))
                  && has_completion_timestamp d)
        entries.
Proof.
  revert l. induction entries as [|d rest IH]; intros l Hl.
  - cbn in Hl. now injection Hl as <-.
  - cbn [new_sessions_of] in Hl. cbn [List.filter].
    unfold has_completion_timestamp at 1.
    destruct (is_dir d); cbn [negb andb] in *; [|now apply IH].
    destruct (bool_decide (name d ∈ processed)); cbn [negb andb] in *;
      [now apply IH|].
    destruct (state_file d) as [|why| |state];
      [now apply IH|discriminate|now apply IH|].
    destruct state as [| | | | | |items]; try discriminate.
    cbn [py_get bind] in Hl.
    destruct (new_sessions_of processed rest) as [rest'|e]; [|discriminate].
    cbn [bind] in Hl. injection Hl as <-. rewrite (IH rest' eq_refl).
    destruct (dict_get items "completed_at") as [v|]; [|reflexivity].
    destruct (truthy v); reflexivity.
Qed.

Lemma existsb_perm {A : Type} (f : A -> bool) (l l' : list A) :
  l ≡ₚ l' -> existsb f l = existsb f l'.
Proof.
  induction 1 as [|x l l' _ IH|x y l|l l' l'' _ IH1 _ IH2]; cbn [existsb].
  - reflexivity.
  - now rewrite IH.
  - destruct (f x), (f y); reflexivity.
  - now rewrite IH1.
Qed.

Lemma existsb_filter {A : Type} (f : A -> bool) (l : list A) :
  existsb f l = match List.filter f l with [] => false | _ => true end.
Proof.
  induction l as [|x l IH]; [reflexivity|]. cbn [existsb List.filter].
  destruct (f x); [reflexivity|exact IH].
Qed.

Lemma existsb_ext {A : Type} (f g : A -> bool) (l : list A) :
  (forall x, f x = g x) -> existsb f l = existsb g l.
Proof.
  intros Hfg. induction l as [|x l IH]; [reflexivity|].
  cbn [existsb]. now rewrite Hfg, IH.
Qed.

(** The test of Reflect is the condition of the specification. *)
Lemma find_new_sessions_pending (fromisoformat : string -> option datetime)
    (d : Daemon) (l : list SessionDir) :
  find_new_sessions (scanner d) = Ok l ->
  match l with [] => false | _ => true end
  = spec_pending fromisoformat Reflect d.
Proof.
  unfold find_new_sessions, spec_pending.
  destruct (sessions_dir (scanner d)) as [entries|]; cbn [default].
  - intros Hl. apply new_sessions_of_filter in Hl. rewrite Hl.
    rewrite <- existsb_filter, (existsb_perm _ _ _ (sorted_by_name_perm _)).
    apply existsb_ext. intros s. unfold completed_session.
    destruct (is_dir s), (has_completion_timestamp s),
      (bool_decide (name s ∈ _processed (scanner d))); reflexivity.
  - intros Hl. now injection Hl as <-.
Qed.

(** The test of Self-evaluate is the condition of the specification. *)
Lemma is_eval_time_pending (fromisoformat : string -> option datetime)
    (d : Daemon) (b : bool) :
  _is_eval_time fromisoformat d = Ok b ->
  b = spec_pending fromisoformat SelfEvaluate d.
Proof.
  unfold _is_eval_time, spec_pending, recorded_time, py_index.
  destruct (last_eval_json d) as [|[|]| |data]; try congruence.
  destruct data as [| | | | | |items]; try discriminate.
  destruct (dict_get items "last_eval") as [v|]; [|congruence].
  destruct v as [| | | |s| |]; try discriminate.
  destruct (fromisoformat s) as [[t|]|]; congruence.
Qed.

Lemma elem_of_find_all_sessions (sc : SessionScanner) (s : SessionDir) :
  s ∈ find_all_sessions sc
  <-> s ∈ default [] (sessions_dir sc)
      /\ is_dir s = true /\ state_file_exists s = true.
Proof.
  unfold find_all_sessions.
  destruct (sessions_dir sc) as [entries|]; cbn [default].
  - rewrite list_elem_of_In, List.filter_In, <- list_elem_of_In,
      (sorted_by_name_perm entries), andb_true_iff. tauto.
  - split; [intros H; inversion H|intros [H _]; inversion H].
Qed.

Lemma any_unextracted_true (extracted : gset string)
    (dirs : list SessionDir) :
  any_unextracted_success extracted dirs = Ok true ->
  exists s t, s ∈ dirs /\ (name s ∉ extracted)
              /\ parse_session s = Ok (Some t) /\ success t = true.
Proof.
  induction dirs as [|sd dirs IH]; [discriminate|].
  cbn [any_unextracted_success].
  assert (Hrest : any_unextracted_success extracted dirs = Ok true ->
            exists s t, s ∈ sd :: dirs /\ (name s ∉ extracted)
                        /\ parse_session s = Ok (Some t)
                        /\ success t = true).
  { intros H. destruct (IH H) as (s & t & Hs & Hrest).
    exists s, t. split; [apply elem_of_cons; now right|exact Hrest]. }
  case_bool_decide as Hin; [exact Hrest|].
  destruct (parse_session sd) as [[t|]|e] eqn:Hparse; cbn [bind];
    [|exact Hrest|discriminate].
  destruct (success t) eqn:Hsucc; [|exact Hrest].
  intros _. exists sd, t. split; [apply elem_of_cons; now left|].
  repeat split; assumption.
Qed.

Lemma any_unextracted_found (extracted : gset string)
    (dirs : list SessionDir) (s : SessionDir) (t : SessionTrace) :
  s ∈ dirs -> name s ∉ extracted ->
  parse_session s = Ok (Some t) -> success t = true ->
  any_unextracted_success extracted dirs <> Ok false.
Proof.
  intros Hs Hname Hparse Hsucc.
  induction dirs as [|sd dirs IH]; [inversion Hs|].
  cbn [any_unextracted_success].
  apply elem_of_cons in Hs as [<-|Hs].
  - rewrite bool_decide_eq_false_2 by exact Hname.
    rewrite Hparse. cbn [bind]. rewrite Hsucc. discriminate.
  - case_bool_decide; [now apply IH|].
    destruct (parse_session sd) as [[t'|]|e]; cbn [bind];
      [|now apply IH|discriminate].
    destruct (success t'); [discriminate|now apply IH].
Qed.

Lemma completed_session_found (sc : SessionScanner) (s : SessionDir) :
  s ∈ default [] (sessions_dir sc) -> completed_session s = true ->
  s ∈ find_all_sessions sc.
Proof.
  intros Hs Hdone. apply elem_of_find_all_sessions.
  unfold completed_session in Hdone. apply andb_true_iff in Hdone as [Hd Ht].
  repeat split; [exact Hs|exact Hd|].
  unfold has_completion_timestamp in Ht. unfold state_file_exists.
  now destruct (state_file s).
Qed.

Lemma existsb_elem_of {A : Type} (f : A -> bool) (l : list A) :
  existsb f l = true <-> exists x, x ∈ l /\ f x = true.
Proof.
  rewrite List.existsb_exists. split; intros (x & Hx & Hf); exists x;
    (split; [now apply list_elem_of_In|exact Hf]).
Qed.

(** Pending work in the sense of the specification makes the test of its
    class answer true, unless the test raises. *)
Lemma spec_pending_tested (fromisoformat : string -> option datetime)
    (c : TaskClass) (d : Daemon) :
  spec_pending fromisoformat c d = true ->
  cycle_test fromisoformat c d <> Ok false.
Proof.
  destruct c; intros Hspec Htest; unfold cycle_test in Htest.
  - destruct (find_new_sessions (scanner d)) as [l|e] eqn:Hl;
      cbn [bind] in Htest; [|discriminate].
    rewrite (find_new_sessions_pending fromisoformat d l Hl) in Htest.
    congruence.
  - unfold spec_pending in Hspec.
    apply existsb_elem_of in Hspec as (s & Hs & Hcond).
    apply andb_true_iff in Hcond as [Hcond Hnew].
    apply andb_true_iff in Hcond as [Hdone Hsucc].
    apply negb_true_iff, bool_decide_eq_false in Hnew.
    unfold _has_unextracted_sessions in Htest. unfold extracted_set in Hnew.
    destruct (read_extracted d) as [extracted|e]; cbn [bind] in Htest;
      [|discriminate].
    unfold successful_session in Hsucc.
    destruct (parse_session s) as [[t|]|e] eqn:Hparse; try discriminate.
    eapply any_unextracted_found; [| | | |exact Htest]; try eassumption.
    now apply completed_session_found.
  - unfold spec_pending in Hspec.
    apply andb_true_iff in Hspec as [Htime Hsome].
    apply existsb_elem_of in Hsome as (s & Hs & Hdone).
    pose proof (completed_session_found _ _ Hs Hdone) as Hall.
    unfold _has_sessions_to_reanalyze in Htest.
    unfold recorded_time in Htime.
    destruct (reanalysis_state_json d) as [|[|]| |data]; try discriminate.
    + destruct (find_all_sessions (scanner d)); [inversion Hall|].
      discriminate.
    + destruct data as [| | | | | |items]; try discriminate.
      cbn [py_get bind] in Htest.
      destruct (dict_get items "last_run") as [v|];
        [|cbn [truthy String.eqb negb] in Htest; discriminate].
      destruct (truthy v); [|discriminate].
      destruct v as [| | | |s0| |]; try discriminate.
      destruct (fromisoformat s0) as [[lr|]|]; try discriminate.
      destruct (now d - lr <? hours 24); discriminate.
  - apply is_eval_time_pending in Htest. congruence.
Qed.

Section DispatchProperties.
Variable fromisoformat : string -> option datetime.
Variable _reflect_on_session : SessionDir -> Daemon -> result Daemon.
Variable _extract_training_pairs : Daemon -> result Daemon.
Variable _reanalyze_sessions : Daemon -> result Daemon.
Variable _self_evaluate_playbook : Daemon -> result Daemon.

Local Abbreviation cycle d :=
  (_execute_next_task fromisoformat _reflect_on_session
     _extract_training_pairs _reanalyze_sessions _self_evaluate_playbook d).
Local Abbreviation tasks_run d :=
  (executed fromisoformat _reflect_on_session _extract_training_pairs
            _reanalyze_sessions _self_evaluate_playbook d).
Local Abbreviation test c d := (cycle_test fromisoformat c d).
Local Abbreviation due c d := (spec_pending fromisoformat c d).

(** The four tests in the order the cycle makes them, and what the cycle
    does after each answer. *)
Lemma execute_next_task_cases (d : Daemon) :
  (exists s rest,
     find_new_sessions (scanner d) = Ok (s :: rest)
     /\ test Reflect d = Ok true
     /\ cycle d
        = ([Reflect],
           let* d' := _reflect_on_session s (set_state REFLECTING d) in
           Ok (d', true)))
  \/ (test Reflect d = Ok false /\ test Extract d = Ok true
      /\ cycle d
         = ([Extract],
            let* d' := _extract_training_pairs (set_state EXTRACTING d) in
            Ok (d', true)))
  \/ (test Reflect d = Ok false /\ test Extract d = Ok false
      /\ test Reanalyze d = Ok true
      /\ cycle d
         = ([Reanalyze],
            let* d' := _reanalyze_sessions (set_state REANALYZING d) in
            Ok (d', true)))
  \/ (test Reflect d = Ok false /\ test Extract d = Ok false
      /\ test Reanalyze d = Ok false /\ test SelfEvaluate d = Ok true
      /\ cycle d
         = ([SelfEvaluate],
            let* d' := _self_evaluate_playbook (set_state EVALUATING d) in
            Ok (d', true)))
  \/ (test Reflect d = Ok false /\ test Extract d = Ok false
      /\ test Reanalyze d = Ok false /\ test SelfEvaluate d = Ok false
      /\ cycle d = ([], Ok (d, false)))
  \/ (exists c e,
        test c d = Raise e
        /\ (forall c', priority c' < priority c -> test c' d = Ok false)
        /\ cycle d = ([], Raise e)).
Proof.
  assert (Hprio : forall c c', priority c' < priority c ->
            match c with
            | Reflect => False
            | Extract => c' = Reflect
            | Reanalyze => c' = Reflect \/ c' = Extract
            | SelfEvaluate => c' = Reflect \/ c' = Extract \/ c' = Reanalyze
            end).
  { intros c c'. destruct c, c'; cbn [priority]; intros H; try lia; auto. }
  unfold _execute_next_task, cycle_test, run_task.
  destruct (find_new_sessions (scanner d)) as [[|s rest]|e]; cbn [bind].
  2:{ left. exists s, rest. repeat split. }
  2:{ do 5 right. exists Reflect, e. repeat split.
      intros c' Hlt. destruct (Hprio _ _ Hlt). }
  right.
  destruct (_has_unextracted_sessions d) as [[|]|e].
  1:{ left. repeat split. }
  2:{ do 4 right. exists Extract, e. repeat split.
      intros c' Hlt. now rewrite (Hprio _ _ Hlt). }
  right.
  destruct (_has_sessions_to_reanalyze fromisoformat d) as [[|]|e].
  1:{ left. repeat split. }
  2:{ do 3 right. exists Reanalyze, e. repeat split.
      intros c' Hlt. destruct (Hprio _ _ Hlt) as [-> | ->]; reflexivity. }
  right.
  destruct (_is_eval_time fromisoformat d) as [[|]|e].
  1:{ left. repeat split. }
  2:{ do 2 right. exists SelfEvaluate, e. repeat split.
      intros c' Hlt.
      destruct (Hprio _ _ Hlt) as [-> | [-> | ->]]; reflexivity. }
  right. left. repeat split.
Qed.

End DispatchProperties.


(** ** The behaviour on sample data *)

(** Word sets {a,b,c} and {a,b,d}: similarity 2/4; merged at threshold 0.5,
    kept apart at 0.51. *)
Example text_similarity_half :
  (_text_similarity "a b c" "A  b d" == 1 # 2)%Q
  /\ snd (dedup_section (1 # 2)
            [mkBullet "GE-001" "a b c" "general" 0 0 "" "" "" "";
             mkBullet "GE-002" "a b d" "general" 0 0 "" "" "" ""]) = 1
  /\ snd (dedup_section (51 # 100)
            [mkBullet "GE-001" "a b c" "general" 0 0 "" "" "" "";
             mkBullet "GE-002" "a b d" "general" 0 0 "" "" "" ""]) = 0.
Proof. vm_compute. repeat split. Qed.

(** A first run removes two of the three duplicates, a second run none. *)
Example deduplicate_twice :
  snd (deduplicate (85 # 100) duplicate_playbook) = 2
  /\ snd (deduplicate (85 # 100)
            (fst (deduplicate (85 # 100) duplicate_playbook))) = 0.
Proof. vm_compute. split; reflexivity. Qed.

(** Five references and a ratio of 1/5 under the floor 3/10: pruned. Two
    references, last used before the cutoff: kept. *)
Example prune_stale_sample :
  _should_prune (bullet_with_counts 1 4) "2025-01-01T00:00:00" (3 # 10) = true
  /\ _should_prune
       (mkBullet "GE-009" "old advice" "general" 1 1 "" ""
                 "2024-01-01T00:00:00" "")
       "2025-01-01T00:00:00" (3 # 10) = false.
Proof. vm_compute. split; reflexivity. Qed.

(** A budget of 10 tokens leaves the header alone; a budget of 32 tokens
    has room for the first line and not for the second. *)
Example export_for_agent_budget :
  export_for_agent log1p_table long_playbook "planner" 10 = header
  /\ export_for_agent log1p_table long_playbook "planner" 32
     = header ++ "- [GE-001] run the test suite before declaring the task done"
              ++ nl.
Proof. vm_compute. split; reflexivity. Qed.

(** One unprocessed completed session: the cycle runs Reflect. Once it is
    processed, the cycle runs Extract. *)
Example cycle_runs_reflect_then_extract :
  executed (fun _ => None) (fun _ d => Ok d) Ok Ok Ok (sample_daemon ∅)
  = [Reflect]
  /\ executed (fun _ => None) (fun _ d => Ok d) Ok Ok Ok
       (sample_daemon {["session_0001"]})
     = [Extract].
Proof. vm_compute. split; reflexivity. Qed.

(** * Further properties *)

(** ** Accounting of pruning *)

Lemma prune_sections_names (cutoff : string) (min_quality : Q)
    (secs : list (string * list Bullet)) :
  map fst (fst (prune_sections cutoff min_quality secs)) = map fst secs.
Proof.
  induction secs as [|[sname bs] rest IH]; [reflexivity|].
  cbn [prune_sections].
  destruct (prune_sections cutoff min_quality rest) as [rest' pruned].
  cbn [fst map] in *. now rewrite IH.
Qed.

Lemma prune_sections_count (cutoff : string) (min_quality : Q)
    (secs : list (string * list Bullet)) :
  0 <= snd (prune_sections cutoff min_quality secs)
  /\ fold_right Z.add 0
       (map (fun s => Z.of_nat (length (snd s)))
            (fst (prune_sections cutoff min_quality secs)))
     = fold_right Z.add 0 (map (fun s => Z.of_nat (length (snd s))) secs)
       - snd (prune_sections cutoff min_quality secs).
Proof.
  induction secs as [|[sname bs] rest IH]; [split; reflexivity|].
  cbn [prune_sections].
  destruct (prune_sections cutoff min_quality rest) as [rest' pruned].
  cbn [fst snd map fold_right] in *. destruct IH as [Hpos Hsum].
  pose proof (List.filter_length_le
                (fun b => negb (_should_prune b cutoff min_quality)) bs) as Hle.
  unfold prune_section. split; lia.
Qed.

(** X1: the number [prune_stale] returns is the number of bullets that left
    the playbook; the pruned counter of the metadata grows by it, the other
    counters and the section names stay. *)
Theorem prune_stale_accounting (cutoff_of : Z -> string) (stale_days : Z)
    (min_quality : Q) (pb : Playbook) :
  let pb' := fst (prune_stale cutoff_of stale_days min_quality pb) in
  let pruned := snd (prune_stale cutoff_of stale_days min_quality pb) in
  0 <= pruned
  /\ total_bullets pb' = total_bullets pb - pruned
  /\ total_bullets_pruned (metadata pb')
     = total_bullets_pruned (metadata pb) + pruned
  /\ total_sessions_analyzed (metadata pb')
     = total_sessions_analyzed (metadata pb)
  /\ total_deltas_applied (metadata pb') = total_deltas_applied (metadata pb)
  /\ map fst (sections pb') = map fst (sections pb).
Proof.
  unfold prune_stale, total_bullets.
  pose proof (prune_sections_count (cutoff_of stale_days) min_quality
                (sections pb)) as [Hpos Hsum].
  pose proof (prune_sections_names (cutoff_of stale_days) min_quality
                (sections pb)) as Hnames.
  destruct (prune_sections (cutoff_of stale_days) min_quality (sections pb))
    as [secs pruned].
  cbn [fst snd] in *.
  destruct (Z.eqb_spec pruned 0) as [->|Hne]; cbn [fst snd sections metadata
    add_pruned total_bullets_pruned total_sessions_analyzed total_deltas_applied];
    repeat split; try assumption; try lia.
Qed.

Lemma filter_negb_twice {A : Type} (P Q' : A -> bool) (l : list A) :
  (forall x, P x = Q' x) ->
  List.filter (fun x => negb (P x)) (List.filter (fun x => negb (Q' x)) l)
  = List.filter (fun x => negb (Q' x)) l.
Proof.
  intros HPQ. induction l as [|x l IH]; [reflexivity|].
  cbn [List.filter]. destruct (Q' x) eqn:Hx; cbn [negb]; [exact IH|].
  cbn [List.filter]. rewrite HPQ, Hx. cbn [negb]. now rewrite IH.
Qed.

Lemma prune_sections_again (c1 c2 : string) (min_quality : Q)
    (secs : list (string * list Bullet)) :
  prune_sections c2 min_quality (fst (prune_sections c1 min_quality secs))
  = (fst (prune_sections c1 min_quality secs), 0).
Proof.
  induction secs as [|[sname bs] rest IH]; [reflexivity|].
  cbn [prune_sections].
  destruct (prune_sections c1 min_quality rest) as [rest' pruned].
  cbn [fst] in *. cbn [prune_sections]. rewrite IH.
  unfold prune_section.
  rewrite (filter_negb_twice (fun b => _should_prune b c2 min_quality)
             (fun b => _should_prune b c1 min_quality)).
  - f_equal. lia.
  - intros b. now rewrite !_should_prune_simple.
Qed.

(** X2: pruning again with the same quality floor removes nothing, whenever
    the second run happens and whatever its staleness window: the playbook
    and its metadata stay as the first run left them. *)
Theorem prune_stale_idempotent (clock1 clock2 : Z -> string)
    (days1 days2 : Z) (min_quality : Q) (pb : Playbook) :
  prune_stale clock2 days2 min_quality
    (fst (prune_stale clock1 days1 min_quality pb))
  = (fst (prune_stale clock1 days1 min_quality pb), 0).
Proof.
  assert (Hrun : forall p secs,
             sections p = fst (prune_sections (clock1 days1) min_quality secs) ->
             prune_stale clock2 days2 min_quality p = (p, 0)).
  { intros [psecs pmeta] secs Hp. cbn [sections] in Hp. subst psecs.
    unfold prune_stale. cbn [sections].
    now rewrite prune_sections_again. }
  unfold prune_stale at 2 3.
  destruct (prune_sections (clock1 days1) min_quality (sections pb))
    as [secs pruned] eqn:Hd.
  destruct (pruned =? 0); cbn [fst]; apply (Hrun _ (sections pb));
    now rewrite Hd.
Qed.

(** ** Deduplication: what becomes of the bullets *)

Lemma grown_refl (b : Bullet) : grown b b.
Proof. unfold grown. repeat split; lia. Qed.

Lemma grown_trans (a b c : Bullet) : grown a b -> grown b c -> grown a c.
Proof.
  unfold grown. intros (Hi1 & Hh1 & Ha1) (Hi2 & Hh2 & Ha2).
  repeat split; [congruence|lia|lia].
Qed.

Lemma grown_merge (x y : Bullet) : grown x (merge_counts x y).
Proof. unfold grown, bullet_identity. simpl. repeat split; lia. Qed.

Lemma Forall2_grown_refl (l : list Bullet) : Forall2 grown l l.
Proof. induction l; constructor; [apply grown_refl|assumption]. Qed.

Lemma Forall2_grown_trans (l1 l2 l3 : list Bullet) :
  Forall2 grown l1 l2 -> Forall2 grown l2 l3 -> Forall2 grown l1 l3.
Proof.
  intros H12. revert l3. induction H12 as [|x y l1 l2 Hxy H12 IH];
    intros l3 H23; inversion H23; subst; constructor.
  - eapply grown_trans; eassumption.
  - now apply IH.
Qed.

Lemma Forall2_grown_insert (l : list Bullet) (i : nat) (x y : Bullet) :
  l !! i = Some x -> grown x y -> Forall2 grown l (<[i:=y]> l).
Proof.
  intros Hi Hxy. rewrite <- (list_insert_id l i x Hi) at 1.
  apply Forall2_insert; [apply Forall2_grown_refl|assumption].
Qed.

Lemma fold_left_preserves {A B : Type} (P : A -> Prop) (f : A -> B -> A)
    (l : list B) (s : A) :
  (forall s x, P s -> P (f s x)) -> P s -> P (fold_left f l s).
Proof.
  intros Hstep. revert s. induction l as [|x l IH]; intros s Hs; [assumption|].
  cbn [fold_left]. apply IH, Hstep, Hs.
Qed.

Lemma dedup_inner_ok (thr : Q) (bs0 : list Bullet) (i j : nat)
    (st : dedup_state) :
  dedup_ok bs0 st -> dedup_ok bs0 (dedup_inner thr i st j).
Proof.
  destruct st as [bs rm]. intros [Hgrow Hbound]. cbn [fst snd] in *.
  pose proof (Forall2_length _ _ _ Hgrow) as Hlen.
  unfold dedup_inner. case_bool_decide; [split; assumption|].
  destruct (bs !! i) as [bi|] eqn:Hi; [|split; assumption].
  destruct (bs !! j) as [bj|] eqn:Hj; [|split; assumption].
  destruct (Qle_bool thr _); [|split; assumption].
  apply lookup_lt_Some in Hi as Hilt. apply lookup_lt_Some in Hj as Hjlt.
  destruct (Qle_bool (quality_ratio bj) (quality_ratio bi)); split; cbn [fst snd].
  - eapply Forall2_grown_trans; [exact Hgrow|].
    eapply Forall2_grown_insert; [exact Hi|apply grown_merge].
  - intros k Hk. apply elem_of_union in Hk as [Hk|Hk]; [|now apply Hbound].
    apply elem_of_singleton in Hk as ->. lia.
  - eapply Forall2_grown_trans; [exact Hgrow|].
    eapply Forall2_grown_insert; [exact Hj|apply grown_merge].
  - intros k Hk. apply elem_of_union in Hk as [Hk|Hk]; [|now apply Hbound].
    apply elem_of_singleton in Hk as ->. lia.
Qed.

Lemma dedup_pairs_ok (thr : Q) (bs : list Bullet) :
  dedup_ok bs (dedup_pairs thr bs).
Proof.
  unfold dedup_pairs. apply fold_left_preserves.
  - intros st i Hst. unfold dedup_outer. case_bool_decide; [assumption|].
    apply fold_left_preserves; [|assumption].
    intros st' j. apply dedup_inner_ok.
  - split; [apply Forall2_grown_refl|]. intros k Hk.
    now apply not_elem_of_empty in Hk.
Qed.

Lemma drop_indices_sublist (rm : gset nat) (l : list Bullet) (k : nat) :
  drop_indices rm k l `sublist_of` l.
Proof.
  revert k. induction l as [|b l IH]; intros k; cbn [drop_indices];
    [constructor|].
  case_bool_decide; [apply sublist_cons|apply sublist_skip]; apply IH.
Qed.

Lemma drop_indices_ext (rm rm' : gset nat) (l : list Bullet) (k : nat) :
  (forall x, (k <= x)%nat -> x ∈ rm <-> x ∈ rm') ->
  drop_indices rm k l = drop_indices rm' k l.
Proof.
  revert k. induction l as [|b l IH]; intros k Hext; [reflexivity|].
  cbn [drop_indices].
  rewrite (IH (S k)) by (intros x Hx; apply Hext; lia).
  destruct (decide (k ∈ rm)) as [Hk|Hk].
  - rewrite !bool_decide_eq_true_2; [reflexivity| |assumption].
    now apply Hext.
  - rewrite !bool_decide_eq_false_2; [reflexivity| |assumption].
    intros Hk'. apply Hk. now apply Hext.
Qed.

(** The comprehension drops one bullet for every index of the set. *)
Lemma drop_indices_length (l : list Bullet) :
  forall (k : nat) (rm : gset nat),
    (forall x, x ∈ rm -> (k <= x < k + length l)%nat) ->
    (length (drop_indices rm k l) + size rm = length l)%nat.
Proof.
  induction l as [|b l IH]; intros k rm Hb.
  - cbn [drop_indices length]. apply size_empty_iff, elem_of_equiv_empty.
    intros x Hx. specialize (Hb x Hx). cbn [length] in Hb. lia.
  - cbn [drop_indices length]. destruct (decide (k ∈ rm)) as [Hk|Hk].
    + rewrite bool_decide_eq_true_2 by assumption.
      rewrite (drop_indices_ext rm (rm ∖ {[k]})).
      2:{ intros x Hx. rewrite elem_of_difference, elem_of_singleton.
          split; [intros H; split; [assumption|lia]|tauto]. }
      assert (Hsz : size rm = S (size (rm ∖ {[k]}))).
      { rewrite size_difference by (now apply singleton_subseteq_l).
        rewrite size_singleton.
        assert (size rm <> 0)%nat; [|lia].
        intros H0. apply size_empty_iff in H0.
        rewrite elem_of_equiv_empty in H0. exact (H0 k Hk). }
      rewrite Hsz, <- (IH (S k) (rm ∖ {[k]})); [lia|].
      intros x Hx. apply elem_of_difference in Hx as [Hx Hne].
      rewrite elem_of_singleton in Hne. specialize (Hb x Hx).
      cbn [length] in Hb. lia.
    + rewrite bool_decide_eq_false_2 by assumption. cbn [length].
      rewrite <- (IH (S k) rm); [lia|].
      intros x Hx. specialize (Hb x Hx). cbn [length] in Hb.
      assert (x <> k) by congruence. lia.
Qed.

Lemma dedup_section_count (thr : Q) (bs : list Bullet) :
  0 <= snd (dedup_section thr bs)
  /\ Z.of_nat (length (fst (dedup_section thr bs)))
     = Z.of_nat (length bs) - snd (dedup_section thr bs).
Proof.
  unfold dedup_section. destruct (length bs <? 2)%nat; [cbn; lia|].
  pose proof (dedup_pairs_ok thr bs) as [Hgrow Hbound].
  destruct (dedup_pairs thr bs) as [bs' rm]. cbn [fst snd] in *.
  pose proof (Forall2_length _ _ _ Hgrow) as Hlen.
  case_bool_decide; cbn [fst snd]; [lia|].
  pose proof (drop_indices_length bs' 0 rm) as Hcount.
  rewrite <- Hlen in Hcount. specialize (Hcount ltac:(intros x Hx;
    specialize (Hbound x Hx); lia)). lia.
Qed.

Lemma dedup_sections_count (thr : Q) (secs : list (string * list Bullet)) :
  0 <= snd (dedup_sections thr secs)
  /\ fold_right Z.add 0
       (map (fun s => Z.of_nat (length (snd s))) (fst (dedup_sections thr secs)))
     = fold_right Z.add 0 (map (fun s => Z.of_nat (length (snd s))) secs)
       - snd (dedup_sections thr secs)
  /\ map fst (fst (dedup_sections thr secs)) = map fst secs.
Proof.
  induction secs as [|[sname bs] rest IH];
    [cbn; split; [lia|split; reflexivity]|].
  cbn [dedup_sections].
  pose proof (dedup_section_count thr bs) as [Hpos Hlen].
  destruct (dedup_section thr bs) as [bs' k].
  destruct (dedup_sections thr rest) as [rest' removed].
  cbn [fst snd map fold_right] in *. destruct IH as (Hpos' & Hsum & Hnames).
  repeat split; [lia|lia|now rewrite Hnames].
Qed.

(** X3: the number [deduplicate] returns is the number of bullets that left
    the playbook; the pruned counter of the metadata grows by it, the other
    counters and the section names stay. *)
Theorem deduplicate_accounting (similarity_threshold : Q) (pb : Playbook) :
  let pb' := fst (deduplicate similarity_threshold pb) in
  let removed := snd (deduplicate similarity_threshold pb) in
  0 <= removed
  /\ total_bullets pb' = total_bullets pb - removed
  /\ total_bullets_pruned (metadata pb')
     = total_bullets_pruned (metadata pb) + removed
  /\ total_sessions_analyzed (metadata pb')
     = total_sessions_analyzed (metadata pb)
  /\ total_deltas_applied (metadata pb') = total_deltas_applied (metadata pb)
  /\ map fst (sections pb') = map fst (sections pb).
Proof.
  unfold deduplicate, total_bullets.
  pose proof (dedup_sections_count similarity_threshold (sections pb))
    as (Hpos & Hsum & Hnames).
  destruct (dedup_sections similarity_threshold (sections pb))
    as [secs removed].
  cbn [fst snd] in *.
  destruct (Z.eqb_spec removed 0) as [->|Hne]; cbn [fst snd sections metadata
    add_pruned total_bullets_pruned total_sessions_analyzed total_deltas_applied];
    repeat split; try assumption; try lia.
Qed.

(** X4: in every section [deduplicate] leaves a sublist of the bullets it
    found, in their order, each with its id, text and timestamps untouched
    and with counters that did not go down. *)
Theorem deduplicate_keeps_sublist (similarity_threshold : Q)
    (bs : list Bullet) :
  exists mid,
    Forall2 grown bs mid
    /\ fst (dedup_section similarity_threshold bs) `sublist_of` mid.
Proof.
  unfold dedup_section. destruct (length bs <? 2)%nat.
  { exists bs. split; [apply Forall2_grown_refl|reflexivity]. }
  pose proof (dedup_pairs_ok similarity_threshold bs) as [Hgrow _].
  destruct (dedup_pairs similarity_threshold bs) as [bs' rm].
  cbn [fst] in *. exists bs'. split; [assumption|].
  case_bool_decide; cbn [fst]; [reflexivity|apply drop_indices_sublist].
Qed.

(** ** Deduplication: a section is never emptied *)

Lemma dedup_inner_keeps_one (thr : Q) (n i j : nat) (js : list nat)
    (st : dedup_state) :
  j <> i -> j ∉ js ->
  keeps_one_in n i (j :: js) st ->
  keeps_one_in n i js (dedup_inner thr i st j).
Proof.
  intros Hji Hjjs. destruct st as [bs rm]. intros [Hlen Hw]. cbn [fst snd] in *.
  assert (Hsame : keeps_one_in n i js (bs, rm)).
  { split; [assumption|]. destruct Hw as [Hw|(k & Hk & Hrm & Hjs & Hki)];
      [now left|right]. exists k. repeat split; try assumption.
    intros Hin. apply Hjs. now right. }
  unfold dedup_inner. case_bool_decide as Hjrm; [assumption|].
  destruct (bs !! i) as [bi|] eqn:Hi; [|assumption].
  destruct (bs !! j) as [bj|] eqn:Hj; [|assumption].
  destruct (Qle_bool thr _); [|assumption].
  apply lookup_lt_Some in Hj as Hjlt.
  destruct (Qle_bool (quality_ratio bj) (quality_ratio bi));
    (split; cbn [fst snd]; [now rewrite length_insert|]).
  - destruct Hw as [[Hin Hirm]|(k & Hk & Hrm & Hjs & Hki)]; [left|right].
    + split; [assumption|]. rewrite elem_of_union, elem_of_singleton.
      intros [->|H]; [now apply Hji|now apply Hirm].
    + exists k. repeat split; try assumption.
      * rewrite elem_of_union, elem_of_singleton. intros [->|H].
        { apply Hjs. now left. } now apply Hrm.
      * intros Hin. apply Hjs. now right.
  - right. exists j. repeat split; try assumption; [lia|].
    rewrite elem_of_union, elem_of_singleton. intros [H|H];
      [now apply Hji|now apply Hjrm].
Qed.

Lemma dedup_inner_fold_keeps_one (thr : Q) (n i : nat) (js : list nat) :
  forall st, NoDup js -> (forall j, j ∈ js -> j <> i) ->
    keeps_one_in n i js st ->
    keeps_one n (fold_left (dedup_inner thr i) js st).
Proof.
  induction js as [|j js IH]; intros st Hnd Hne Hw; cbn [fold_left].
  - destruct Hw as [Hlen Hw]. split; [assumption|].
    destruct Hw as [[Hi Hrm]|(k & Hk & Hrm & _)]; eauto.
  - apply NoDup_cons in Hnd as [Hjjs Hnd]. apply IH; [assumption| |].
    + intros j' Hj'. apply Hne. now right.
    + apply dedup_inner_keeps_one; [apply Hne; now left|assumption|assumption].
Qed.

Lemma dedup_outer_keeps_one (thr : Q) (n i : nat) (st : dedup_state) :
  keeps_one n st -> keeps_one n (dedup_outer thr n st i).
Proof.
  intros [Hlen (k & Hk & Hrm)]. unfold dedup_outer.
  case_bool_decide as Hi; [split; eauto|].
  destruct (lt_dec i n) as [Hin|Hin].
  - apply dedup_inner_fold_keeps_one.
    + apply NoDup_seq.
    + intros j Hj. apply elem_of_seq in Hj. lia.
    + split; [assumption|]. now left.
  - replace (n - S i)%nat with 0%nat by lia. cbn [seq fold_left]. split; eauto.
Qed.

Lemma dedup_pairs_keeps_one (thr : Q) (bs : list Bullet) :
  bs <> [] -> keeps_one (length bs) (dedup_pairs thr bs).
Proof.
  intros Hne. unfold dedup_pairs.
  apply (fold_left_preserves (keeps_one (length bs))).
  - intros st i. apply dedup_outer_keeps_one.
  - split; [reflexivity|]. exists 0%nat. split; [|apply not_elem_of_empty].
    destruct bs; [congruence|cbn; lia].
Qed.

Lemma drop_indices_keeps (rm : gset nat) (l : list Bullet) :
  forall (k i : nat) (x : Bullet),
    l !! i = Some x -> (k + i)%nat ∉ rm -> x ∈ drop_indices rm k l.
Proof.
  induction l as [|b l IH]; intros k i x Hi Hrm; [discriminate|].
  cbn [drop_indices]. destruct i as [|i]; cbn in Hi.
  - injection Hi as ->. rewrite Nat.add_0_r in Hrm.
    rewrite bool_decide_eq_false_2 by assumption. now left.
  - assert (Hin : x ∈ drop_indices rm (S k) l).
    { apply (IH (S k) i); [assumption|].
      now replace (S k + i)%nat with (k + S i)%nat by lia. }
    case_bool_decide; [assumption|now right].
Qed.

(** X5: [deduplicate] never empties a section: of a section that holds
    bullets at least one is left, whatever the threshold. *)
Theorem deduplicate_never_empties (similarity_threshold : Q)
    (bs : list Bullet) :
  bs <> [] -> fst (dedup_section similarity_threshold bs) <> [].
Proof.
  intros Hne. unfold dedup_section.
  destruct (length bs <? 2)%nat; [assumption|].
  pose proof (dedup_pairs_keeps_one similarity_threshold bs Hne)
    as [Hlen (k & Hk & Hrm)].
  destruct (dedup_pairs similarity_threshold bs) as [bs' rm].
  cbn [fst snd] in *. case_bool_decide; cbn [fst].
  - intros ->. cbn in Hlen. lia.
  - destruct (lookup_lt_is_Some_2 bs' k ltac:(lia)) as [x Hx].
    pose proof (drop_indices_keeps rm bs' 0 k x Hx Hrm) as Hin.
    intros Hnil. rewrite Hnil in Hin. inversion Hin.
Qed.

Lemma deduplicate_never_empties_witness :
  fst (dedup_section (85 # 100) [dup_a; dup_b; dup_c]) <> [].
Proof.
  apply (deduplicate_never_empties (85 # 100) [dup_a; dup_b; dup_c]).
  discriminate.
Defined.

(** ** Text similarity *)

Lemma Qdiv_nat_range (n m : nat) :
  (n <= m)%nat -> (0 < m)%nat ->
  (0 <= inject_Z (Z.of_nat n) / inject_Z (Z.of_nat m) <= 1)%Q.
Proof.
  intros Hnm Hm.
  assert (Hpos : (0 < inject_Z (Z.of_nat m))%Q).
  { change 0%Q with (inject_Z 0). rewrite <- Zlt_Qlt. lia. }
  split.
  - apply Qle_shift_div_l; [assumption|]. rewrite Qmult_0_l.
    change 0%Q with (inject_Z 0). rewrite <- Zle_Qle. lia.
  - apply Qle_shift_div_r; [assumption|]. rewrite Qmult_1_l.
    rewrite <- Zle_Qle. lia.
Qed.

Lemma Qdiv_nat_one (n m : nat) :
  (0 < m)%nat ->
  (inject_Z (Z.of_nat n) / inject_Z (Z.of_nat m) == 1)%Q <-> n = m.
Proof.
  intros Hm. destruct m as [|m]; [lia|].
  change (Z.of_nat (S m)) with (Z.pos (Pos.of_succ_nat m)).
  rewrite <- Qmake_Qdiv. unfold Qeq. cbn [Qnum Qden].
  rewrite Zpos_P_of_succ_nat. lia.
Qed.

Lemma text_similarity_words (a b : string) :
  word_set a <> ∅ -> word_set b <> ∅ ->
  _text_similarity a b
  = (inject_Z (Z.of_nat (size (word_set a ∩ word_set b)))
     / inject_Z (Z.of_nat (size (word_set a ∪ word_set b))))%Q
  /\ (0 < size (word_set a ∪ word_set b))%nat.
Proof.
  intros Ha Hb. unfold _text_similarity.
  rewrite !bool_decide_eq_false_2 by assumption. split; [reflexivity|].
  assert (size (word_set a ∪ word_set b) <> 0)%nat; [|lia].
  intros H0. apply size_empty_iff in H0. apply Ha.
  apply leibniz_equiv. rewrite elem_of_equiv_empty in *.
  intros x Hx. apply (H0 x). now apply elem_of_union_l.
Qed.

Lemma text_similarity_blank (a b : string) :
  word_set a = ∅ \/ word_set b = ∅ -> _text_similarity a b = 0%Q.
Proof.
  intros H. unfold _text_similarity. destruct H as [H|H]; rewrite H.
  - now rewrite bool_decide_eq_true_2.
  - rewrite (bool_decide_eq_true_2 (∅ = ∅)) by reflexivity.
    now rewrite orb_true_r.
Qed.

Lemma text_similarity_range (a b : string) :
  (0 <= _text_similarity a b <= 1)%Q.
Proof.
  destruct (decide (word_set a = ∅)) as [Ha|Ha].
  { rewrite text_similarity_blank by now left. split; discriminate. }
  destruct (decide (word_set b = ∅)) as [Hb|Hb].
  { rewrite text_similarity_blank by now right. split; discriminate. }
  destruct (text_similarity_words a b Ha Hb) as [-> Hpos].
  apply Qdiv_nat_range; [|assumption].
  apply subseteq_size. intros x Hx. apply elem_of_intersection in Hx as [Hx _].
  now apply elem_of_union_l.
Qed.

(** X6: the similarity of two texts is symmetric and lies in [0,1]; it is 1
    exactly when the two texts have the same, non-empty, set of words
    (letter case, word order and repetitions do not count); a text without
    a word has similarity 0 with every text, itself included. *)
Theorem text_similarity_laws (a b : string) :
  _text_similarity a b = _text_similarity b a
  /\ (0 <= _text_similarity a b <= 1)%Q
  /\ ((_text_similarity a b == 1)%Q
      <-> word_set a = word_set b /\ word_set a <> ∅)
  /\ (word_set a = ∅ -> _text_similarity a b = 0%Q
                        /\ _text_similarity a a = 0%Q).
Proof.
  split; [|split; [apply text_similarity_range|split]].
  - unfold _text_similarity. rewrite orb_comm.
    now rewrite (comm_L (∩) (word_set a)), (comm_L (∪) (word_set a)).
  - destruct (decide (word_set a = ∅)) as [Ha|Ha].
    { rewrite text_similarity_blank by now left.
      split; [discriminate|tauto]. }
    destruct (decide (word_set b = ∅)) as [Hb|Hb].
    { rewrite text_similarity_blank by now right.
      split; [discriminate|]. intros [Hab _]. congruence. }
    destruct (text_similarity_words a b Ha Hb) as [-> Hpos].
    rewrite Qdiv_nat_one by assumption. split.
    + intros Hsize. split; [|assumption].
      assert (Heq : word_set a ∩ word_set b ≡ word_set a ∪ word_set b).
      { apply set_subseteq_size_equiv; [|lia].
        intros x Hx. apply elem_of_intersection in Hx as [Hx _].
        now apply elem_of_union_l. }
      apply leibniz_equiv. intros x. split; intros Hx.
      * assert (H : x ∈ word_set a ∩ word_set b)
          by (rewrite Heq; now apply elem_of_union_l).
        now apply elem_of_intersection in H as [_ H].
      * assert (H : x ∈ word_set a ∩ word_set b)
          by (rewrite Heq; now apply elem_of_union_r).
        now apply elem_of_intersection in H as [H _].
    + intros [<- _]. now rewrite (idemp_L (∩)), (idemp_L (∪)).
  - intros Ha. split; apply text_similarity_blank; now left.
Qed.

(** ** Deduplication at the ends of the threshold range *)

(** X7: with a threshold above 1 no two bullets are similar enough:
    [deduplicate] returns 0 and the playbook as it was. *)
Theorem deduplicate_threshold_above_one (similarity_threshold : Q)
    (pb : Playbook) :
  (1 < similarity_threshold)%Q ->
  deduplicate similarity_threshold pb = (pb, 0).
Proof.
  intros Hthr.
  assert (Hsec : forall bs, dedup_section similarity_threshold bs = (bs, 0)).
  { intros bs. unfold dedup_section.
    destruct (length bs <? 2)%nat; [reflexivity|].
    rewrite dedup_pairs_fixed; [now rewrite bool_decide_eq_true_2|].
    intros i j _ (x & y & _ & _ & Hle). apply Qle_bool_iff in Hle.
    pose proof (text_similarity_range x y) as [_ Hone].
    apply (Qlt_not_le _ _ Hthr). eapply Qle_trans; eassumption. }
  assert (Hsecs : forall secs,
             dedup_sections similarity_threshold secs = (secs, 0)).
  { induction secs as [|[sname bs] rest IH]; [reflexivity|].
    cbn [dedup_sections]. now rewrite Hsec, IH. }
  unfold deduplicate. rewrite Hsecs. cbn. now destruct pb.
Qed.

Lemma deduplicate_threshold_above_one_witness :
  deduplicate (11 # 10) duplicate_playbook = (duplicate_playbook, 0).
Proof.
  apply (deduplicate_threshold_above_one (11 # 10) duplicate_playbook).
  reflexivity.
Defined.

(** X8: with a threshold of 0 or less every two bullets of a section count
    as duplicates: a section that holds bullets is left with exactly one. *)
Theorem deduplicate_threshold_zero (similarity_threshold : Q)
    (bs : list Bullet) :
  (similarity_threshold <= 0)%Q -> bs <> [] ->
  length (fst (dedup_section similarity_threshold bs)) = 1%nat.
Proof.
  intros Hthr Hne.
  assert (Hsim : forall s : list Bullet, (2 <= length s)%nat ->
             similar_at similarity_threshold (content <$> s) 0 1).
  { intros s Hs. destruct s as [|x [|y s]]; cbn in Hs; try lia.
    exists (content x), (content y). repeat split.
    apply Qle_bool_iff. eapply Qle_trans; [exact Hthr|].
    apply text_similarity_range. }
  unfold dedup_section. destruct (length bs <? 2)%nat eqn:Hlen.
  { apply Nat.ltb_lt in Hlen. destruct bs as [|x [|y bs]]; cbn in *;
      [congruence|reflexivity|lia]. }
  pose proof (dedup_pairs_survivors similarity_threshold bs) as Hsurv.
  pose proof (dedup_pairs_keeps_one similarity_threshold bs Hne)
    as [Hl (k & Hk & Hrm)].
  destruct (dedup_pairs similarity_threshold bs) as [bs' rm].
  cbn [fst snd] in *.
  assert (Hone : (length (drop_indices rm 0 bs') <= 1)%nat).
  { destruct (le_lt_dec (length (drop_indices rm 0 bs')) 1) as [H|H];
      [assumption|]. exfalso. apply (Hsurv 0%nat 1%nat); [lia|].
    apply Hsim. lia. }
  assert (Hsome : drop_indices rm 0 bs' <> []).
  { destruct (lookup_lt_is_Some_2 bs' k ltac:(lia)) as [x Hx].
    pose proof (drop_indices_keeps rm bs' 0 k x Hx Hrm) as Hin.
    intros Hnil. rewrite Hnil in Hin. inversion Hin. }
  case_bool_decide as Hempty; cbn [fst].
  - subst rm. rewrite drop_indices_empty in Hone, Hsome.
    destruct bs' as [|? [|? ?]]; cbn in *; try congruence; lia.
  - destruct (drop_indices rm 0 bs') as [|? [|? ?]]; cbn in *;
      try congruence; lia.
Qed.

Lemma deduplicate_threshold_zero_witness :
  length (fst (dedup_section 0 [dup_a; dup_b; dup_c])) = 1%nat.
Proof.
  apply (deduplicate_threshold_zero 0 [dup_a; dup_b; dup_c]);
    discriminate.
Defined.

(** ** Export and selection: bounds *)

Lemma py_len_app (a b : string) : py_len (a ++ b) = py_len a + py_len b.
Proof.
  induction a as [|c a IH]; [reflexivity|].
  change (String c a ++ b) with (String c (a ++ b)).
  cbn [py_len]. cbv zeta. rewrite IH. lia.
Qed.

Lemma concat_empty_cons (x : string) (l : list string) :
  String.concat "" (x :: l) = x ++ String.concat "" l.
Proof.
  destruct l as [|y l]; [|reflexivity].
  cbn [String.concat]. induction x as [|c x IH]; [reflexivity|].
  change (String c x ++ "") with (String c (x ++ "")). now rewrite <- IH.
Qed.

Lemma py_len_lines (bs : list Bullet) :
  py_len (String.concat "" (map bullet_line bs)) = lines_len bs.
Proof.
  induction bs as [|b bs IH]; [reflexivity|].
  cbn [map]. rewrite concat_empty_cons, py_len_app, IH. reflexivity.
Qed.

(** X9: the exported text always starts with the header, also when the
    budget is smaller than the header or negative, and its length in
    characters is at most the larger of the header's 53 characters and
    [max_tokens * 4]. *)
Theorem export_for_agent_length (log1p : Z -> Q) (pb : Playbook)
    (role : string) (max_tokens : Z) :
  (exists rest, export_for_agent log1p pb role max_tokens = header ++ rest)
  /\ py_len (export_for_agent log1p pb role max_tokens)
     <= Z.max 53 (max_tokens * 4).
Proof.
  unfold export_for_agent.
  set (sorted := sort_desc (score log1p) (export_candidates pb role)).
  destruct (append_lines_prefix (max_tokens * 4) sorted (py_len header))
    as (k & Hk & Heq & Hfit & _).
  rewrite Heq, concat_empty_cons. split; [eauto|].
  rewrite py_len_app, py_len_lines.
  destruct k as [|k].
  - rewrite take_0. change (lines_len []) with 0.
    change (py_len header) with 53. lia.
  - specialize (Hfit (S k) ltac:(lia)). lia.
Qed.

Lemma desc_trans {A : Type} (key : A -> Q) (x y z : A) :
  desc key x y -> desc key y z -> desc key x z.
Proof. unfold desc. intros Hxy Hyz. eapply Qle_trans; eassumption. Qed.

Lemma sort_desc_strongly_sorted {A : Type} (key : A -> Q) (l : list A) :
  StronglySorted (desc key) (sort_desc key l).
Proof.
  apply Sorted_StronglySorted; [|apply sort_desc_sorted].
  intros x y z. apply desc_trans.
Qed.

Lemma strongly_sorted_take_drop {A : Type} (R : A -> A -> Prop)
    (l : list A) (k : nat) :
  StronglySorted R l ->
  forall x y, x ∈ take k l -> y ∈ drop k l -> R x y.
Proof.
  intros Hs. revert k. induction Hs as [|a l Hl IH Hall]; intros k x y Hx Hy.
  - rewrite take_nil in Hx. inversion Hx.
  - destruct k as [|k]; [inversion Hx|]. cbn in Hx, Hy.
    apply elem_of_cons in Hx as [->|Hx].
    + rewrite List.Forall_forall in Hall. apply Hall.
      apply list_elem_of_In. eapply (subseteq_drop k l). exact Hy.
    + eapply IH; eassumption.
Qed.

Lemma strongly_sorted_take {A : Type} (R : A -> A -> Prop)
    (l : list A) (k : nat) :
  StronglySorted R l -> StronglySorted R (take k l).
Proof.
  intros Hs. revert k. induction Hs as [|a l Hl IH Hall]; intros k.
  - rewrite take_nil. constructor.
  - destruct k as [|k]; cbn; constructor; [apply IH|].
    rewrite List.Forall_forall in *. intros x Hx. apply Hall.
    apply list_elem_of_In. apply list_elem_of_In in Hx.
    eapply (subseteq_take k l). exact Hx.
Qed.

(** X10: for [n >= 0], [get_top_bullets] returns [min n (number of
    candidates)] bullets, in descending score order, and they are the best:
    together with the candidates left out they make up the candidates, and
    no candidate left out scores higher than a bullet returned. *)
Theorem get_top_bullets_best (log1p : Z -> Q) (pb : Playbook) (n : Z)
    (section_filter : option string) :
  0 <= n ->
  let candidates := top_candidates section_filter (sections pb) in
  let top := get_top_bullets log1p pb n section_filter in
  length top = Nat.min (Z.to_nat n) (length candidates)
  /\ Sorted (desc (score log1p)) top
  /\ exists rest,
       top ++ rest ≡ₚ candidates
       /\ forall b b', b ∈ top -> b' ∈ rest ->
            (score log1p b' <= score log1p b)%Q.
Proof.
  intros Hn candidates top. unfold top, get_top_bullets, slice_to.
  fold candidates.
  destruct (Z.ltb_spec n 0) as [Hneg|_]; [lia|].
  pose proof (sort_desc_strongly_sorted (score log1p) candidates) as Hs.
  pose proof (sort_desc_perm (score log1p) candidates) as Hperm.
  split; [|split].
  - rewrite length_take. now rewrite (Permutation_length Hperm).
  - apply StronglySorted_Sorted, strongly_sorted_take, Hs.
  - exists (drop (Z.to_nat n) (sort_desc (score log1p) candidates)).
    split; [now rewrite take_drop|].
    intros b b' Hb Hb'.
    exact (strongly_sorted_take_drop _ _ _ Hs b b' Hb Hb').
Qed.

Lemma get_top_bullets_best_witness :
  length (get_top_bullets log1p_table long_playbook 1 None) = 1%nat.
Proof.
  destruct (get_top_bullets_best log1p_table long_playbook 1 None ltac:(lia))
    as [Hlen _].
  exact Hlen.
Defined.

(** ** The scanner: what it finds and what it remembers *)

Lemma flat_map_str_of (l : list string) : flat_map str_of (map JStr l) = l.
Proof. induction l as [|x l IH]; [reflexivity|]. cbn. now rewrite IH. Qed.

Lemma forallb_hashable_strs (l : list string) :
  forallb hashable (map JStr l) = true.
Proof. induction l as [|x l IH]; [reflexivity|]. exact IH. Qed.

(** X11: the processed-set survives a restart: reading back the document
    written after [mark_processed] gives the old set with the id added;
    marking an id twice is marking it once.  A file that is missing, or
    whose text is no JSON, loads as the empty set; a file that exists and
    cannot be read as UTF-8 text makes the load raise what [read_text]
    raises, [UnicodeDecodeError] or [OSError], which
    [except (json.JSONDecodeError, KeyError)] does not catch. *)
Theorem processed_set_round_trip (sc : SessionScanner) (session_id : string)
    (now_iso : string) :
  _load_processed (Parsed (_save_processed (mark_processed session_id sc)
                                           now_iso))
  = Ok ({[session_id]} ∪ _processed sc)
  /\ mark_processed session_id (mark_processed session_id sc)
     = mark_processed session_id sc
  /\ _load_processed Missing = Ok ∅
  /\ _load_processed Malformed = Ok ∅
  /\ _load_processed (Unreadable NotUtf8) = Raise UnicodeDecodeError
  /\ _load_processed (Unreadable NotReadable) = Raise OSError.
Proof.
  split; [|split; [|repeat split]].
  - unfold _load_processed, _save_processed.
    change (py_get _ "processed" (JArr []))
      with (Ok (JArr (map JStr
              (elements (_processed (mark_processed session_id sc)))))).
    unfold py_str_set, py_iter. cbn [bind].
    rewrite forallb_hashable_strs, flat_map_str_of.
    f_equal. apply list_to_set_elements_L.
  - unfold mark_processed. cbn [sessions_dir _processed]. f_equal.
    apply leibniz_equiv. intros x.
    rewrite !elem_of_union, !elem_of_singleton. tauto.
Qed.

Lemma filter_sublist {A : Type} (f : A -> bool) (l : list A) :
  List.filter f l `sublist_of` l.
Proof.
  induction l as [|x l IH]; [constructor|]. cbn [List.filter].
  destruct (f x); [now apply sublist_skip|now apply sublist_cons].
Qed.

Lemma filter_filter_sublist {A : Type} (f g : A -> bool) (l : list A) :
  (forall x, f x = true -> g x = true) ->
  List.filter f l `sublist_of` List.filter g l.
Proof.
  intros Hfg. induction l as [|x l IH]; [constructor|]. cbn [List.filter].
  destruct (f x) eqn:Hf.
  - rewrite (Hfg x Hf). now apply sublist_skip.
  - destruct (g x); [now apply sublist_cons|assumption].
Qed.

(** X12: when [find_new_sessions] returns, it returns, ordered by name,
    exactly the directories of the sessions directory that are not in the
    processed-set and whose marker carries a non-empty completion
    timestamp; each of them is also found by [find_all_sessions], in the
    same order. *)
Theorem find_new_sessions_sound (sc : SessionScanner) (l : list SessionDir) :
  find_new_sessions sc = Ok l ->
  StronglySorted name_le l
  /\ l `sublist_of` find_all_sessions sc
  /\ (forall d, d ∈ l
        <-> d ∈ default [] (sessions_dir sc)
            /\ is_dir d = true /\ (name d ∉ _processed sc)
            /\ has_completion_timestamp d = true).
Proof.
  unfold find_new_sessions, find_all_sessions.
  destruct (sessions_dir sc) as [entries|]; cbn [default].
  2:{ intros [= <-]. split; [constructor|]. split; [constructor|].
      intros d. split; [intros H; inversion H|intros [H _]; inversion H]. }
  intros Hl. apply new_sessions_of_filter in Hl. subst l.
  split; [|split].
  - apply filter_strongly_sorted, sorted_by_name_sorted.
  - apply filter_filter_sublist. intros d Hd.
    apply andb_true_iff in Hd as [Hd Hts].
    apply andb_true_iff in Hd as [Hdir _]. rewrite Hdir. cbn [andb].
    unfold has_completion_timestamp in Hts. unfold state_file_exists.
    destruct (state_file d); try discriminate; reflexivity.
  - intros d. rewrite list_elem_of_In, List.filter_In, <- list_elem_of_In.
    rewrite (sorted_by_name_perm entries).
    rewrite !andb_true_iff, negb_true_iff, bool_decide_eq_false. tauto.
Qed.

Lemma find_new_sessions_sound_witness :
  StronglySorted name_le [passed_session].
Proof.
  assert (H : find_new_sessions (mkSessionScanner (Some [passed_session]) ∅)
              = Ok [passed_session]) by (vm_compute; reflexivity).
  destruct (find_new_sessions_sound _ _ H) as [Hs _].
  exact Hs.
Defined.

Lemma new_sessions_of_marked (processed : gset string) (session_id : string)
    (entries : list SessionDir) :
  forall l, new_sessions_of processed entries = Ok l ->
    new_sessions_of ({[session_id]} ∪ processed) entries
    = Ok (List.filter (fun d => negb (String.eqb (name d) session_id)) l).
Proof.
  induction entries as [|d rest IH]; intros l Hl.
  - cbn in Hl. injection Hl as <-. reflexivity.
  - cbn [new_sessions_of] in *.
    destruct (is_dir d); cbn [negb] in *; [|now apply IH].
    destruct (decide (name d ∈ processed)) as [Hin|Hin].
    + rewrite bool_decide_eq_true_2 in Hl by assumption.
      rewrite bool_decide_eq_true_2 by (now apply elem_of_union_r).
      now apply IH.
    + rewrite bool_decide_eq_false_2 in Hl by assumption.
      destruct (String.eqb_spec (name d) session_id) as [Heq|Hne].
      * rewrite bool_decide_eq_true_2
          by (apply elem_of_union_l, elem_of_singleton; exact Heq).
        destruct (state_file d) as [|why| |state];
          [now apply IH|discriminate|now apply IH|].
        destruct (py_get state "completed_at" JNull) as [v|e];
          [|discriminate].
        cbn [bind] in Hl.
        destruct (new_sessions_of processed rest) as [rest'|e];
          [|discriminate].
        cbn [bind] in Hl. injection Hl as <-. rewrite (IH rest' eq_refl).
        destruct (truthy v); [|reflexivity]. cbn [List.filter].
        now rewrite (proj2 (String.eqb_eq _ _) Heq).
      * rewrite bool_decide_eq_false_2.
        2:{ rewrite elem_of_union, elem_of_singleton. tauto. }
        destruct (state_file d) as [|why| |state];
          [now apply IH|discriminate|now apply IH|].
        destruct (py_get state "completed_at" JNull) as [v|e];
          [|discriminate].
        cbn [bind] in *.
        destruct (new_sessions_of processed rest) as [rest'|e];
          [|discriminate].
        cbn [bind] in Hl. injection Hl as <-. rewrite (IH rest' eq_refl).
        cbn [bind]. destruct (truthy v); [|reflexivity]. cbn [List.filter].
        now rewrite (proj2 (String.eqb_neq _ _) Hne).
Qed.

(** X13: marking a session processed takes it, and nothing else, out of
    what [find_new_sessions] returns: the next scan returns the former
    result without the sessions of that name, in the same order, so the
    marked session is not offered again. *)
Theorem mark_processed_removes (sc : SessionScanner) (session_id : string)
    (l : list SessionDir) :
  find_new_sessions sc = Ok l ->
  find_new_sessions (mark_processed session_id sc)
  = Ok (List.filter (fun d => negb (String.eqb (name d) session_id)) l)
  /\ (forall l', find_new_sessions (mark_processed session_id sc) = Ok l' ->
        forall d, d ∈ l' -> name d <> session_id).
Proof.
  intros Hl.
  assert (Hmarked : find_new_sessions (mark_processed session_id sc)
            = Ok (List.filter
                    (fun d => negb (String.eqb (name d) session_id)) l)).
  { unfold find_new_sessions, mark_processed in *.
    cbn [sessions_dir _processed].
    destruct (sessions_dir sc) as [entries|].
    - now apply new_sessions_of_marked.
    - injection Hl as <-. reflexivity. }
  split; [exact Hmarked|].
  intros l' Hl' d Hd. rewrite Hmarked in Hl'. injection Hl' as <-.
  apply list_elem_of_In, List.filter_In in Hd as [_ Hd].
  apply negb_true_iff, String.eqb_neq in Hd. exact Hd.
Qed.

Lemma mark_processed_removes_witness :
  find_new_sessions
    (mark_processed "session_0001"
       (mkSessionScanner (Some [passed_session]) ∅))
  = Ok [].
Proof.
  assert (H : find_new_sessions (mkSessionScanner (Some [passed_session]) ∅)
              = Ok [passed_session]) by (vm_compute; reflexivity).
  destruct (mark_processed_removes _ "session_0001" _ H) as [Hm _].
  exact Hm.
Defined.

(** ** The trace log and the files of a session *)

(** X14: a line of the trace log that is no JSON, or whose JSON value is no
    object, ends the reading of the log: the entries before it are kept and
    every line after it is ignored. *)
Theorem read_traces_stops_at_bad_line (before after : list trace_line)
    (bad : trace_line) (t : SessionTrace) :
  (bad = LineBad \/ exists v, bad = LineJson v /\ is_object v = false) ->
  read_traces (before ++ bad :: after) t = read_traces before t.
Proof.
  intros Hbad.
  assert (Hstop : forall t', read_traces (bad :: after) t' = t').
  { intros t'. destruct Hbad as [->|(v & -> & Hv)]; [reflexivity|].
    cbn [read_traces]. destruct v; try reflexivity. discriminate. }
  revert t. induction before as [|l before IH]; intros t.
  - rewrite app_nil_l, Hstop. reflexivity.
  - rewrite <- app_comm_cons.
    destruct l as [| |entry]; cbn [read_traces]; [apply IH|reflexivity|].
    destruct (py_get entry "type" (JStr "")); [|reflexivity].
    cbv zeta. apply IH.
Qed.

Lemma read_traces_stops_at_bad_line_witness :
  read_traces
    ([LineJson (JObj [("type", JStr "build_failure")])]
       ++ LineJson (JArr [])
       :: [LineJson (JObj [("type", JStr "test_failure")])]) blank_trace
  = read_traces [LineJson (JObj [("type", JStr "build_failure")])]
      blank_trace.
Proof.
  apply read_traces_stops_at_bad_line. right. exists (JArr []).
  split; reflexivity.
Defined.

Lemma read_traces_files (lines : list trace_line) (t : SessionTrace) :
  source_files (read_traces lines t) = source_files t
  /\ test_files (read_traces lines t) = test_files t
  /\ session_id (read_traces lines t) = session_id t.
Proof.
  revert t. induction lines as [|l lines IH]; intros t; [easy|].
  destruct l as [| |entry]; cbn [read_traces]; [apply IH|easy|].
  destruct (py_get entry "type" (JStr "")) as [ty|e]; [|easy].
  cbv zeta. destruct (IH
    (if is_type ty "build_failure"
     then set_failures t (build_failures t ++ [entry]) (test_failures t)
            (rca_failures t) (sampling_results t)
     else if is_type ty "test_failure"
     then set_failures t (build_failures t) (test_failures t ++ [entry])
            (rca_failures t) (sampling_results t)
     else if is_type ty "rca_failure"
     then set_failures t (build_failures t) (test_failures t)
            (rca_failures t ++ [entry]) (sampling_results t)
     else if is_type ty "sampling_result"
     then set_failures t (build_failures t) (test_failures t)
            (rca_failures t) (sampling_results t ++ [entry])
     else t)) as (-> & -> & ->).
  destruct (is_type ty "build_failure"); [easy|].
  destruct (is_type ty "test_failure"); [easy|].
  destruct (is_type ty "rca_failure"); [easy|].
  destruct (is_type ty "sampling_result"); easy.
Qed.

Lemma read_for_claude_files (d : SessionDir) (t : SessionTrace) :
  source_files (read_for_claude d t) = source_files t
  /\ test_files (read_for_claude d t) = test_files t
  /\ session_id (read_for_claude d t) = session_id t.
Proof.
  unfold read_for_claude.
  destruct (for_claude d); [|easy].
  destruct (_find_traces_file d); [easy|].
  destruct (0 <? count (lower s) "import_error")%nat; easy.
Qed.

Lemma read_py_files_lookup (files : list (string * option string)) :
  forall (t : SessionTrace) (n : string),
    test_files (read_py_files files t) !! n
    = match last_read files n with
      | Some c => if String.prefix "test_" n then Some c
                  else test_files t !! n
      | None => test_files t !! n
      end
    /\ source_files (read_py_files files t) !! n
       = match last_read files n with
         | Some c => if String.prefix "test_" n then source_files t !! n
                     else Some c
         | None => source_files t !! n
         end.
Proof.
  induction files as [|[fname [text|]] files IH]; intros t n;
    cbn [read_py_files last_read].
  - split; reflexivity.
  - destruct (IH (if String.prefix "test_" fname
                  then set_files t (source_files t)
                         (<[fname := text]> (test_files t))
                  else set_files t (<[fname := text]> (source_files t))
                         (test_files t)) n) as [-> ->].
    destruct (last_read files n) as [c|].
    + destruct (String.prefix "test_" n) eqn:Hn;
        destruct (String.prefix "test_" fname) eqn:Hf;
        cbn [set_files source_files test_files]; split; try reflexivity;
        apply lookup_insert_ne; intros ->; congruence.
    + destruct (String.eqb_spec fname n) as [->|Hne].
      * destruct (String.prefix "test_" n);
          cbn [set_files source_files test_files]; split;
          try reflexivity; apply lookup_insert_eq.
      * destruct (String.prefix "test_" fname);
          cbn [set_files source_files test_files]; split;
          try reflexivity; now apply lookup_insert_ne.
  - pose proof (IH t n) as H.
    destruct (last_read files n); [exact H|].
    destruct (String.eqb fname n); exact H.
Qed.

Lemma parse_session_inv (d : SessionDir) (t : SessionTrace) :
  parse_session d = Ok (Some t) ->
  exists state t0,
    state_file d = Parsed state
    /\ source_files t0 = ∅ /\ test_files t0 = ∅
    /\ session_id t0 = name d
    /\ t = read_py_files (py_files d)
             (read_for_claude d
                (match _find_traces_file d with
                 | Some lines => read_traces lines t0
                 | None => t0
                 end)).
Proof.
  unfold parse_session. destruct (state_file d) as [|why| |state];
    [discriminate|discriminate|discriminate|].
  intros H. exists state.
  repeat match type of H with
         | bind ?m _ = _ =>
             destruct m; cbn [bind] in H; [|discriminate]
         end.
  cbv zeta in H. injection H as <-.
  eexists. split; [reflexivity|].
  split; [|split; [|split]]; [| | |reflexivity]; reflexivity.
Qed.

(** X15: how [parse_session] files the [*.py] files of a session: a file
    name beginning with [test_] is looked up in [test_files] only, any
    other name in [source_files] only, and the text found there is the text
    of the readable file of that name; a file that cannot be read is in
    neither map. *)
Theorem parse_session_files (d : SessionDir) (t : SessionTrace) :
  parse_session d = Ok (Some t) ->
  forall n : string,
    test_files t !! n
    = (if String.prefix "test_" n then last_read (py_files d) n else None)
    /\ source_files t !! n
       = (if String.prefix "test_" n then None else last_read (py_files d) n).
Proof.
  intros Hparse n.
  destruct (parse_session_inv d t Hparse)
    as (state & t0 & _ & Hsrc & Htst & _ & ->).
  destruct (read_py_files_lookup (py_files d)
              (read_for_claude d
                 (match _find_traces_file d with
                  | Some lines => read_traces lines t0
                  | None => t0
                  end)) n) as [-> ->].
  destruct (read_for_claude_files d
              (match _find_traces_file d with
               | Some lines => read_traces lines t0
               | None => t0
               end)) as (-> & -> & _).
  assert (Hfiles : source_files
                     (match _find_traces_file d with
                      | Some lines => read_traces lines t0
                      | None => t0
                      end) = ∅
                   /\ test_files
                        (match _find_traces_file d with
                         | Some lines => read_traces lines t0
                         | None => t0
                         end) = ∅).
  { destruct (_find_traces_file d) as [lines|]; [|now split].
    destruct (read_traces_files lines t0) as (-> & -> & _). now split. }
  destruct Hfiles as [-> ->]. rewrite !lookup_empty.
  destruct (last_read (py_files d) n), (String.prefix "test_" n);
    split; reflexivity.
Qed.

Lemma parse_session_files_witness :
  exists t, parse_session files_session = Ok (Some t)
    /\ test_files t !! "test_app.py" = Some "assert True"
    /\ source_files t !! "test_app.py" = None
    /\ source_files t !! "app.py" = Some "print(1)"
    /\ source_files t !! "broken.py" = None.
Proof.
  destruct (parse_session files_session) as [[t|]|e] eqn:Hparse;
    [|vm_compute in Hparse; discriminate|vm_compute in Hparse; discriminate].
  exists t. split; [reflexivity|].
  pose proof (parse_session_files files_session t Hparse) as Hfiles.
  destruct (Hfiles "test_app.py") as [-> ->].
  destruct (Hfiles "app.py") as [_ ->].
  destruct (Hfiles "broken.py") as [_ ->].
  repeat split; reflexivity.
Defined.

Lemma count_passed_raises (cs : list json) (e : pyexn) :
  count_passed cs = Raise e -> e = AttributeError.
Proof.
  induction cs as [|c cs IH]; [discriminate|].
  cbn [count_passed]. destruct c; cbn [py_get bind];
    try (intros H; injection H as <-; reflexivity).
  destruct (count_passed cs) as [n|e']; cbn [bind]; [discriminate|].
  intros H. injection H as <-. now apply IH.
Qed.

Lemma py_get_raises (v : json) (k : string) (default : json) (e : pyexn) :
  py_get v k default = Raise e -> e = AttributeError.
Proof. destruct v; cbn [py_get]; congruence. Qed.

Lemma py_iter_raises (v : json) (e : pyexn) :
  py_iter v = Raise e -> e = TypeError.
Proof. destruct v; cbn [py_iter]; congruence. Qed.

Lemma py_len_of_raises (v : json) (e : pyexn) :
  py_len_of v = Raise e -> e = TypeError.
Proof. destruct v; cbn [py_len_of]; congruence. Qed.

Lemma parse_session_raises (d : SessionDir) (e : pyexn) :
  parse_session d = Raise e ->
  (exists why, state_file d = Unreadable why /\ e = read_error why)
  \/ ((exists state, state_file d = Parsed state)
      /\ (e = AttributeError \/ e = TypeError)).
Proof.
  unfold parse_session.
  destruct (state_file d) as [|why| |state];
    [discriminate| |discriminate|].
  { intros H. injection H as <-. left. now exists why. }
  intros H. right. split; [now exists state|].
  repeat match type of H with
         | bind ?m _ = _ =>
             let Hm := fresh "Hm" in
             destruct m eqn:Hm; cbn [bind] in H;
             [|injection H as <-;
               first [apply py_get_raises in Hm; now left
                     |apply py_iter_raises in Hm; now right
                     |apply py_len_of_raises in Hm; now right
                     |apply count_passed_raises in Hm; now left]]
         end.
  discriminate.
Qed.

Lemma parse_session_marker (d d' : SessionDir) :
  state_file d' = state_file d ->
  match parse_session d with
  | Raise e => parse_session d' = Raise e
  | Ok None => parse_session d' = Ok None
  | Ok (Some _) => exists t', parse_session d' = Ok (Some t')
  end.
Proof.
  unfold parse_session. intros ->.
  destruct (state_file d) as [|why| |state];
    [reflexivity|reflexivity|reflexivity|].
  repeat (match goal with
          | |- context [bind ?m _] => destruct m
          end; cbn [bind]);
    try reflexivity.
  eexists. reflexivity.
Qed.


(** ** Delta updates *)

Lemma find_bullet_Some (i : string) (bs : list Bullet) (b : Bullet) :
  find_bullet i bs = Some b -> id b = i /\ b ∈ bs.
Proof.
  induction bs as [|x bs IH]; [discriminate|]. cbn [find_bullet].
  destruct (String.eqb_spec (id x) i) as [Hx|Hx].
  - intros H. injection H as <-. split; [exact Hx|apply elem_of_cons; now left].
  - intros H. destruct (IH H) as [? ?]. split; [assumption|].
    apply elem_of_cons. now right.
Qed.

Lemma find_bullet_None (i : string) (bs : list Bullet) :
  find_bullet i bs = None <-> i ∉ map id bs.
Proof.
  induction bs as [|x bs IH]; cbn [find_bullet map].
  - split; [intros _; apply not_elem_of_nil|reflexivity].
  - rewrite not_elem_of_cons.
    destruct (String.eqb_spec (id x) i) as [Hx|Hx].
    + split; [discriminate|]. intros [Hne _]. now elim Hne.
    + rewrite IH. split; [intros H; split; [congruence|exact H]|tauto].
Qed.

Lemma get_bullet_in_None (secs : list (string * list Bullet)) (i : string) :
  get_bullet_in secs i = None
  <-> i ∉ flat_map (fun s => map id (snd s)) secs.
Proof.
  induction secs as [|[name bs] secs IH]; cbn [get_bullet_in flat_map snd].
  - split; [intros _; apply not_elem_of_nil|reflexivity].
  - rewrite not_elem_of_app, <- IH, <- find_bullet_None.
    destruct (find_bullet i bs); [|tauto].
    split; [discriminate|]. intros [H _]. discriminate.
Qed.

Section SetFound.
Variable f : Bullet -> Bullet.
Hypothesis f_id : forall b, id (f b) = id b.

Lemma find_set_found_same (i : string) (bs : list Bullet) :
  find_bullet i (set_found i f bs) = option_map f (find_bullet i bs).
Proof.
  induction bs as [|x bs IH]; [reflexivity|]. cbn [set_found find_bullet].
  destruct (String.eqb_spec (id x) i) as [Hx|Hx]; cbn [find_bullet].
  - rewrite f_id, (proj2 (String.eqb_eq _ _) Hx). reflexivity.
  - rewrite (proj2 (String.eqb_neq _ _) Hx). exact IH.
Qed.

Lemma find_set_found_other (i other : string) (bs : list Bullet) :
  other <> i ->
  find_bullet other (set_found i f bs) = find_bullet other bs.
Proof.
  intros Hne. induction bs as [|x bs IH]; [reflexivity|].
  cbn [set_found find_bullet].
  destruct (String.eqb_spec (id x) i) as [Hx|Hx]; cbn [find_bullet].
  - rewrite f_id.
    destruct (String.eqb_spec (id x) other) as [Ho|_]; [congruence|].
    reflexivity.
  - rewrite IH. reflexivity.
Qed.

Lemma set_found_length (i : string) (bs : list Bullet) :
  length (set_found i f bs) = length bs.
Proof.
  induction bs as [|x bs IH]; [reflexivity|]. cbn [set_found].
  destruct (String.eqb (id x) i); cbn [length]; congruence.
Qed.

Lemma get_set_found_same (i : string) (secs : list (string * list Bullet)) :
  get_bullet_in (set_found_in i f secs) i
  = option_map f (get_bullet_in secs i).
Proof.
  induction secs as [|[name bs] secs IH]; [reflexivity|].
  cbn [set_found_in get_bullet_in].
  destruct (find_bullet i bs) as [b|] eqn:Hb; cbn [get_bullet_in].
  - rewrite find_set_found_same, Hb. reflexivity.
  - rewrite Hb. exact IH.
Qed.

Lemma get_set_found_other (i other : string)
    (secs : list (string * list Bullet)) :
  other <> i ->
  get_bullet_in (set_found_in i f secs) other = get_bullet_in secs other.
Proof.
  intros Hne. induction secs as [|[name bs] secs IH]; [reflexivity|].
  cbn [set_found_in get_bullet_in].
  destruct (find_bullet i bs) as [b|]; cbn [get_bullet_in].
  - rewrite find_set_found_other by exact Hne. reflexivity.
  - rewrite IH. reflexivity.
Qed.

Lemma set_found_in_shape (i : string) (secs : list (string * list Bullet)) :
  map fst (set_found_in i f secs) = map fst secs
  /\ map (fun s => Z.of_nat (length (snd s))) (set_found_in i f secs)
     = map (fun s => Z.of_nat (length (snd s))) secs.
Proof.
  induction secs as [|[name bs] secs [IH1 IH2]]; [now split|].
  cbn [set_found_in]. destruct (find_bullet i bs); cbn [map fst snd].
  - rewrite set_found_length. now split.
  - rewrite IH1, IH2. now split.
Qed.
End SetFound.

Lemma count_reference_quality (helpful : bool) (now : string) (b : Bullet) :
  if helpful
  then (quality_ratio b <= quality_ratio (count_reference helpful now b))%Q
  else (quality_ratio (count_reference helpful now b) <= quality_ratio b)%Q.
Proof.
  destruct (helpful_count b + harmful_count b)%N as [|p] eqn:Hp.
  - rewrite (quality_ratio_zero b Hp).
    assert (Hh : helpful_count b = 0%N) by lia.
    assert (Hm : harmful_count b = 0%N) by lia.
    destruct helpful.
    + rewrite (quality_ratio_pos (count_reference true now b) 1)
        by (cbn [count_reference helpful_count harmful_count]; lia).
      cbn [count_reference helpful_count]. rewrite Hh.
      unfold Qle. cbn. lia.
    + rewrite (quality_ratio_pos (count_reference false now b) 1)
        by (cbn [count_reference helpful_count harmful_count]; lia).
      cbn [count_reference helpful_count]. rewrite Hh.
      unfold Qle. cbn. lia.
  - destruct helpful.
    + rewrite (quality_ratio_pos b p Hp),
        (quality_ratio_pos (count_reference true now b) (p + 1))
        by (cbn [count_reference helpful_count harmful_count]; lia).
      cbn [count_reference helpful_count].
      unfold Qle. cbn [Qnum Qden]. nia.
    + rewrite (quality_ratio_pos b p Hp),
        (quality_ratio_pos (count_reference false now b) (p + 1))
        by (cbn [count_reference helpful_count harmful_count]; lia).
      cbn [count_reference helpful_count].
      unfold Qle. cbn [Qnum Qden]. nia.
Qed.

(** X17: [update_counts].  An id that is not in the playbook leaves the
    playbook as it is.  Otherwise the bullet [get_bullet] finds is the one
    changed: it gets one more reference and the time of the call as
    [last_referenced]; a helpful reference never lowers its
    [quality_ratio], a harmful one never raises it.  Bullets with another
    id are found as before, and the number of bullets, the metadata and
    the section names are unchanged. *)
Theorem update_counts_effect (now : string) (pb : Playbook)
    (bullet_id : string) (helpful : bool) :
  (get_bullet pb bullet_id = None ->
   update_counts now pb bullet_id helpful = pb)
  /\ (forall b, get_bullet pb bullet_id = Some b ->
        exists b',
          get_bullet (update_counts now pb bullet_id helpful) bullet_id
          = Some b'
          /\ bullet_identity b'
             = (id b, content b, section b, source_session b, added b, now,
                last_validated b)
          /\ total_references b' = (total_references b + 1)%N
          /\ (helpful_count b <= helpful_count b')%N
          /\ (harmful_count b <= harmful_count b')%N
          /\ if helpful then (quality_ratio b <= quality_ratio b')%Q
             else (quality_ratio b' <= quality_ratio b)%Q)
  /\ (forall other, other <> bullet_id ->
        get_bullet (update_counts now pb bullet_id helpful) other
        = get_bullet pb other)
  /\ total_bullets (update_counts now pb bullet_id helpful) = total_bullets pb
  /\ metadata (update_counts now pb bullet_id helpful) = metadata pb
  /\ map fst (sections (update_counts now pb bullet_id helpful))
     = map fst (sections pb).
Proof.
  assert (Hid : forall b, id (count_reference helpful now b) = id b)
    by reflexivity.
  unfold update_counts, get_bullet.
  destruct (get_bullet_in (sections pb) bullet_id) as [b0|] eqn:Hget.
  2:{ repeat split; try reflexivity. intros b Hb. discriminate. }
  cbn [sections metadata].
  split; [discriminate|]. split; [|split; [|split; [|split]]].
  - intros b Hb. injection Hb as <-.
    exists (count_reference helpful now b0).
    rewrite (get_set_found_same _ Hid), Hget.
    split; [reflexivity|]. split; [reflexivity|].
    split; [|split; [|split]].
    + unfold total_references.
      destruct helpful; cbn [count_reference helpful_count harmful_count];
        lia.
    + destruct helpful; cbn [count_reference helpful_count]; lia.
    + destruct helpful; cbn [count_reference harmful_count]; lia.
    + apply count_reference_quality.
  - intros other Hne. now apply get_set_found_other.
  - unfold total_bullets. cbn [sections].
    now rewrite (proj2 (set_found_in_shape _ bullet_id (sections pb))).
  - reflexivity.
  - apply set_found_in_shape.
Qed.

(** X18: [update_content] keeps the statistics of the bullet it edits: the
    bullet found gets the stripped text and the time of the call as
    [last_validated] and keeps its id, section and counters, so its
    [quality_ratio], its rank score and the verdict of [_should_prune]
    are those of before.  (The content, by which deduplication and the
    curator compare bullets, is what changes.)  An id that is not in the
    playbook leaves the playbook as it is, bullets with another id are
    found as before, and the number of bullets is unchanged. *)
Theorem update_content_keeps_statistics (now : string) (pb : Playbook)
    (bullet_id new_content : string) :
  (get_bullet pb bullet_id = None ->
   update_content now pb bullet_id new_content = pb)
  /\ (forall b, get_bullet pb bullet_id = Some b ->
        exists b',
          get_bullet (update_content now pb bullet_id new_content) bullet_id
          = Some b'
          /\ content b' = strip new_content /\ last_validated b' = now
          /\ id b' = id b /\ section b' = section b
          /\ quality_ratio b' = quality_ratio b
          /\ (forall log1p, score log1p b' = score log1p b)
          /\ forall cutoff min_quality,
               _should_prune b' cutoff min_quality
               = _should_prune b cutoff min_quality)
  /\ (forall other, other <> bullet_id ->
        get_bullet (update_content now pb bullet_id new_content) other
        = get_bullet pb other)
  /\ total_bullets (update_content now pb bullet_id new_content)
     = total_bullets pb.
Proof.
  assert (Hid : forall b, id (edit_content new_content now b) = id b)
    by reflexivity.
  unfold update_content, get_bullet.
  destruct (get_bullet_in (sections pb) bullet_id) as [b0|] eqn:Hget.
  2:{ repeat split; try reflexivity. intros b Hb. discriminate. }
  cbn [sections metadata].
  split; [discriminate|]. split; [|split].
  - intros b Hb. injection Hb as <-.
    exists (edit_content new_content now b0).
    rewrite (get_set_found_same _ Hid), Hget.
    repeat split; reflexivity.
  - intros other Hne. now apply get_set_found_other.
  - unfold total_bullets. cbn [sections].
    now rewrite (proj2 (set_found_in_shape _ bullet_id (sections pb))).
Qed.

Lemma pop_found_spec (i : string) (bs bs' : list Bullet) :
  pop_found i bs = Some bs' ->
  exists l1 l2,
    map id bs = (l1 ++ i :: l2)%list /\ map id bs' = (l1 ++ l2)%list
    /\ (i ∉ l1)
    /\ length bs = S (length bs').
Proof.
  revert bs'. induction bs as [|x bs IH]; intros bs'; [discriminate|].
  cbn [pop_found].
  destruct (String.eqb_spec (id x) i) as [Hx|Hx].
  - intros H. injection H as <-. exists [], (map id bs).
    cbn [map app]. rewrite Hx.
    repeat split. apply not_elem_of_nil.
  - destruct (pop_found i bs) as [rest'|]; [|discriminate].
    intros H. injection H as <-.
    destruct (IH rest' eq_refl) as (l1 & l2 & H1 & H2 & H3 & H4).
    exists (id x :: l1), l2. cbn [map app length]. rewrite H1, H2, H4.
    repeat split. apply not_elem_of_cons. split; [congruence|exact H3].
Qed.

Lemma pop_found_None (i : string) (bs : list Bullet) :
  pop_found i bs = None <-> find_bullet i bs = None.
Proof.
  induction bs as [|x bs IH]; [easy|]. cbn [pop_found find_bullet].
  destruct (String.eqb (id x) i); [easy|].
  rewrite <- IH. destruct (pop_found i bs); easy.
Qed.

Lemma pop_found_other (i other : string) (bs bs' : list Bullet) :
  other <> i -> pop_found i bs = Some bs' ->
  find_bullet other bs' = find_bullet other bs.
Proof.
  intros Hne. revert bs'. induction bs as [|x bs IH]; intros bs';
    [discriminate|].
  cbn [pop_found find_bullet].
  destruct (String.eqb_spec (id x) i) as [Hx|Hx].
  - intros H. injection H as <-.
    destruct (String.eqb_spec (id x) other) as [Ho|_]; [congruence|].
    reflexivity.
  - destruct (pop_found i bs) as [rest'|]; [|discriminate].
    intros H. injection H as <-. cbn [find_bullet].
    rewrite (IH rest' eq_refl). reflexivity.
Qed.

Lemma remove_in_None (secs : list (string * list Bullet)) (i : string) :
  remove_in secs i = None <-> get_bullet_in secs i = None.
Proof.
  induction secs as [|[name bs] secs IH]; [easy|].
  cbn [remove_in get_bullet_in].
  pose proof (pop_found_None i bs) as Hpop.
  destruct (pop_found i bs) as [bs'|].
  - destruct (find_bullet i bs); [easy|].
    exfalso. destruct Hpop as [_ Hpop]. now specialize (Hpop eq_refl).
  - rewrite (proj1 Hpop eq_refl), <- IH.
    destruct (remove_in secs i); easy.
Qed.

Lemma remove_in_spec (secs secs' : list (string * list Bullet)) (i : string) :
  remove_in secs i = Some secs' ->
  (exists l1 l2,
     flat_map (fun s => map id (snd s)) secs = (l1 ++ i :: l2)%list
     /\ flat_map (fun s => map id (snd s)) secs' = (l1 ++ l2)%list
     /\ (i ∉ l1))
  /\ map fst secs' = map fst secs
  /\ fold_right Z.add 0 (map (fun s => Z.of_nat (length (snd s))) secs')
     = fold_right Z.add 0 (map (fun s => Z.of_nat (length (snd s))) secs) - 1
  /\ forall other, other <> i ->
       get_bullet_in secs' other = get_bullet_in secs other.
Proof.
  revert secs'. induction secs as [|[name bs] secs IH]; intros secs';
    [discriminate|].
  cbn [remove_in].
  destruct (pop_found i bs) as [bs'|] eqn:Hpop.
  - intros H. injection H as <-.
    destruct (pop_found_spec i bs bs' Hpop) as (l1 & l2 & H1 & H2 & H3 & H4).
    split; [|split; [|split]].
    + exists l1, (l2 ++ flat_map (fun s => map id (snd s)) secs)%list.
      cbn [flat_map snd]. rewrite H1, H2, <- !app_assoc. now repeat split.
    + reflexivity.
    + cbn [map fold_right snd]. lia.
    + intros other Hne. cbn [get_bullet_in].
      now rewrite (pop_found_other i other bs bs' Hne Hpop).
  - destruct (remove_in secs i) as [rest'|]; [|discriminate].
    intros H. injection H as <-.
    destruct (IH rest' eq_refl)
      as ((l1 & l2 & H1 & H2 & H3) & Hnames & Htotal & Hother).
    split; [|split; [|split]].
    + exists (map id bs ++ l1)%list, l2. cbn [flat_map snd].
      rewrite H1, H2, <- !app_assoc. repeat split.
      apply not_elem_of_app. split; [|exact H3].
      apply find_bullet_None, pop_found_None, Hpop.
    + cbn [map fst]. now rewrite Hnames.
    + cbn [map fold_right snd]. lia.
    + intros other Hne. cbn [get_bullet_in]. now rewrite (Hother other Hne).
Qed.

(** X19: [remove_bullet] returns [False] and leaves the playbook as it is
    exactly when [get_bullet] finds no bullet with the id.  Otherwise it
    returns [True] and takes out one bullet, the first with that id: the
    number of bullets drops by one, [total_bullets_pruned] grows by one,
    the other counters and the section names stay, and bullets with
    another id are found as before.  When the ids of the playbook are
    pairwise distinct, the id is no longer found afterwards. *)
Theorem remove_bullet_effect (pb : Playbook) (bullet_id : string) :
  (snd (remove_bullet pb bullet_id) = false
   <-> get_bullet pb bullet_id = None)
  /\ (snd (remove_bullet pb bullet_id) = false ->
      fst (remove_bullet pb bullet_id) = pb)
  /\ (snd (remove_bullet pb bullet_id) = true ->
      total_bullets (fst (remove_bullet pb bullet_id)) = total_bullets pb - 1
      /\ total_bullets_pruned (metadata (fst (remove_bullet pb bullet_id)))
         = total_bullets_pruned (metadata pb) + 1
      /\ total_sessions_analyzed (metadata (fst (remove_bullet pb bullet_id)))
         = total_sessions_analyzed (metadata pb)
      /\ total_deltas_applied (metadata (fst (remove_bullet pb bullet_id)))
         = total_deltas_applied (metadata pb)
      /\ map fst (sections (fst (remove_bullet pb bullet_id)))
         = map fst (sections pb)
      /\ (exists l1 l2,
            all_ids pb = (l1 ++ bullet_id :: l2)%list
            /\ all_ids (fst (remove_bullet pb bullet_id)) = (l1 ++ l2)%list
            /\ (bullet_id ∉ l1))
      /\ forall other, other <> bullet_id ->
           get_bullet (fst (remove_bullet pb bullet_id)) other
           = get_bullet pb other)
  /\ (NoDup (all_ids pb) ->
      get_bullet (fst (remove_bullet pb bullet_id)) bullet_id = None).
Proof.
  unfold remove_bullet, get_bullet, all_ids, total_bullets.
  pose proof (remove_in_None (sections pb) bullet_id) as Hnone.
  destruct (remove_in (sections pb) bullet_id) as [secs|] eqn:Hrm;
    cbn [fst snd].
  - destruct (remove_in_spec _ _ _ Hrm)
      as ((l1 & l2 & H1 & H2 & H3) & Hnames & Htotal & Hother).
    split; [|split; [|split]].
    + split; [discriminate|]. intros Hget.
      destruct Hnone as [_ Hnone]. now specialize (Hnone Hget).
    + discriminate.
    + intros _. cbn [add_pruned sections metadata total_bullets_pruned
                     total_sessions_analyzed total_deltas_applied].
      repeat split; try assumption. now exists l1, l2.
    + intros Hdup. cbn [add_pruned sections].
      apply get_bullet_in_None. rewrite H2. rewrite H1 in Hdup.
      apply NoDup_app in Hdup as (_ & Hdisj & Hdup2).
      apply NoDup_cons in Hdup2 as [Hnotin _].
      apply not_elem_of_app. split; assumption.
  - split; [|split; [|split]].
    + split; [intros _; now apply Hnone|reflexivity].
    + reflexivity.
    + discriminate.
    + intros _. now apply Hnone.
Qed.

(** ** Adding bullets *)

Lemma dict_get_with_section_same (n : string)
    (f : list Bullet -> list Bullet) (secs : list (string * list Bullet)) :
  dict_get (with_section n f secs) n = option_map f (dict_get secs n).
Proof.
  induction secs as [|[k bs] secs IH]; [reflexivity|].
  cbn [with_section dict_get].
  destruct (String.eqb k n) eqn:Hk; cbn [dict_get]; rewrite Hk;
    [reflexivity|exact IH].
Qed.

Lemma dict_get_with_section_other (n other : string)
    (f : list Bullet -> list Bullet) (secs : list (string * list Bullet)) :
  other <> n ->
  dict_get (with_section n f secs) other = dict_get secs other.
Proof.
  intros Hne. induction secs as [|[k bs] secs IH]; [reflexivity|].
  cbn [with_section dict_get].
  destruct (String.eqb_spec k n) as [->|Hk]; cbn [dict_get].
  - now rewrite (proj2 (String.eqb_neq _ _) (not_eq_sym Hne)).
  - rewrite IH. reflexivity.
Qed.

Lemma with_section_names (n : string) (f : list Bullet -> list Bullet)
    (secs : list (string * list Bullet)) :
  map fst (with_section n f secs) = map fst secs.
Proof.
  induction secs as [|[k bs] secs IH]; [reflexivity|]. cbn [with_section].
  destruct (String.eqb k n); cbn [map fst]; congruence.
Qed.

Lemma with_section_total (n : string) (f : list Bullet -> list Bullet)
    (k : Z) (secs : list (string * list Bullet)) :
  (forall bs, dict_get secs n = Some bs ->
     Z.of_nat (length (f bs)) = Z.of_nat (length bs) + k) ->
  fold_right Z.add 0
    (map (fun s => Z.of_nat (length (snd s))) (with_section n f secs))
  = fold_right Z.add 0 (map (fun s => Z.of_nat (length (snd s))) secs)
    + match dict_get secs n with Some _ => k | None => 0 end.
Proof.
  induction secs as [|[name bs] secs IH]; intros Hf; [reflexivity|].
  cbn [with_section dict_get] in *.
  destruct (String.eqb name n); cbn [map fold_right snd].
  - rewrite (Hf bs eq_refl). lia.
  - rewrite (IH Hf). lia.
Qed.

Lemma with_section_ext (n : string) (f g : list Bullet -> list Bullet)
    (secs : list (string * list Bullet)) :
  (forall bs, f bs = g bs) -> with_section n f secs = with_section n g secs.
Proof.
  intros Hfg. induction secs as [|[k bs] secs IH]; [reflexivity|].
  cbn [with_section]. rewrite Hfg, IH. reflexivity.
Qed.

Lemma with_section_twice (n : string) (f g : list Bullet -> list Bullet)
    (secs : list (string * list Bullet)) :
  with_section n g (with_section n f secs)
  = with_section n (fun bs => g (f bs)) secs.
Proof.
  induction secs as [|[k bs] secs IH]; [reflexivity|].
  cbn [with_section]. destruct (String.eqb k n) eqn:Hk; cbn [with_section];
    rewrite Hk; [reflexivity|now rewrite IH].
Qed.

Lemma dict_get_snoc {V : Type} (secs : list (string * V)) (n other : string)
    (v : V) :
  dict_get (secs ++ [(n, v)]) other
  = match dict_get secs other with
    | Some x => Some x
    | None => if String.eqb n other then Some v else None
    end.
Proof.
  induction secs as [|[k x] secs IH]; [reflexivity|].
  cbn [app dict_get]. destruct (String.eqb k other); [reflexivity|exact IH].
Qed.

Lemma total_snoc (secs : list (string * list Bullet)) (n : string) :
  fold_right Z.add 0
    (map (fun s => Z.of_nat (length (snd s))) (secs ++ [(n, [])]))
  = fold_right Z.add 0 (map (fun s => Z.of_nat (length (snd s))) secs).
Proof.
  induction secs as [|[k x] secs IH]; [reflexivity|].
  cbn [app map fold_right]. rewrite IH. reflexivity.
Qed.

(** The state [add_bullet] works on, once the section is known to exist. *)
Lemma add_bullet_section (st : PlaybookState) (section_ : string) :
  let secs1 := match dict_get (sections (book st)) section_ with
               | Some _ => sections (book st)
               | None => (sections (book st) ++ [(section_, [])])%list
               end in
  dict_get secs1 section_
  = Some (default [] (dict_get (sections (book st)) section_))
  /\ (forall other, other <> section_ ->
        dict_get secs1 other = dict_get (sections (book st)) other)
  /\ fold_right Z.add 0 (map (fun s => Z.of_nat (length (snd s))) secs1)
     = total_bullets (book st).
Proof.
  cbv zeta. unfold total_bullets.
  destruct (dict_get (sections (book st)) section_) as [bs|] eqn:Hget.
  - split; [exact Hget|]. split; [intros; reflexivity|reflexivity].
  - rewrite dict_get_snoc, Hget, String.eqb_refl, total_snoc.
    split; [reflexivity|]. split; [|reflexivity]. intros other Hne. rewrite dict_get_snoc.
    destruct (dict_get (sections (book st)) other); [reflexivity|].
    now rewrite (proj2 (String.eqb_neq _ _) (not_eq_sym Hne)).
Qed.

(** X20: [add_bullet].  When it returns, the new bullet stands at the end
    of its section (created when missing), after the bullets that were
    there; the other sections hold what they held; the playbook has one
    bullet more and [total_deltas_applied] is one higher.  The bullet has
    the stripped content, no references, an id made of the section prefix
    and the section counter, which goes up by one; no [prune_stale] would
    remove it as it is.  When it raises, no bullet was added or changed:
    at most an empty section was created. *)
Theorem add_bullet_effect (added_at referenced_at : string)
    (st : PlaybookState) (section_ content_ source_session_ : string) :
  match add_bullet added_at referenced_at st section_ content_
          source_session_ with
  | Added b st' =>
      dict_get (sections (book st')) section_
      = Some (default [] (dict_get (sections (book st)) section_) ++ [b])%list
      /\ (forall other, other <> section_ ->
            dict_get (sections (book st')) other
            = dict_get (sections (book st)) other)
      /\ total_bullets (book st') = total_bullets (book st) + 1
      /\ metadata (book st')
         = {| total_sessions_analyzed :=
                total_sessions_analyzed (metadata (book st));
              total_deltas_applied :=
                total_deltas_applied (metadata (book st)) + 1;
              total_bullets_pruned :=
                total_bullets_pruned (metadata (book st)) |}
      /\ (exists prefix n,
            _section_prefix section_ = Some prefix
            /\ match dict_get (sections (book st)) section_ with
               | Some _ => _next_ids st !! section_
               | None => Some 1
               end = Some n
            /\ b = {| id := prefix ++ "-" ++ format_03d n;
                      content := strip content_;
                      section := section_;
                      helpful_count := 0;
                      harmful_count := 0;
                      source_session := source_session_;
                      added := added_at;
                      last_referenced := referenced_at;
                      last_validated := "" |}
            /\ _next_ids st' !! section_ = Some (n + 1))
      /\ (forall cutoff min_quality,
            _should_prune b cutoff min_quality = false)
  | AddIndexError st' | AddKeyError st' =>
      (forall name,
         default [] (dict_get (sections (book st')) name)
         = default [] (dict_get (sections (book st)) name))
      /\ total_bullets (book st') = total_bullets (book st)
      /\ metadata (book st') = metadata (book st)
  end.
Proof.
  pose proof (add_bullet_section st section_) as Hsec. cbv zeta in Hsec.
  assert (Hraised :
    forall st1,
      st1 = match dict_get (sections (book st)) section_ with
            | Some _ => st
            | None =>
                {| book := {| sections :=
                                (sections (book st) ++ [(section_, [])])%list;
                              metadata := metadata (book st) |};
                   _next_ids := <[section_ := 1]> (_next_ids st) |}
            end ->
      (forall name,
         default [] (dict_get (sections (book st1)) name)
         = default [] (dict_get (sections (book st)) name))
      /\ total_bullets (book st1) = total_bullets (book st)
      /\ metadata (book st1) = metadata (book st)).
  { intros st1 ->.
    destruct (dict_get (sections (book st)) section_) as [bs|] eqn:Hget;
      [now repeat split|].
    cbn [book sections metadata]. unfold total_bullets. cbn [sections].
    rewrite total_snoc. repeat split. intros name. rewrite dict_get_snoc.
    destruct (dict_get (sections (book st)) name) as [x|] eqn:Hname;
      [reflexivity|].
    destruct (String.eqb section_ name); reflexivity. }
  unfold add_bullet. cbv zeta.
  destruct (_section_prefix section_) as [prefix|]; [|now apply Hraised].
  set (st1 := match dict_get (sections (book st)) section_ with
              | Some _ => st
              | None => _
              end) in *.
  assert (Hsecs1 : sections (book st1)
                   = match dict_get (sections (book st)) section_ with
                     | Some _ => sections (book st)
                     | None => (sections (book st) ++ [(section_, [])])%list
                     end).
  { unfold st1. now destruct (dict_get (sections (book st)) section_). }
  assert (Hmeta1 : metadata (book st1) = metadata (book st)).
  { unfold st1. now destruct (dict_get (sections (book st)) section_). }
  assert (Hids1 : _next_ids st1 !! section_
                  = match dict_get (sections (book st)) section_ with
                    | Some _ => _next_ids st !! section_
                    | None => Some 1
                    end).
  { unfold st1. destruct (dict_get (sections (book st)) section_);
      [reflexivity|]. cbn [_next_ids]. apply lookup_insert_eq. }
  rewrite <- Hsecs1 in Hsec. destruct Hsec as (Hget1 & Hother1 & Htotal1).
  destruct (_next_ids st1 !! section_) as [n|] eqn:Hn;
    [|now apply Hraised].
  cbn [book sections metadata _next_ids].
  split; [|split; [|split; [|split; [|split]]]].
  - rewrite dict_get_with_section_same, Hget1. reflexivity.
  - intros other Hne.
    rewrite dict_get_with_section_other by exact Hne. now apply Hother1.
  - unfold total_bullets at 1. cbn [sections].
    rewrite (with_section_total section_ _ 1).
    + rewrite Hget1, Htotal1. reflexivity.
    + intros bs _. rewrite length_app. cbn [length]. lia.
  - now rewrite Hmeta1.
  - exists prefix, n. split; [reflexivity|].
    split; [symmetry; exact Hids1|].
    split; [reflexivity|]. apply lookup_insert_eq.
  - reflexivity.
Qed.

(** ** The curator loop *)

Lemma bumped_refl (success_ : bool) (b : Bullet) : bumped success_ b b.
Proof. unfold bumped. repeat split. lia. Qed.

Lemma bumped_trans (success_ : bool) (b1 b2 b3 : Bullet) :
  bumped success_ b1 b2 -> bumped success_ b2 b3 -> bumped success_ b1 b3.
Proof.
  intros (Hid1 & Hh1 & Hle1 & Hf1) (Hid2 & Hh2 & Hle2 & Hf2).
  unfold bumped. split; [congruence|]. split; [congruence|].
  split; [lia|]. intros Hs. rewrite (Hf2 Hs). now apply Hf1.
Qed.

Lemma fresh_bumped (session_id_ : string) (success_ : bool) (n : string)
    (b b' : Bullet) :
  fresh session_id_ success_ n b -> bumped success_ b b' ->
  fresh session_id_ success_ n b'.
Proof.
  intros (Hh & Hs & Hn & Hf) (Hid & Hh' & _ & Hf').
  injection Hid as _ _ Hsec Hsrc _ _.
  unfold fresh. split; [congruence|]. split; [congruence|].
  split; [congruence|]. intros Hfail. rewrite (Hf' Hfail). now apply Hf.
Qed.

Lemma Forall2_bumped_refl (success_ : bool) (bs : list Bullet) :
  Forall2 (bumped success_) bs bs.
Proof. induction bs; constructor; [apply bumped_refl|assumption]. Qed.

Lemma Forall2_trans_with {A : Type} (R : A -> A -> Prop) :
  (forall x y z, R x y -> R y z -> R x z) ->
  forall l1 l2 l3, Forall2 R l1 l2 -> Forall2 R l2 l3 -> Forall2 R l1 l3.
Proof.
  intros Htrans l1 l2 l3 H12. revert l3.
  induction H12 as [|x y l1 l2 Hxy _ IH]; intros l3 H23.
  - now apply Forall2_nil_inv_l in H23 as ->.
  - apply Forall2_cons_inv_l in H23 as (z & l3' & Hyz & H23 & ->).
    constructor; [eapply Htrans; eassumption|now apply IH].
Qed.

Lemma section_extended_refl (session_id_ : string) (success_ : bool)
    (s : string * list Bullet) :
  section_extended session_id_ success_ s s.
Proof.
  split; [reflexivity|]. exists (snd s), [].
  rewrite app_nil_r. repeat split; [apply Forall2_bumped_refl|constructor].
Qed.

Lemma section_extended_trans (session_id_ : string) (success_ : bool)
    (s1 s2 s3 : string * list Bullet) :
  section_extended session_id_ success_ s1 s2 ->
  section_extended session_id_ success_ s2 s3 ->
  section_extended session_id_ success_ s1 s3.
Proof.
  intros (Hn1 & k1 & e1 & Hs2 & Hk1 & He1) (Hn2 & k2 & e2 & Hs3 & Hk2 & He2).
  split; [congruence|]. rewrite Hs2 in Hk2.
  apply Forall2_app_inv_l in Hk2 as (k2a & k2b & Hka & Hkb & ->).
  exists k2a, (k2b ++ e2)%list. split; [now rewrite Hs3, app_assoc|].
  split.
  - eapply Forall2_trans_with; [apply bumped_trans|exact Hk1|exact Hka].
  - apply Forall_app. split; [|now rewrite <- Hn1].
    eapply Forall2_Forall_r; [exact Hkb|].
    eapply List.Forall_impl; [|exact He1].
    intros b Hb b' Hbb'. eapply fresh_bumped; eassumption.
Qed.

Lemma Forall2_section_extended_refl (session_id_ : string) (success_ : bool)
    (secs : list (string * list Bullet)) :
  Forall2 (section_extended session_id_ success_) secs secs.
Proof.
  induction secs; constructor; [apply section_extended_refl|assumption].
Qed.

Lemma extended_refl (session_id_ : string) (success_ : bool)
    (secs : list (string * list Bullet)) :
  extended session_id_ success_ secs secs.
Proof.
  exists []. cbn [map]. rewrite app_nil_r.
  apply Forall2_section_extended_refl.
Qed.

Lemma extended_trans (session_id_ : string) (success_ : bool)
    (secs1 secs2 secs3 : list (string * list Bullet)) :
  extended session_id_ success_ secs1 secs2 ->
  extended session_id_ success_ secs2 secs3 ->
  extended session_id_ success_ secs1 secs3.
Proof.
  intros [names1 H12] [names2 H23].
  apply Forall2_app_inv_l in H23 as (a & b & Ha & Hb & ->).
  exists (names1 ++ names2)%list. rewrite List.map_app, app_assoc.
  apply Forall2_app; [|exact Hb].
  eapply Forall2_trans_with; [apply section_extended_trans|exact H12|exact Ha].
Qed.

Lemma extended_harmless (session_id_ : string) (success_ : bool)
    (secs secs' : list (string * list Bullet)) :
  extended session_id_ success_ secs secs' ->
  harmless secs -> harmless secs'.
Proof.
  intros [names Hext] Hharm. unfold harmless in *.
  eapply Forall2_Forall_r; [exact Hext|].
  apply Forall_app. split.
  - eapply List.Forall_impl; [|exact Hharm].
    intros s Hs s' (_ & kept & extra & -> & Hkept & Hextra).
    apply Forall_app. split.
    + eapply Forall2_Forall_r; [exact Hkept|].
      eapply List.Forall_impl; [|exact Hs].
      intros b Hb b' (_ & Hh & _). congruence.
    + eapply List.Forall_impl; [|exact Hextra]. now intros b (Hb & _).
  - apply Forall_forall. intros s Hs s' (_ & kept & extra & -> & Hkept & Hextra).
    apply list_elem_of_In, List.in_map_iff in Hs as (n & <- & _).
    cbn [snd] in Hkept. apply Forall2_nil_inv_l in Hkept as ->.
    cbn [app]. eapply List.Forall_impl; [|exact Hextra].
    now intros b (Hb & _).
Qed.

Lemma with_section_extended (session_id_ : string) (success_ : bool)
    (n : string) (f : list Bullet -> list Bullet)
    (secs : list (string * list Bullet)) :
  (forall bs, dict_get secs n = Some bs ->
     section_extended session_id_ success_ (n, bs) (n, f bs)) ->
  Forall2 (section_extended session_id_ success_) secs
          (with_section n f secs).
Proof.
  induction secs as [|[k bs] secs IH]; intros Hf; [constructor|].
  cbn [with_section dict_get] in *.
  destruct (String.eqb_spec k n) as [->|Hk].
  - constructor; [now apply Hf|apply Forall2_section_extended_refl].
  - constructor; [apply section_extended_refl|now apply IH].
Qed.

Lemma bump_similar_bumped (threshold : Q) (success_ : bool)
    (now_ content_ : string) (bs bs' : list Bullet) :
  bump_similar threshold success_ now_ content_ bs = Some bs' ->
  Forall2 (bumped success_) bs bs'.
Proof.
  revert bs'. induction bs as [|b bs IH]; intros bs'; [discriminate|].
  cbn [bump_similar].
  destruct (Qlt_bool threshold (_text_similarity content_ (content b))).
  - intros H. injection H as <-.
    constructor; [|apply Forall2_bumped_refl].
    unfold bumped, bump. cbn. repeat split; destruct success_; try lia;
      try reflexivity; try discriminate.
  - destruct (bump_similar threshold success_ now_ content_ bs) as [rest'|];
      [|discriminate].
    intros H. injection H as <-.
    constructor; [apply bumped_refl|now apply IH].
Qed.

Lemma set_last_snoc (f : Bullet -> Bullet) (bs : list Bullet) (b : Bullet) :
  set_last f (bs ++ [b]) = (bs ++ [f b])%list.
Proof.
  induction bs as [|x bs IH]; [reflexivity|].
  cbn [app set_last]. rewrite IH.
  destruct (bs ++ [b])%list eqn:Hnil; [|reflexivity].
  now destruct bs.
Qed.

(** The two shapes of the sections [add_bullet] works on, and what it
    leaves in each outcome. *)
Lemma add_bullet_cases (added_at referenced_at : string) (st : PlaybookState)
    (n content_ session_id_ : string) :
  exists secs1,
    (secs1 = sections (book st)
     \/ secs1 = (sections (book st) ++ [(n, [])])%list)
    /\ is_Some (dict_get secs1 n)
    /\ fold_right Z.add 0 (map (fun s => Z.of_nat (length (snd s))) secs1)
       = total_bullets (book st)
    /\ match add_bullet added_at referenced_at st n content_ session_id_ with
       | Added b st' =>
           sections (book st') = with_section n (fun bs => bs ++ [b])%list secs1
           /\ metadata (book st')
              = {| total_sessions_analyzed :=
                     total_sessions_analyzed (metadata (book st));
                   total_deltas_applied :=
                     total_deltas_applied (metadata (book st)) + 1;
                   total_bullets_pruned :=
                     total_bullets_pruned (metadata (book st)) |}
           /\ harmful_count b = 0%N /\ helpful_count b = 0%N
           /\ source_session b = session_id_ /\ section b = n
       | AddIndexError st' | AddKeyError st' =>
           sections (book st') = secs1
           /\ metadata (book st') = metadata (book st)
       end.
Proof.
  unfold add_bullet. cbv zeta.
  destruct (dict_get (sections (book st)) n) as [bs0|] eqn:Hget.
  - exists (sections (book st)). split; [now left|].
    split; [rewrite Hget; eauto|]. split; [reflexivity|].
    destruct (_section_prefix n); [|now split].
    destruct (_next_ids st !! n); [|now split].
    cbn [book sections metadata]. repeat split.
  - exists (sections (book st) ++ [(n, [])])%list. split; [now right|].
    split; [rewrite dict_get_snoc, Hget, String.eqb_refl; eauto|].
    split; [apply total_snoc|].
    destruct (_section_prefix n); [|now split].
    cbn [book sections metadata _next_ids].
    rewrite lookup_insert_eq. cbn [book sections metadata]. repeat split.
Qed.

Lemma extended_snoc_or_same (session_id_ : string) (success_ : bool)
    (n : string) (secs secs1 secs' : list (string * list Bullet)) :
  secs1 = secs \/ secs1 = (secs ++ [(n, [])])%list ->
  Forall2 (section_extended session_id_ success_) secs1 secs' ->
  extended session_id_ success_ secs secs'.
Proof.
  intros [->| ->] H; [exists []|exists [n]]; cbn [map]; [|exact H].
  now rewrite app_nil_r.
Qed.

Lemma curate_inv (clock : nat -> string) (threshold : Q)
    (session_id_ : string) (success_ : bool) (proposed : list Proposed) :
  forall (st : PlaybookState) (ticks : nat) (added0 : Z),
    extended session_id_ success_ (sections (book st))
      (sections (book (curator_state
         (curate clock threshold session_id_ success_ proposed st ticks
                 added0))))
    /\ match curate clock threshold session_id_ success_ proposed st ticks
               added0 with
       | Curated st' ticks' added' =>
           added0 <= added' <= added0 + Z.of_nat (length proposed)
           /\ total_bullets (book st')
              = total_bullets (book st) + (added' - added0)
           /\ total_deltas_applied (metadata (book st'))
              = total_deltas_applied (metadata (book st)) + (added' - added0)
           /\ total_bullets_pruned (metadata (book st'))
              = total_bullets_pruned (metadata (book st))
           /\ total_sessions_analyzed (metadata (book st'))
              = total_sessions_analyzed (metadata (book st))
           /\ (ticks <= ticks')%nat
       | CuratorRaised _ => True
       end.
Proof.
  induction proposed as [|p rest IH]; intros st ticks added0.
  { cbn [curate curator_state length]. split; [apply extended_refl|].
    repeat split; lia. }
  cbn [curate]. cbv zeta.
  destruct (String.eqb (strip (p_content p)) "").
  { destruct (IH st ticks added0) as [Hext Hrest]. split; [exact Hext|].
    destruct (curate clock threshold session_id_ success_ rest st ticks
                added0); [|exact I].
    cbn [length]. repeat split; try tauto; lia. }
  destruct (bump_similar threshold success_ (clock ticks)
              (strip (p_content p))
              (default [] (dict_get (sections (book st)) (p_section p))))
    as [bs'|] eqn:Hbump.
  - apply bump_similar_bumped in Hbump.
    set (st2 := with_book st
                  (with_section (p_section p) (fun _ => bs')
                     (sections (book st)))).
    assert (Hstep : Forall2 (section_extended session_id_ success_)
                      (sections (book st)) (sections (book st2))).
    { cbn [st2 with_book book sections].
      apply with_section_extended. intros bs Hbs. rewrite Hbs in Hbump.
      cbn [default] in Hbump. split; [reflexivity|].
      exists bs', []. cbn [snd fst]. rewrite app_nil_r.
      repeat split; [exact Hbump|constructor]. }
    assert (Htotal : total_bullets (book st2) = total_bullets (book st)).
    { unfold total_bullets. cbn [st2 with_book book sections].
      rewrite (with_section_total _ _ 0).
      - destruct (dict_get (sections (book st)) (p_section p)); lia.
      - intros bs Hbs. rewrite Hbs in Hbump. cbn [default] in Hbump.
        apply Forall2_length in Hbump. unfold Datatypes.id in Hbump.
        cbv beta. lia. }
    destruct (IH st2 (S ticks) added0) as [Hext Hrest].
    split.
    + eapply extended_trans; [|exact Hext].
      exists []. cbn [map]. now rewrite app_nil_r.
    + destruct (curate clock threshold session_id_ success_ rest st2
                  (S ticks) added0); [|exact I].
      rewrite Htotal in Hrest. cbn [length].
      cbn [st2 with_book book metadata] in Hrest.
      repeat split; try tauto; lia.
  - destruct (add_bullet_cases (clock ticks) (clock (S ticks)) st
                (p_section p) (strip (p_content p)) session_id_)
      as (secs1 & Hsecs1 & Hsome & Htotal1 & Hadd).
    destruct (add_bullet (clock ticks) (clock (S ticks)) st (p_section p)
                (strip (p_content p)) session_id_) as [b st'|st'|st'].
    + destruct Hadd as (Hsecs & Hmeta & Hharm & Hhelp & Hsrc & Hsec).
      set (b' := if success_ then set_helpful 1 b else b).
      set (st3 := if success_
                  then with_book st'
                         (with_section (p_section p)
                            (set_last (set_helpful 1)) (sections (book st')))
                  else st').
      assert (Hsecs3 : sections (book st3)
                       = with_section (p_section p)
                           (fun bs => bs ++ [b'])%list secs1).
      { unfold st3, b'. destruct success_; [|exact Hsecs].
        cbn [with_book book sections]. rewrite Hsecs, with_section_twice.
        apply with_section_ext. intros bs. apply set_last_snoc. }
      assert (Hmeta3 : metadata (book st3) = metadata (book st')).
      { unfold st3. now destruct success_. }
      assert (Hfresh : fresh session_id_ success_ (p_section p) b').
      { unfold b', fresh. destruct success_; cbn [set_helpful harmful_count
          source_session section helpful_count]; repeat split;
          try assumption; try discriminate; intros _; assumption. }
      assert (Hstep : extended session_id_ success_ (sections (book st))
                        (sections (book st3))).
      { eapply extended_snoc_or_same; [exact Hsecs1|]. rewrite Hsecs3.
        apply with_section_extended. intros bs _.
        split; [reflexivity|]. exists bs, [b']. cbn [fst snd].
        repeat split; [apply Forall2_bumped_refl|].
        constructor; [exact Hfresh|constructor]. }
      assert (Htotal : total_bullets (book st3) = total_bullets (book st) + 1).
      { unfold total_bullets at 1. rewrite Hsecs3.
        rewrite (with_section_total _ _ 1).
        - destruct Hsome as [x ->]. lia.
        - intros bs _. rewrite length_app. cbn [length]. lia. }
      destruct (IH st3 (3 + ticks)%nat (added0 + 1)) as [Hext Hrest].
      split; [eapply extended_trans; eassumption|].
      destruct (curate clock threshold session_id_ success_ rest st3
                  (3 + ticks) (added0 + 1)); [|exact I].
      rewrite Htotal, Hmeta3, Hmeta in Hrest.
      cbn [total_deltas_applied total_bullets_pruned
           total_sessions_analyzed length] in Hrest |- *.
      repeat split; try tauto; lia.
    + destruct Hadd as [Hsecs _]. cbn [curator_state].
      split; [|exact I]. rewrite Hsecs.
      eapply extended_snoc_or_same; [exact Hsecs1|].
      apply Forall2_section_extended_refl.
    + destruct Hadd as [Hsecs _]. cbn [curator_state].
      split; [|exact I]. rewrite Hsecs.
      eapply extended_snoc_or_same; [exact Hsecs1|].
      apply Forall2_section_extended_refl.
Qed.

(** X21: the curator loop of [_reflect_on_session] only adds.  Whether it
    ends or [add_bullet] raises, every section of before is still there,
    in its place, with its bullets of before in their order: each kept
    its id, content, section, source, [added] and [last_validated] and its
    harmful counter, and its helpful counter did not go down (and did not
    change when the session failed); behind them stand the bullets added,
    all of this session, without harmful references; new sections come
    last.  So a playbook without harmful references stays one.  When the
    loop ends, [bullets_added] is at most the number of proposals, the
    playbook has grown by exactly [bullets_added] bullets, and so has
    [total_deltas_applied]; the other two counters are unchanged. *)
Theorem curate_only_adds (clock : nat -> string) (threshold : Q)
    (session_id_ : string) (success_ : bool) (proposed : list Proposed)
    (st : PlaybookState) (ticks : nat) :
  extended session_id_ success_ (sections (book st))
    (sections (book (curator_state
       (curate clock threshold session_id_ success_ proposed st ticks 0))))
  /\ (harmless (sections (book st)) ->
      harmless (sections (book (curator_state
        (curate clock threshold session_id_ success_ proposed st ticks 0)))))
  /\ match curate clock threshold session_id_ success_ proposed st ticks 0
     with
     | Curated st' _ bullets_added =>
         0 <= bullets_added <= Z.of_nat (length proposed)
         /\ total_bullets (book st') = total_bullets (book st) + bullets_added
         /\ total_deltas_applied (metadata (book st'))
            = total_deltas_applied (metadata (book st)) + bullets_added
         /\ total_bullets_pruned (metadata (book st'))
            = total_bullets_pruned (metadata (book st))
         /\ total_sessions_analyzed (metadata (book st'))
            = total_sessions_analyzed (metadata (book st))
     | CuratorRaised _ => True
     end.
Proof.
  destruct (curate_inv clock threshold session_id_ success_ proposed st
              ticks 0) as [Hext Hrest].
  split; [exact Hext|].
  split; [exact (extended_harmless _ _ _ _ Hext)|].
  destruct (curate clock threshold session_id_ success_ proposed st ticks 0);
    [|exact I].
  repeat split; try tauto; lia.
Qed.

(** ** Playbooks without harmful references, and the nightly evaluation *)

Lemma harmless_should_prune (b : Bullet) (cutoff : string) (min_quality : Q) :
  harmful_count b = 0%N -> (min_quality <= 1 # 2)%Q ->
  _should_prune b cutoff min_quality = false.
Proof.
  intros Hharm Hmin. rewrite _should_prune_simple. unfold simple_should_prune.
  apply andb_false_iff. right.
  destruct (Qlt_bool (quality_ratio b) min_quality) eqn:Hlt; [|reflexivity].
  apply Qlt_bool_iff in Hlt. exfalso.
  assert (Hhalf : (1 # 2 <= quality_ratio b)%Q).
  { destruct (helpful_count b + harmful_count b)%N as [|p] eqn:Hp.
    - rewrite (quality_ratio_zero b Hp). apply Qle_refl.
    - rewrite (quality_ratio_pos b p Hp). unfold Qle. cbn [Qnum Qden]. lia. }
  apply (Qlt_irrefl min_quality).
  eapply Qle_lt_trans; [exact Hmin|].
  eapply Qle_lt_trans; [exact Hhalf|exact Hlt].
Qed.

Lemma filter_all {A : Type} (f : A -> bool) (l : list A) :
  List.Forall (fun x => f x = true) l -> List.filter f l = l.
Proof.
  induction 1 as [|x l Hx _ IH]; [reflexivity|].
  cbn [List.filter]. now rewrite Hx, IH.
Qed.

Lemma prune_sections_harmless (cutoff : string) (min_quality : Q)
    (secs : list (string * list Bullet)) :
  harmless secs -> (min_quality <= 1 # 2)%Q ->
  prune_sections cutoff min_quality secs = (secs, 0).
Proof.
  intros Hharm Hmin. induction Hharm as [|[n bs] secs Hbs _ IH];
    [reflexivity|].
  cbn [prune_sections]. rewrite IH. cbn [snd] in Hbs.
  unfold prune_section. rewrite filter_all.
  - f_equal. lia.
  - eapply List.Forall_impl; [|exact Hbs]. intros b Hb. cbv beta.
    now rewrite harmless_should_prune.
Qed.

Lemma prune_sections_keeps_harmless (cutoff : string) (min_quality : Q)
    (secs : list (string * list Bullet)) :
  harmless secs -> harmless (fst (prune_sections cutoff min_quality secs)).
Proof.
  induction 1 as [|[n bs] secs Hbs _ IH]; [constructor|].
  cbn [prune_sections].
  destruct (prune_sections cutoff min_quality secs) as [rest' pruned].
  cbn [fst] in *. constructor; [|exact IH].
  cbn [snd] in *. unfold prune_section.
  apply Forall_forall. intros b Hb.
  apply list_elem_of_In, List.filter_In in Hb as [Hb _].
  eapply Forall_forall in Hbs; [exact Hbs|]. now apply list_elem_of_In.
Qed.

Lemma dedup_inner_harmless (thr : Q) (i j : nat) (st : dedup_state) :
  Forall (fun b => harmful_count b = 0%N) (fst st) ->
  Forall (fun b => harmful_count b = 0%N) (fst (dedup_inner thr i st j)).
Proof.
  destruct st as [bs rm]. cbn [fst]. intros Hall.
  unfold dedup_inner. case_bool_decide; [assumption|].
  destruct (bs !! i) as [bi|] eqn:Hi; [|assumption].
  destruct (bs !! j) as [bj|] eqn:Hj; [|assumption].
  destruct (Qle_bool thr _); [|assumption].
  assert (Hbi : harmful_count bi = 0%N).
  { eapply Forall_lookup_1 in Hall; [exact Hall|exact Hi]. }
  assert (Hbj : harmful_count bj = 0%N).
  { eapply Forall_lookup_1 in Hall; [exact Hall|exact Hj]. }
  destruct (Qle_bool (quality_ratio bj) (quality_ratio bi)); cbn [fst];
    (apply Forall_insert; [assumption|]);
    cbn [merge_counts harmful_count]; lia.
Qed.

Lemma drop_indices_Forall (P : Bullet -> Prop) (rm : gset nat)
    (l : list Bullet) (k : nat) :
  Forall P l -> Forall P (drop_indices rm k l).
Proof.
  intros Hall. revert k. induction Hall as [|b l Hb _ IH]; intros k;
    cbn [drop_indices]; [constructor|].
  case_bool_decide; [apply IH|constructor; [exact Hb|apply IH]].
Qed.

Lemma dedup_section_harmless (thr : Q) (bs : list Bullet) :
  Forall (fun b => harmful_count b = 0%N) bs ->
  Forall (fun b => harmful_count b = 0%N) (fst (dedup_section thr bs)).
Proof.
  intros Hall. unfold dedup_section.
  destruct (length bs <? 2)%nat; [assumption|].
  assert (Hpairs : Forall (fun b => harmful_count b = 0%N)
                     (fst (dedup_pairs thr bs))).
  { unfold dedup_pairs.
    apply (fold_left_preserves
             (fun st => Forall (fun b => harmful_count b = 0%N) (fst st)));
      [|exact Hall].
    intros st i Hst. unfold dedup_outer. case_bool_decide; [assumption|].
    apply (fold_left_preserves
             (fun st => Forall (fun b => harmful_count b = 0%N) (fst st)));
      [|exact Hst].
    intros st' j. apply dedup_inner_harmless. }
  destruct (dedup_pairs thr bs) as [bs' rm]. cbn [fst] in *.
  case_bool_decide; cbn [fst]; [assumption|].
  now apply drop_indices_Forall.
Qed.

Lemma dedup_sections_harmless (thr : Q) (secs : list (string * list Bullet)) :
  harmless secs -> harmless (fst (dedup_sections thr secs)).
Proof.
  induction 1 as [|[n bs] secs Hbs _ IH]; [constructor|].
  cbn [dedup_sections].
  pose proof (dedup_section_harmless thr bs Hbs) as Hbs'.
  destruct (dedup_section thr bs) as [bs' k].
  destruct (dedup_sections thr secs) as [rest' removed].
  cbn [fst] in *. constructor; assumption.
Qed.

Lemma stats_total (pb : Playbook) :
  stats_total_bullets (stats pb) = total_bullets pb.
Proof.
  unfold stats, all_bullets, total_bullets. cbn [stats_total_bullets].
  induction (sections pb) as [|[n bs] secs IH]; [reflexivity|].
  cbn [flat_map map fold_right snd]. rewrite length_app, <- IH. lia.
Qed.

Lemma prune_stale_totals (cutoff_of : Z -> string) (days : Z)
    (min_quality : Q) (pb : Playbook) :
  0 <= snd (prune_stale cutoff_of days min_quality pb)
  /\ total_bullets (fst (prune_stale cutoff_of days min_quality pb))
     = total_bullets pb - snd (prune_stale cutoff_of days min_quality pb)
  /\ total_bullets_pruned
       (metadata (fst (prune_stale cutoff_of days min_quality pb)))
     = total_bullets_pruned (metadata pb)
       + snd (prune_stale cutoff_of days min_quality pb)
  /\ (harmless (sections pb) ->
      harmless (sections (fst (prune_stale cutoff_of days min_quality pb))))
  /\ (harmless (sections pb) -> (min_quality <= 1 # 2)%Q ->
      prune_stale cutoff_of days min_quality pb = (pb, 0)).
Proof.
  unfold prune_stale, total_bullets.
  pose proof (prune_sections_count (cutoff_of days) min_quality
                (sections pb)) as [Hpos Hsum].
  pose proof (prune_sections_keeps_harmless (cutoff_of days) min_quality
                (sections pb)) as Hkeep.
  pose proof (prune_sections_harmless (cutoff_of days) min_quality
                (sections pb)) as Hnone.
  destruct (prune_sections (cutoff_of days) min_quality (sections pb))
    as [secs pruned].
  cbn [fst snd] in *.
  destruct (Z.eqb_spec pruned 0) as [->|Hne];
    cbn [fst snd sections metadata add_pruned total_bullets_pruned].
  - repeat split; try assumption; try lia.
    intros Hharm Hmin. specialize (Hnone Hharm Hmin).
    injection Hnone as ->. now destruct pb.
  - repeat split; try assumption; try lia.
    intros Hharm Hmin. specialize (Hnone Hharm Hmin).
    injection Hnone as _ ->. now elim Hne.
Qed.

Lemma deduplicate_totals (thr : Q) (pb : Playbook) :
  0 <= snd (deduplicate thr pb)
  /\ total_bullets (fst (deduplicate thr pb))
     = total_bullets pb - snd (deduplicate thr pb)
  /\ total_bullets_pruned (metadata (fst (deduplicate thr pb)))
     = total_bullets_pruned (metadata pb) + snd (deduplicate thr pb)
  /\ (harmless (sections pb) ->
      harmless (sections (fst (deduplicate thr pb)))).
Proof.
  unfold deduplicate, total_bullets.
  pose proof (dedup_sections_count thr (sections pb)) as (Hpos & Hsum & _).
  pose proof (dedup_sections_harmless thr (sections pb)) as Hkeep.
  destruct (dedup_sections thr (sections pb)) as [secs removed].
  cbn [fst snd] in *.
  destruct (Z.eqb_spec removed 0) as [->|Hne];
    cbn [fst snd sections metadata add_pruned total_bullets_pruned];
    repeat split; try assumption; try lia.
Qed.


(** ** The extraction of training pairs *)

Lemma any_unextracted_all (extracted : gset string) (dirs : list SessionDir) :
  (forall sd, sd ∈ dirs -> name sd ∈ extracted) ->
  any_unextracted_success extracted dirs = Ok false.
Proof.
  induction dirs as [|sd dirs IH]; intros Hall; [reflexivity|].
  cbn [any_unextracted_success].
  rewrite bool_decide_eq_true_2 by (apply Hall, elem_of_cons; now left).
  apply IH. intros sd' Hsd'. apply Hall, elem_of_cons. now right.
Qed.

Lemma any_unextracted_mono (s1 s2 : gset string) (dirs : list SessionDir) :
  s1 ⊆ s2 ->
  any_unextracted_success s1 dirs = Ok false ->
  any_unextracted_success s2 dirs = Ok false.
Proof.
  intros Hsub. induction dirs as [|sd dirs IH]; [reflexivity|].
  cbn [any_unextracted_success].
  destruct (decide (name sd ∈ s2)) as [H2|H2].
  - rewrite (bool_decide_eq_true_2 _ H2).
    case_bool_decide; [exact IH|].
    destruct (parse_session sd) as [[t|]|e]; cbn [bind];
      [|exact IH|discriminate].
    destruct (success t); [discriminate|exact IH].
  - rewrite (bool_decide_eq_false_2 _ H2).
    rewrite bool_decide_eq_false_2 by (intros H1; apply H2, Hsub, H1).
    destruct (parse_session sd) as [[t|]|e]; cbn [bind];
      [|exact IH|discriminate].
    destruct (success t); [discriminate|exact IH].
Qed.

Lemma pairs_of_nonneg (t : SessionTrace) : 0 <= Handlers.pairs_of t.
Proof. unfold Handlers.pairs_of. lia. Qed.

Lemma extract_loop_spec (dirs : list SessionDir) :
  forall (s : gset string) (k : Z) (s' : gset string) (k' : Z),
    Handlers.extract_loop s k dirs = Ok (s', k') ->
    k <= k'
    /\ (forall x, x ∈ s' <-> x ∈ s \/ exists sd, sd ∈ dirs /\ name sd = x).
Proof.
  induction dirs as [|sd dirs IH]; intros s k s' k' Hrun.
  - cbn in Hrun. injection Hrun as <- <-. split; [lia|].
    intros x. split; [now left|]. intros [Hx|(sd & Hsd & _)]; [exact Hx|].
    now apply elem_of_nil in Hsd.
  - cbn [Handlers.extract_loop] in Hrun.
    assert (Hadd : forall k1,
              Handlers.extract_loop ({[name sd]} ∪ s) k1 dirs = Ok (s', k') ->
              k1 <= k'
              /\ (forall x, x ∈ s'
                    <-> x ∈ s \/ exists sd', sd' ∈ sd :: dirs /\ name sd' = x)).
    { intros k1 Hk1. destruct (IH _ _ _ _ Hk1) as [Hle Hiff].
      split; [exact Hle|]. intros x. rewrite Hiff, elem_of_union,
        elem_of_singleton. split.
      - intros [[->|Hx]|(sd' & Hsd' & Hn)]; [right|now left|right].
        + exists sd. split; [apply elem_of_cons; now left|reflexivity].
        + exists sd'. split; [apply elem_of_cons; now right|exact Hn].
      - intros [Hx|(sd' & Hsd' & Hn)]; [left; now right|].
        apply elem_of_cons in Hsd' as [->|Hsd'];
          [left; left; now symmetry|].
        right. now exists sd'. }
    case_bool_decide as Hin.
    + destruct (IH _ _ _ _ Hrun) as [Hle Hiff]. split; [exact Hle|].
      intros x. rewrite Hiff. split.
      * intros [Hx|(sd' & Hsd' & Hn)]; [now left|right].
        exists sd'. split; [apply elem_of_cons; now right|exact Hn].
      * intros [Hx|(sd' & Hsd' & Hn)]; [now left|].
        apply elem_of_cons in Hsd' as [->|Hsd']; [left; congruence|].
        right. now exists sd'.
    + destruct (parse_session sd) as [[t|]|e]; cbn [bind] in Hrun;
        [|now apply Hadd|discriminate].
      destruct (success t); [|now apply Hadd].
      destruct (Hadd _ Hrun) as [Hle Hiff]. split; [|exact Hiff].
      pose proof (pairs_of_nonneg t). lia.
Qed.

Lemma extract_loop_idle (dirs : list SessionDir) :
  forall (s : gset string) (k : Z),
    any_unextracted_success s dirs = Ok false ->
    exists s', Handlers.extract_loop s k dirs = Ok (s', k).
Proof.
  induction dirs as [|sd dirs IH]; intros s k Hidle; [now exists s|].
  cbn [any_unextracted_success Handlers.extract_loop] in *.
  case_bool_decide; [now apply IH|].
  assert (Hmore : any_unextracted_success s dirs = Ok false ->
                  exists s', Handlers.extract_loop ({[name sd]} ∪ s) k dirs
                             = Ok (s', k)).
  { intros Hrest. apply IH.
    eapply any_unextracted_mono; [|exact Hrest]. apply union_subseteq_r. }
  destruct (parse_session sd) as [[t|]|e]; cbn [bind] in *;
    [|now apply Hmore|discriminate].
  destruct (success t); [discriminate|now apply Hmore].
Qed.

(** X23: after [_extract_training_pairs] has run, no session is left to
    extract from: on the same sessions directory
    [_has_unextracted_sessions] answers [False].  The set written holds
    the names read from the file and the names of all sessions found, and
    no other; the count of pairs is not negative, and it is 0 when there
    was nothing to extract; scanner and playbook are untouched. *)
Theorem extract_training_pairs_settles (now_iso : string) (d d' : Daemon)
    (pairs_added : Z) :
  Handlers._extract_training_pairs now_iso d = Ok (d', pairs_added) ->
  _has_unextracted_sessions d' = Ok false
  /\ 0 <= pairs_added
  /\ (_has_unextracted_sessions d = Ok false -> pairs_added = 0)
  /\ (exists s s',
        read_extracted d = Ok s /\ read_extracted d' = Ok s'
        /\ forall x, x ∈ s'
             <-> x ∈ s \/ exists sd, sd ∈ find_all_sessions (scanner d)
                                     /\ name sd = x)
  /\ scanner d' = scanner d /\ playbook d' = playbook d.
Proof.
  unfold Handlers._extract_training_pairs, _has_unextracted_sessions.
  destruct (read_extracted d) as [s|e] eqn:Hread; cbn [bind];
    [|discriminate].
  destruct (Handlers.extract_loop s 0 (find_all_sessions (scanner d)))
    as [[s' k]|e] eqn:Hloop; cbn [bind]; [|discriminate].
  intros H. injection H as <- <-. cbn [scanner playbook].
  destruct (extract_loop_spec _ _ _ _ _ Hloop) as [Hle Hiff].
  assert (Hread' :
    read_extracted
      {| state := state d; scanner := scanner d; playbook := playbook d;
         extracted_sessions_json :=
           Parsed (JObj [("extracted", JArr (map JStr (elements s')));
                         ("last_updated", JStr now_iso)]);
         reanalysis_state_json := reanalysis_state_json d;
         last_eval_json := last_eval_json d; now := now d |} = Ok s').
  { unfold read_extracted. cbn [extracted_sessions_json].
    change (py_get _ "extracted" (JArr []))
      with (@Ok json (JArr (map JStr (elements s')))).
    unfold py_str_set, py_iter. cbn [bind].
    rewrite forallb_hashable_strs, flat_map_str_of.
    f_equal. apply list_to_set_elements_L. }
  rewrite Hread'. cbn [bind].
  split; [|split; [exact Hle|split; [|split; [|split; reflexivity]]]].
  - apply any_unextracted_all. intros sd Hsd. apply Hiff. right.
    now exists sd.
  - intros Hidle.
    destruct (extract_loop_idle _ s 0 Hidle) as [s'' Hs''].
    rewrite Hloop in Hs''. now injection Hs'' as _ ->.
  - exists s, s'. split; [reflexivity|]. split; [reflexivity|exact Hiff].
Qed.

Lemma extract_training_pairs_settles_witness :
  exists d',
    Handlers._extract_training_pairs "2025-01-07T00:00:00" (sample_daemon ∅)
    = Ok (d', 0)
    /\ _has_unextracted_sessions d' = Ok false.
Proof.
  eexists. split; [vm_compute; reflexivity|].
  refine (proj1 (extract_training_pairs_settles "2025-01-07T00:00:00"
                   (sample_daemon ∅) _ 0 _)).
  vm_compute. reflexivity.
Defined.

(** ** Statistics *)

Lemma quality_ratio_range (b : Bullet) :
  (0 <= quality_ratio b)%Q /\ (quality_ratio b <= 1)%Q.
Proof.
  destruct (helpful_count b + harmful_count b)%N as [|p] eqn:Hp.
  - rewrite (quality_ratio_zero b Hp). split; unfold Qle; cbn; lia.
  - rewrite (quality_ratio_pos b p Hp). split; unfold Qle; cbn [Qnum Qden];
      lia.
Qed.

Lemma sum_quality_range (bs : list Bullet) :
  (0 <= fold_right Qplus 0 (map quality_ratio bs))%Q
  /\ (fold_right Qplus 0 (map quality_ratio bs)
      <= inject_Z (Z.of_nat (length bs)))%Q.
Proof.
  induction bs as [|b bs [IH0 IH1]]; [split; apply Qle_refl|].
  cbn [map fold_right length].
  destruct (quality_ratio_range b) as [Hb0 Hb1]. split.
  - apply (Qplus_le_compat 0 _ 0 _ Hb0) in IH0. exact IH0.
  - rewrite Nat2Z.inj_succ, <- Z.add_1_l, inject_Z_plus.
    now apply Qplus_le_compat.
Qed.

Lemma sum_quality_harmless (bs : list Bullet) :
  Forall (fun b => harmful_count b = 0%N) bs ->
  ((1 # 2) * inject_Z (Z.of_nat (length bs))
   <= fold_right Qplus 0 (map quality_ratio bs))%Q.
Proof.
  induction 1 as [|b bs Hb _ IH]; [unfold Qle; cbn; lia|].
  cbn [map fold_right length].
  rewrite Nat2Z.inj_succ, <- Z.add_1_l, inject_Z_plus.
  rewrite Qmult_plus_distr_r. apply Qplus_le_compat; [|exact IH].
  rewrite Qmult_1_r.
  destruct (helpful_count b + harmful_count b)%N as [|p] eqn:Hp.
  - rewrite (quality_ratio_zero b Hp). apply Qle_refl.
  - rewrite (quality_ratio_pos b p Hp). unfold Qle. cbn [Qnum Qden]. lia.
Qed.

(** X24: [stats] is consistent with the playbook.  Its [total_bullets] is
    the property [total_bullets] and the sum of its section counts;
    [avg_quality] lies in [0,1], is 0 for an empty playbook and at least
    0.5 for a playbook without harmful references that holds a bullet;
    [most_helpful] holds the [min 5 total] bullets with the most helpful
    references, in descending order: no bullet left out has more than a
    bullet listed. *)
Theorem stats_consistent (pb : Playbook) :
  stats_total_bullets (stats pb) = total_bullets pb
  /\ fold_right Z.add 0 (map snd (stats_sections (stats pb)))
     = total_bullets pb
  /\ map fst (stats_sections (stats pb)) = map fst (sections pb)
  /\ (0 <= avg_quality (stats pb))%Q /\ (avg_quality (stats pb) <= 1)%Q
  /\ (total_bullets pb = 0 -> avg_quality (stats pb) = 0%Q)
  /\ (harmless (sections pb) -> 0 < total_bullets pb ->
      (1 # 2 <= avg_quality (stats pb))%Q)
  /\ length (most_helpful (stats pb))
     = Nat.min 5 (Z.to_nat (total_bullets pb))
  /\ Sorted (desc (fun b => inject_Z (Z.of_N (helpful_count b))))
            (most_helpful (stats pb))
  /\ exists rest,
       most_helpful (stats pb) ++ rest ≡ₚ all_bullets pb
       /\ forall b b', b ∈ most_helpful (stats pb) -> b' ∈ rest ->
            (helpful_count b' <= helpful_count b)%N.
Proof.
  pose proof (stats_total pb) as Htotal.
  split; [exact Htotal|]. rewrite <- Htotal.
  unfold stats. cbn [stats_total_bullets stats_sections avg_quality
                     most_helpful].
  split; [|split].
  { unfold all_bullets. induction (sections pb) as [|[n bs] secs IH];
      [reflexivity|].
    cbn [flat_map map fold_right snd]. rewrite length_app, IH. lia. }
  { rewrite List.map_map. reflexivity. }
  destruct (all_bullets pb) as [|b0 bs0] eqn:Hall.
  { cbn [length]. repeat split; try apply Qle_refl; try (unfold Qle; cbn; lia);
      try constructor; try lia.
    exists []. split; [reflexivity|]. intros b b' Hb. inversion Hb. }
  set (bs := b0 :: bs0) in *.
  assert (Hpos : (0 < inject_Z (Z.of_nat (length bs)))%Q).
  { unfold Qlt. cbn. lia. }
  destruct (sum_quality_range bs) as [Hs0 Hs1].
  split; [|split; [|split; [|split; [|split; [|split]]]]].
  - apply Qle_shift_div_l; [exact Hpos|]. now rewrite Qmult_0_l.
  - apply Qle_shift_div_r; [exact Hpos|]. now rewrite Qmult_1_l.
  - cbn [length bs]. lia.
  - intros Hharm _. apply Qle_shift_div_l; [exact Hpos|].
    apply sum_quality_harmless. rewrite <- Hall. unfold all_bullets.
    clear -Hharm. induction Hharm as [|s secs Hs _ IH]; [constructor|].
    cbn [flat_map]. apply Forall_app. now split.
  - unfold slice_to. cbn [Z.ltb Z.compare]. rewrite length_take.
    rewrite (Permutation_length (sort_desc_perm _ bs)). lia.
  - unfold slice_to. cbn [Z.ltb Z.compare].
    apply StronglySorted_Sorted, strongly_sorted_take,
      sort_desc_strongly_sorted.
  - unfold slice_to. cbn [Z.ltb Z.compare].
    set (key := fun b : Bullet => inject_Z (Z.of_N (helpful_count b))).
    exists (drop (Z.to_nat 5) (sort_desc key bs)). split.
    + rewrite take_drop. apply sort_desc_perm.
    + intros b b' Hb Hb'.
      pose proof (strongly_sorted_take_drop (desc key) _ (Z.to_nat 5)
                    (sort_desc_strongly_sorted key bs) b b' Hb Hb') as Hle.
      unfold desc, key in Hle. rewrite <- Zle_Qle in Hle. lia.
Qed.
